(** * BotProjectDeploy and the publish page: a shallow embedding

    The development follows two TypeScript sources of the repository:

    - the class [BotProjectDeploy] (provisioning with [create], publishing
      with [deploy], and their private helpers [pack], [unpackObject],
      [getDeploymentTemplateParam], [updateDeploymentJsonFile], ...);
    - the history-watching effect of the [Publish] page component.

    JavaScript values typed [any] in the source are modelled by the type
    [value]; objects are finite maps from property names to values.  The
    asynchronous methods are sequential ([await] at every call), so they are
    modelled in a state-and-exception monad over an abstract outside world
    whose answers are arbitrary; every call that leaves the program is
    recorded, with its arguments and its outcome, in a journal. *)

From Stdlib Require Import ZArith String List Bool.
From Stdlib Require Import SpecFloat.
From stdpp Require Import gmap strings list fin_maps pretty.

Set Warnings "-register-all".

(** ** JavaScript values *)

(** Numbers are IEEE-754 doubles; [spec_float] is the Standard Library's
    inductive description of them (zeros, infinities, NaN, finite). *)
Inductive value : Type :=
| VUndefined
| VNull
| VBool (b : bool)
| VNum (x : spec_float)
| VStr (s : string)
| VArr (l : list value)
| VObj (m : gmap string value).

(** ToBoolean: [undefined], [null], [false], [+0], [-0], [NaN] and the empty
    string are falsy; everything else, every object and array included, is
    truthy. *)
Definition truthy (v : value) : bool :=
  match v with
  | VUndefined | VNull => false
  | VBool b => b
  | VNum (S754_zero _) | VNum S754_nan => false
  | VNum _ => true
  | VStr s => negb (String.eqb s "")
  | VArr _ | VObj _ => true
  end.

(** An optional string parameter ([p?: string]): [None] is [undefined]. *)
Definition of_opt (o : option string) : value :=
  match o with
  | Some s => VStr s
  | None => VUndefined
  end.

(** ** Exceptions and results *)

(** What a JavaScript computation can throw: the [TypeError] of the language
    itself (a property read or written on [undefined] or [null], an iteration
    over a non-iterable), or the error of a rejected outside call. *)
Inductive exn : Type :=
| TypeError
| Failure (err : value).

Inductive Res (A : Type) : Type :=
| Throw (e : exn)
| Ok (a : A).
Arguments Throw {A} e.
Arguments Ok {A} a.

Definition res_bind {A B} (r : Res A) (k : A → Res B) : Res B :=
  match r with
  | Throw e => Throw e
  | Ok a => k a
  end.

(** [v.k] for the property names this program reads ([value], [luis],
    [authoringKey], [MicrosoftAppId], ...): none of them is an array index,
    ["length"] or a member of a primitive's prototype, so the read is
    [undefined] on arrays and primitives, and a [TypeError] on [undefined]
    and [null]. *)
Definition getProp (v : value) (k : string) : Res value :=
  match v with
  | VUndefined | VNull => Throw TypeError
  | VObj m => Ok (default VUndefined (m !! k))
  | _ => Ok VUndefined
  end.

(** [v.k = x] in strict mode, as observed by a later [JSON.stringify]: a
    [TypeError] on [undefined], [null] and primitives; on an array the named
    property is set but never serialised, so the array is unchanged. *)
Definition setProp (v : value) (k : string) (x : value) : Res value :=
  match v with
  | VObj m => Ok (VObj (<[k := x]> m))
  | VArr l => Ok (VArr l)
  | _ => Throw TypeError
  end.

(** [Object.assign(target, source)] on an object target: the own enumerable
    properties of the source are copied over the target's; [undefined],
    [null], numbers and booleans contribute nothing; a string or an array
    contributes its indexed elements. *)
Definition indexed (l : list value) : gmap string value :=
  list_to_map (imap (λ i x, (pretty i, x)) l).

Definition chars (s : string) : list value :=
  (λ c, VStr (String c EmptyString)) <$> list_ascii_of_string s.

Definition own_props (source : value) : gmap string value :=
  match source with
  | VObj m => m
  | VArr l => indexed l
  | VStr s => indexed (chars s)
  | _ => ∅
  end.

Definition Object_assign (target : gmap string value) (source : value)
  : gmap string value :=
  own_props source ∪ target.

(** ** The parameter envelope *)

(** [pack(scope)]: [{ value: scope }]. *)
Definition pack (scope : value) : value :=
  VObj {[ "value" := scope ]}.

(** One turn of the loop of [unpackObject]: read [objValue.value] and keep it
    under [key] when it is truthy. *)
Definition unpack_step (key : string) (objValue : value)
  (acc : Res (gmap string value)) : Res (gmap string value) :=
  res_bind acc (λ unpacked,
    res_bind (getProp objValue "value") (λ x,
      Ok (if truthy x then <[key := x]> unpacked else unpacked))).

(** [unpackObject(output)]: the [for (const key in output)] loop runs over
    the enumerable properties of [output] (none for [undefined], [null],
    numbers and booleans; the indices for strings and arrays). *)
Definition unpackObject (output : value) : Res (gmap string value) :=
  map_fold unpack_step (Ok ∅) (own_props output).

(** [getDeploymentTemplateParam(appId, appPwd, location, name,
    shouldCreateAuthoringResource)]. *)
Definition getDeploymentTemplateParam (appId : value) (appPwd : option string)
  (location name : string) (shouldCreateAuthoringResource : bool)
  : gmap string value :=
  <[ "appId" := pack appId ]>
  (<[ "appSecret" := pack (of_opt appPwd) ]>
  (<[ "appServicePlanLocation" := pack (VStr location) ]>
  (<[ "botId" := pack (VStr name) ]>
  (<[ "shouldCreateAuthoringResource" := pack (VBool shouldCreateAuthoringResource) ]>
   ∅)))).

(** Entries whose value is truthy: what [unpackObject] keeps. *)
Definition truthy_entry (kv : string * value) : Prop := truthy kv.2 = true.

Global Instance truthy_entry_dec kv : Decision (truthy_entry kv).
Proof. unfold truthy_entry. apply _. Defined.

(** ** Answers of the cloud services, as their TypeScript declarations type
    them *)

(** [ResourceManagementErrorWithDetails]. *)
Record ErrorWithDetails := {
  code : option string;
  message : option string;
}.

(** [DeploymentsValidateResponse]: [error] is present when the template is
    rejected. *)
Record DeploymentsValidateResponse := {
  error : option ErrorWithDetails;
}.

Record HttpResponse := {
  status : Z;
}.

Record DeploymentsCreateOrUpdateResponse := {
  _response : HttpResponse;
}.

(** [DeploymentsGetResponse]: [properties?.outputs] is typed [any]. *)
Record DeploymentPropertiesExtended := {
  outputs : value;
}.

Record DeploymentExtended := {
  properties : option DeploymentPropertiesExtended;
}.

Record TargetResource := {
  resourceType : option string;
}.

(** [DeploymentOperation]: [statusMessage] is typed [any]. *)
Record DeploymentOperationProperties := {
  statusMessage : value;
  targetResource : option TargetResource;
}.

Record DeploymentOperation := {
  op_properties : option DeploymentOperationProperties;
}.

(** The registered application of the graph client. *)
Record Application := {
  appId : option string;
}.

(** The [Deployment] submitted to [validate] and [createOrUpdate]. *)
Record Deployment := {
  template : value;
  parameters : gmap string value;
  mode : string;
}.

(** ** The journal of calls that leave the program *)

(** Modelled from the spec: the enumeration [BotProjectDeployLoggerType],
    declared in a file that is not among the sources.  Its members are the
    statuses of the structured progress events that the class logs. *)
Inductive BotProjectDeployLoggerType : Type :=
| PROVISION_INFO
| PROVISION_ERROR
| PROVISION_SUCCESS
| DEPLOY_INFO
| DEPLOY_SUCCESS.

(** The [message] handed to the logger. *)
Inductive payload : Type :=
| PText (s : string)
| PAny (v : value)
| PApplication (a : Application)
| PValidation (v : DeploymentsValidateResponse)
| PDeployment (d : DeploymentsCreateOrUpdateResponse).

(** What is handed to [fs.writeFile]: a literal text, or
    [JSON.stringify(v, null, 4)], kept as the value that is serialised. *)
Inductive content : Type :=
| Text (s : string)
| Stringified (v : value).

(** The three option objects handed to [request-promise]: the account query
    of LUIS (authorization and subscription-key headers), the account
    assignment (the same headers and a JSON body), and the archive upload
    (binary body, basic authorization, content type and length). *)
Inductive RequestOptions : Type :=
| AccountQuery (authorization : string) (subscriptionKey : value)
| AccountAssign (body : value) (authorization : string) (subscriptionKey : value)
| ZipUpload (body : string) (authorization : string) (contentLength : nat).

Inductive Event : Type :=
| EvLogger (st : BotProjectDeployLoggerType) (msg : payload)
| EvConsoleLog (e : exn)
| EvExistsSync (path : string) (r : bool)
| EvPathExists (path : string) (r : Res bool)
| EvReadJson (path : string) (r : Res value)
| EvReadFile (path : string) (r : Res string)
| EvReadFileSync (path : string) (r : Res string)
| EvWriteFile (path : string) (data : content) (r : Res unit)
| EvWriteJson (path : string) (doc : value) (r : Res unit)
| EvRemove (path : string) (r : Res unit)
| EvMkdir (path : string) (r : Res unit)
| EvCopy (src dst : string)
| EvGetFiles (dir : string) (r : Res (list string))
| EvExec (cmd : string) (r : Res unit)
| EvZip (source out : string) (r : Res unit)
| EvTimestamp (r : string)
| EvApplicationsCreate (displayName password : string) (r : Res Application)
| EvResourceGroupsCreateOrUpdate (group location : string) (r : Res value)
| EvDeploymentsValidate (group deployName : string) (d : Deployment)
    (r : Res DeploymentsValidateResponse)
| EvDeploymentsCreateOrUpdate (group deployName : string) (d : Deployment)
    (r : Res DeploymentsCreateOrUpdateResponse)
| EvDeploymentsGet (group deployName : string) (r : Res (option DeploymentExtended))
| EvDeploymentOperationsList (group deployName : string)
    (r : Res (option (list DeploymentOperation)))
| EvUpdatePublishingUser (user pwd : string) (r : Res value)
| EvLoadContents (files : list string) (culture suffix : string) (region : value)
    (r : Res value)
| EvBuild (args : list value) (r : Res value)
| EvWriteDialogAssets (contents : value) (folder : string) (r : Res unit)
| EvRpGet (uri : string) (opts : RequestOptions) (r : Res string)
| EvRpPost (uri : string) (opts : RequestOptions) (r : Res value).

(** ** The outside world *)

(** Everything the class calls and does not define: the file system, the
    child process, the clock, the Azure clients, the LUIS builder and the
    HTTP client.  A world of type [W] answers each call with an outcome and
    moves to a next world; no assumption is made on the answers.

    [fs_getFiles] stands for the private method [getFiles], a recursive
    [readdir] walk whose sub-walks run concurrently under [Promise.all]: it
    is taken as one query that yields the flat list of files, or fails.
    [fs_copy] only starts the copy: [dotnetPublish] resolves without waiting
    for it and drops its error.  [archiver_zip] is the archive written by
    [zipDirectory] through the archiver and its output stream. *)
Record Services (W : Type) := {
  fs_existsSync : string → W → bool * W;
  fs_pathExists : string → W → Res bool * W;
  fs_readJson : string → W → Res value * W;
  fs_readFile : string → W → Res string * W;
  fs_readFileSync : string → W → Res string * W;
  fs_writeFile : string → content → W → Res unit * W;
  fs_writeJson : string → value → W → Res unit * W;
  fs_remove : string → W → Res unit * W;
  fs_mkdir : string → W → Res unit * W;
  fs_copy : string → string → W → W;
  fs_getFiles : string → W → Res (list string) * W;
  child_exec : string → W → Res unit * W;
  archiver_zip : string → string → W → Res unit * W;
  clock_timestamp : W → string * W;
  applications_create : string → string → W → Res Application * W;
  resourceGroups_createOrUpdate : string → string → W → Res value * W;
  deployments_validate :
    string → string → Deployment → W → Res DeploymentsValidateResponse * W;
  deployments_createOrUpdate :
    string → string → Deployment → W → Res DeploymentsCreateOrUpdateResponse * W;
  deployments_get : string → string → W → Res (option DeploymentExtended) * W;
  deploymentOperations_list :
    string → string → W → Res (option (list DeploymentOperation)) * W;
  web_updatePublishingUser : string → string → W → Res value * W;
  lu_loadContents : list string → string → string → value → W → Res value * W;
  lu_build : list value → W → Res value * W;
  lu_writeDialogAssets : value → string → W → Res unit * W;
  rp_get : string → RequestOptions → W → Res string * W;
  rp_post : string → RequestOptions → W → Res value * W;
}.
Arguments fs_existsSync {W}.
Arguments fs_pathExists {W}.
Arguments fs_readJson {W}.
Arguments fs_readFile {W}.
Arguments fs_readFileSync {W}.
Arguments fs_writeFile {W}.
Arguments fs_writeJson {W}.
Arguments fs_remove {W}.
Arguments fs_mkdir {W}.
Arguments fs_copy {W}.
Arguments fs_getFiles {W}.
Arguments child_exec {W}.
Arguments archiver_zip {W}.
Arguments clock_timestamp {W}.
Arguments applications_create {W}.
Arguments resourceGroups_createOrUpdate {W}.
Arguments deployments_validate {W}.
Arguments deployments_createOrUpdate {W}.
Arguments deployments_get {W}.
Arguments deploymentOperations_list {W}.
Arguments web_updatePublishingUser {W}.
Arguments lu_loadContents {W}.
Arguments lu_build {W}.
Arguments lu_writeDialogAssets {W}.
Arguments rp_get {W}.
Arguments rp_post {W}.

(** The state threaded through a method: the world, and the journal of the
    calls made so far, most recent first. *)
Record State (W : Type) := {
  world : W;
  journal : list Event;
}.
Arguments world {W}.
Arguments journal {W}.
Arguments Build_State {W}.

Definition fresh {W} (w : W) : State W := {| world := w; journal := [] |}.

(** ** The monad of sequential asynchronous code *)

Definition M (W A : Type) : Type := State W → Res A * State W.

Definition ret {W A} (a : A) : M W A := λ s, (Ok a, s).

Definition throw {W A} (e : exn) : M W A := λ s, (Throw e, s).

Definition bind {W A B} (m : M W A) (k : A → M W B) : M W B :=
  λ s, match m s with
       | (Throw e, s') => (Throw e, s')
       | (Ok a, s') => k a s'
       end.

(** A pure step that may throw. *)
Definition lift {W A} (r : Res A) : M W A := λ s, (r, s).

(** [try { body } catch (error) { handler(error) }]. *)
Definition try_catch {W A} (body : M W A) (handler : exn → M W A) : M W A :=
  λ s, match body s with
       | (Throw e, s') => handler e s'
       | (Ok a, s') => (Ok a, s')
       end.

Definition record {W} (ev : Event) : M W unit :=
  λ s, (Ok tt, {| world := world s; journal := ev :: journal s |}).

(** A call that may reject, journalled with its outcome. *)
Definition ask {W T} (f : W → Res T * W) (ev : Res T → Event) : M W T :=
  λ s, let (r, w) := f (world s) in
       (r, {| world := w; journal := ev r :: journal s |}).

(** A call that always answers. *)
Definition ask_total {W T} (f : W → T * W) (ev : T → Event) : M W T :=
  λ s, let (r, w) := f (world s) in
       (Ok r, {| world := w; journal := ev r :: journal s |}).

(** A call whose completion is not awaited. *)
Definition fire {W} (f : W → W) (ev : Event) : M W unit :=
  λ s, (Ok tt, {| world := f (world s); journal := ev :: journal s |}).

Notation "'let!' x ':=' m 'in' k" := (bind m (λ x, k))
  (at level 10, x name, m at level 100, k at level 200,
   format "'[v' 'let!'  x  ':='  m  'in' '/' k ']'").
Notation "'do!' m 'in' k" := (bind m (λ _, k))
  (at level 10, m at level 100, k at level 200,
   format "'[v' 'do!'  m  'in' '/' k ']'").

(** [for (const x of xs) { body(x) }]. *)
Fixpoint for_each {W A} (xs : list A) (body : A → M W unit) : M W unit :=
  match xs with
  | [] => ret tt
  | x :: rest => do! body x in for_each rest body
  end.

(** [xs.filter(x => p(x))] with a predicate that may throw or call out. *)
Fixpoint filterM {W A} (p : A → M W bool) (xs : list A) : M W (list A) :=
  match xs with
  | [] => ret []
  | x :: rest =>
      let! keep := p x in
      let! kept := filterM p rest in
      ret (if keep then x :: kept else kept)
  end.

(** A method run from a fresh journal: its outcome and the journal of its
    calls. *)
Definition outcome {W A} (m : M W A) (w : W) : Res A := (m (fresh w)).1.
Definition calls {W A} (m : M W A) (w : W) : list Event :=
  journal (m (fresh w)).2.

(** ** The class [BotProjectDeploy] *)

(** The fields of an instance.  [creds_token] and [graphCreds_token] are the
    tokens wrapped by the two [TokenCredentials]. *)
Record BotProjectDeploy := {
  subId : string;
  creds_token : string;
  graphCreds_token : string;
  projPath : string;
  deploymentSettingsPath : string;
  deployFilePath : string;
  zipPath : string;
  publishFolder : string;
  settingsPath : string;
  templatePath : string;
  dotnetProjectPath : string;
  generatedFolder : string;
  remoteBotPath : string;
}.

Definition tenantId : string := "72f988bf-86f1-41af-91ab-2d7cd011db47".

(** Modelled from the spec: the interface [BotProjectDeployConfig] of the
    constructor's argument, declared in a file that is not among the
    sources: subscription id, access and graph credentials, project path,
    and the derived file-system paths, each of them optional. *)
Record BotProjectDeployConfig := {
  cfg_subId : string;
  cfg_accessToken : string;
  cfg_graphToken : string;
  cfg_projPath : string;
  cfg_deployFilePath : option string;
  cfg_zipPath : option string;
  cfg_publishFolder : option string;
  cfg_settingsPath : option string;
  cfg_deploymentSettingsPath : option string;
  cfg_templatePath : option string;
  cfg_dotnetProjectPath : option string;
  cfg_remoteBotPath : option string;
  cfg_generatedFolder : option string;
}.

(** [`${o}`] for an optional string. *)
Definition show_opt (o : option string) : string := default "undefined" o.

(** [`${validation.error}`]: an object, or [undefined]. *)
Definition show_error (o : option ErrorWithDetails) : string :=
  match o with
  | Some _ => "[object Object]"
  | None => "undefined"
  end.

(** [v === s] for a string literal [s]. *)
Definition is_string (v : value) (s : string) : bool :=
  match v with
  | VStr s' => String.eqb s' s
  | _ => false
  end.

(** [v !== null]. *)
Definition not_null (v : value) : bool :=
  match v with
  | VNull => false
  | _ => true
  end.

(** The remediation hint logged at the end of every provisioning path. *)
Definition delete_hint (resourceGroupName : string) : string :=
  "+ To delete this resource group, run 'az group delete -g "
  +:+ resourceGroupName +:+ " --no-wait'".

Definition not_valid_text : string :=
  "! Template is not valid with provided parameters. Review the log for more information.".

(** [value?.properties?.statusMessage.error]: the optional chain stops at a
    missing [properties]; the read of [error] throws on a missing
    [statusMessage]. *)
Definition operation_error (op : DeploymentOperation) : Res value :=
  match op_properties op with
  | None => Ok VUndefined
  | Some p => getProp (statusMessage p) "error"
  end.

(** [operation?.properties?.statusMessage.error.code] and [.message]. *)
Definition operation_error_field (op : DeploymentOperation) (k : string)
  : Res value :=
  match op_properties op with
  | None => Ok VUndefined
  | Some p => res_bind (getProp (statusMessage p) "error") (λ e, getProp e k)
  end.

(** [operation?.properties?.targetResource?.resourceType], interpolated. *)
Definition operation_resourceType (op : DeploymentOperation) : string :=
  match op_properties op with
  | Some p =>
      match targetResource p with
      | Some t => show_opt (resourceType t)
      | None => "undefined"
      end
  | None => "undefined"
  end.

Section Methods.
Context {W : Type}.
(** The outside world. *)
Variable svc : Services W.
(** [JSON.parse], a function of its text. *)
Variable JSON_parse : string → Res value.
(** [path.join] of two segments. *)
Variable path_join : string → string → string.
(** The string a template literal interpolates for a value typed [any]. *)
Variable ToString : value → string.

(** [new BotProjectDeploy(config)]. *)
Definition new_BotProjectDeploy (config : BotProjectDeployConfig)
  : BotProjectDeploy :=
  let projPath := cfg_projPath config in
  let publishFolder :=
    default (path_join projPath "bin\Release\netcoreapp3.1")
            (cfg_publishFolder config) in
  let remoteBotPath :=
    default (path_join publishFolder "ComposerDialogs")
            (cfg_remoteBotPath config) in
  {| subId := cfg_subId config;
     creds_token := cfg_accessToken config;
     graphCreds_token := cfg_graphToken config;
     projPath := projPath;
     deployFilePath :=
       default (path_join projPath ".deployment") (cfg_deployFilePath config);
     zipPath := default (path_join projPath "code.zip") (cfg_zipPath config);
     publishFolder := publishFolder;
     settingsPath :=
       default (path_join projPath "appsettings.deployment.json")
               (cfg_settingsPath config);
     deploymentSettingsPath :=
       default (path_join publishFolder "appsettings.deployment.json")
               (cfg_deploymentSettingsPath config);
     templatePath :=
       default (path_join (path_join projPath "DeploymentTemplates")
                          "template-with-preexisting-rg.json")
               (cfg_templatePath config);
     dotnetProjectPath :=
       default (path_join projPath "BotProject.csproj")
               (cfg_dotnetProjectPath config);
     remoteBotPath := remoteBotPath;
     generatedFolder :=
       default (path_join remoteBotPath "generated")
               (cfg_generatedFolder config) |}.

Variable this : BotProjectDeploy.

(** [this.logger({ status, message })]: the callback of the configuration
    is taken to return normally. *)
Definition logger (st : BotProjectDeployLoggerType) (msg : payload)
  : M W unit :=
  record (EvLogger st msg).

Definition readTemplateFile (templatePath : string) : M W string :=
  ask (fs_readFile svc templatePath) (EvReadFile templatePath).

(** *** Azure API accessors *)

Definition createResourceGroup (location resourceGroupName : string)
  : M W value :=
  do! logger PROVISION_INFO (PText "> Creating resource group ...") in
  ask (resourceGroups_createOrUpdate svc resourceGroupName location)
      (EvResourceGroupsCreateOrUpdate resourceGroupName location).

Definition validateDeployment (templatePath location resourceGroupName
    deployName : string) (templateParam : gmap string value)
  : M W DeploymentsValidateResponse :=
  do! logger PROVISION_INFO (PText "> Validating Azure deployment ...") in
  let! templateFile := readTemplateFile templatePath in
  let! parsed := lift (JSON_parse templateFile) in
  let deployParam :=
    {| template := parsed; parameters := templateParam;
       mode := "Incremental" |} in
  ask (deployments_validate svc resourceGroupName deployName deployParam)
      (EvDeploymentsValidate resourceGroupName deployName deployParam).

Definition createDeployment (templatePath location resourceGroupName
    deployName : string) (templateParam : gmap string value)
  : M W DeploymentsCreateOrUpdateResponse :=
  do! logger PROVISION_INFO
        (PText "> Deploying Azure services (this could take a while)...") in
  let! templateFile := readTemplateFile templatePath in
  let! parsed := lift (JSON_parse templateFile) in
  let deployParam :=
    {| template := parsed; parameters := templateParam;
       mode := "Incremental" |} in
  ask (deployments_createOrUpdate svc resourceGroupName deployName deployParam)
      (EvDeploymentsCreateOrUpdate resourceGroupName deployName deployParam).

Definition createApp (displayName appPassword : string) : M W Application :=
  ask (applications_create svc displayName appPassword)
      (EvApplicationsCreate displayName appPassword).

(** [outputs?.properties?.outputs]. *)
Definition deployment_outputs (o : option DeploymentExtended) : value :=
  match o with
  | Some d =>
      match properties d with
      | Some p => outputs p
      | None => VUndefined
      end
  | None => VUndefined
  end.

(** The document that [updateDeploymentJsonFile] writes: an empty [result]
    that receives the unpacked outputs, then the application identity. *)
Definition merged_result (outputObj : gmap string value)
    (appId : value) (appPwd : option string) : gmap string value :=
  let applicationResult : gmap string value :=
    <[ "MicrosoftAppId" := appId ]>
    (<[ "MicrosoftAppPassword" := of_opt appPwd ]> ∅) in
  Object_assign (Object_assign ∅ (VObj outputObj)) (VObj applicationResult).

(** Write updated settings back to the settings file. *)
Definition updateDeploymentJsonFile (settingsPath resourceGroupName
    deployName : string) (appId : value) (appPwd : option string)
  : M W value :=
  let! got := ask (deployments_get svc resourceGroupName deployName)
                  (EvDeploymentsGet resourceGroupName deployName) in
  if truthy (deployment_outputs got) then
    let outputResult := deployment_outputs got in
    let! outputObj := lift (unpackObject outputResult) in
    let result := merged_result outputObj appId appPwd in
    do! ask (fs_writeFile svc settingsPath (Stringified (VObj result)))
            (EvWriteFile settingsPath (Stringified (VObj result))) in
    ret (VObj result)
  else
    ret (VObj ∅).

(** *** [create] *)

(** The [forEach] over the failed operations. *)
Definition report_operation (operation : DeploymentOperation) : M W unit :=
  let! c := lift (operation_error_field operation "code") in
  if is_string c "MissingRegistrationForLocation" then
    logger PROVISION_ERROR
      (PText ("! Deployment failed for resource of type "
              +:+ operation_resourceType operation
              +:+ ". This resource is not avaliable in the location provided."))
  else
    do! logger PROVISION_ERROR
          (PText ("! Deployment failed for resource of type "
                  +:+ operation_resourceType operation +:+ ".")) in
    let! c' := lift (operation_error_field operation "code") in
    do! logger PROVISION_ERROR
          (PText ("! Code: " +:+ ToString c' +:+ ".")) in
    let! m := lift (operation_error_field operation "message") in
    logger PROVISION_ERROR (PText ("! Message: " +:+ ToString m +:+ ".")).

(** The branch under [if (!updateResult)]. *)
Definition diagnose (resourceGroupName timeStamp : string) : M W unit :=
  let! operations :=
    ask (deploymentOperations_list svc resourceGroupName timeStamp)
        (EvDeploymentOperationsList resourceGroupName timeStamp) in
  match operations with
  | Some ops =>
      let! failedOperations :=
        filterM (λ op, let! e := lift (operation_error op) in
                       ret (not_null e)) ops in
      for_each failedOperations report_operation
  | None =>
      logger PROVISION_ERROR
        (PText "! Deployment failed. Please refer to the log file for more information.")
  end.

(** [create] from the point where the application id is known. *)
Definition provision (name location environment : string)
    (appPassword luisAuthoringKey : option string) (appId : value)
  : M W (option bool) :=
  do! logger PROVISION_INFO
        (PText ("> Create App Id Success! ID: " +:+ ToString appId)) in
  let shouldCreateAuthoringResource :=
    negb (truthy (of_opt luisAuthoringKey)) in
  let resourceGroupName := name +:+ "-" +:+ environment in
  let! timeStamp := ask_total (clock_timestamp svc) EvTimestamp in
  let! rpres := createResourceGroup location resourceGroupName in
  do! logger PROVISION_INFO (PAny rpres) in
  let deploymentTemplateParam :=
    getDeploymentTemplateParam appId appPassword location name
      shouldCreateAuthoringResource in
  do! logger PROVISION_INFO (PAny (VObj deploymentTemplateParam)) in
  let! validation :=
    validateDeployment (templatePath this) location resourceGroupName
      timeStamp deploymentTemplateParam in
  do! logger PROVISION_INFO (PValidation validation) in
  match error validation with
  | Some err =>
      do! logger PROVISION_ERROR (PText not_valid_text) in
      do! logger PROVISION_ERROR
            (PText ("! Error: " +:+ show_opt (message err))) in
      do! logger PROVISION_ERROR (PText (delete_hint resourceGroupName)) in
      ret (Some false)
  | None =>
      let! deployment :=
        createDeployment (templatePath this) location resourceGroupName
          timeStamp deploymentTemplateParam in
      do! logger PROVISION_INFO (PDeployment deployment) in
      if negb (status (_response deployment) =? 200)%Z then
        do! logger PROVISION_ERROR (PText not_valid_text) in
        do! logger PROVISION_ERROR
              (PText ("! Error: " +:+ show_error (error validation))) in
        do! logger PROVISION_ERROR (PText (delete_hint resourceGroupName)) in
        ret (Some false)
      else
        let! updateResult :=
          updateDeploymentJsonFile (settingsPath this) resourceGroupName
            timeStamp appId appPassword in
        do! logger PROVISION_INFO (PAny updateResult) in
        do! (if negb (truthy updateResult)
             then diagnose resourceGroupName timeStamp
             else ret tt) in
        do! logger PROVISION_SUCCESS (PText (delete_hint resourceGroupName)) in
        ret (Some true)
  end.

(** Provision a set of Azure resources for use with a bot.  The result is
    [Some b] for [return b] and [None] for the bare [return]. *)
Definition create (name location environment : string)
    (appPassword luisAuthoringKey : option string) : M W (option bool) :=
  let! found := ask_total (fs_existsSync svc (settingsPath this))
                          (EvExistsSync (settingsPath this)) in
  if negb found then
    do! logger PROVISION_INFO
          (PText "! Could not find an 'appsettings.deployment.json' file in the current directory.") in
    ret None
  else
    let! settings := ask (fs_readJson svc (settingsPath this))
                         (EvReadJson (settingsPath this)) in
    let! settingsAppId := lift (getProp settings "MicrosoftAppId") in
    if negb (truthy settingsAppId) then
      match appPassword with
      | Some pwd =>
          if negb (truthy (VStr pwd)) then
            do! logger PROVISION_INFO (PText "App password is required") in
            ret None
          else
            do! logger PROVISION_INFO
                  (PText "> Creating App Registration ...") in
            let! appCreated := createApp name pwd in
            do! logger PROVISION_INFO (PApplication appCreated) in
            provision name location environment appPassword luisAuthoringKey
              (of_opt (appId appCreated))
      | None =>
          do! logger PROVISION_INFO (PText "App password is required") in
          ret None
      end
    else
      provision name location environment appPassword luisAuthoringKey
        settingsAppId.

(** *** [deploy] and its helpers *)

(** [Buffer.from(s).toString('base64')]. *)
Variable base64 : string → string.

Definition newline : string := String (Ascii.ascii_of_nat 10) EmptyString.

Definition botPrepareDeploy (pathToDeploymentFile : string) : M W unit :=
  let data := "[config]" +:+ newline +:+ "project = BotProject.csproj" in
  ask (fs_writeFile svc pathToDeploymentFile (Text data))
      (EvWriteFile pathToDeploymentFile (Text data)).

(** The copy of the declarative assets is started and the promise resolved
    at once: a late [reject(err)] has no effect. *)
Definition dotnetPublish (publishFolder projFolder : string)
    (botPath : option string) : M W unit :=
  let cmd := "dotnet publish " +:+ dotnetProjectPath this
             +:+ " -c release -o " +:+ publishFolder +:+ " -v q" in
  do! ask (child_exec svc cmd) (EvExec cmd) in
  let remoteBotPath := path_join publishFolder "ComposerDialogs" in
  let localBotPath := path_join projFolder "ComposerDialogs" in
  if truthy (of_opt botPath) then
    do! logger DEPLOY_INFO
          (PText ("Publishing dialogs from external bot project: "
                  +:+ show_opt botPath)) in
    fire (fs_copy svc (show_opt botPath) remoteBotPath)
         (EvCopy (show_opt botPath) remoteBotPath)
  else
    fire (fs_copy svc localBotPath remoteBotPath)
         (EvCopy localBotPath remoteBotPath).

Definition zipDirectory (source out : string) : M W unit :=
  ask (archiver_zip svc source out) (EvZip source out).

(** [fs.readFileSync(file).length > 0]. *)
Definition notEmptyLuisModel (file : string) : M W bool :=
  let! data := ask (fs_readFileSync svc file) (EvReadFileSync file) in
  ret (0 <? String.length data).

(** [s.endsWith(suffix)] and [s.includes(pattern)]. *)
Definition endsWith (s suffix : string) : bool :=
  (String.length suffix <=? String.length s)
  && String.eqb
       (substring (String.length s - String.length suffix)
                  (String.length suffix) s)
       suffix.

Definition includes (s pattern : string) : bool :=
  match index 0 pattern s with
  | Some _ => true
  | None => false
  end.

(** [x || ''] on a string and on a value typed [any]. *)
Definition or_empty (s : string) : string :=
  if truthy (VStr s) then s else "".

Definition or_empty_value (v : value) : value :=
  if truthy v then v else VStr "".

(** [getAccount(accounts, filter)]: the first account whose [AccountName]
    is [filter], or [undefined].  Only arrays and strings can be iterated
    by [for ... of]. *)
Fixpoint find_account (accounts : list value) (filter : string)
  : Res value :=
  match accounts with
  | [] => Ok VUndefined
  | account :: rest =>
      res_bind (getProp account "AccountName") (λ n,
        if is_string n filter then Ok account
        else find_account rest filter)
  end.

Definition getAccount (accounts : value) (filter : string) : Res value :=
  match accounts with
  | VArr l => find_account l filter
  | VStr s => find_account (chars s) filter
  | _ => Throw TypeError
  end.

(** Upload the zip file to Azure. *)
Definition deployZip (zipPath name env : string) : M W unit :=
  do! logger DEPLOY_INFO (PText "Retrieve publishing details ...") in
  let userName := name +:+ "-" +:+ env in
  let! now := ask_total (clock_timestamp svc) EvTimestamp in
  let userPwd := name +:+ "-" +:+ env +:+ "-" +:+ now in
  let! updateRes := ask (web_updatePublishingUser svc userName userPwd)
                        (EvUpdatePublishingUser userName userPwd) in
  do! logger DEPLOY_INFO (PAny updateRes) in
  let publishEndpoint :=
    "https://" +:+ name +:+ "-" +:+ env +:+ ".scm.azurewebsites.net/zipdeploy" in
  let publishCreds := base64 (userName +:+ ":" +:+ userPwd) in
  let! fileContent := ask (fs_readFile svc zipPath) (EvReadFile zipPath) in
  let options :=
    ZipUpload fileContent ("Basic " +:+ publishCreds)
              (String.length fileContent) in
  let! response := ask (rp_post svc publishEndpoint options)
                       (EvRpPost publishEndpoint options) in
  logger DEPLOY_INFO (PAny response).

(** The steps of [deploy] that come before the LUIS settings are looked
    at; the result is the settings document read from [settingsPath]. *)
Definition prepare (botPath : option string) : M W value :=
  let! hasDeployFile := ask_total (fs_existsSync svc (deployFilePath this))
                                  (EvExistsSync (deployFilePath this)) in
  do! (if negb hasDeployFile then botPrepareDeploy (deployFilePath this)
       else ret tt) in
  let! hasZip := ask (fs_pathExists svc (zipPath this))
                     (EvPathExists (zipPath this)) in
  do! (if hasZip then ask (fs_remove svc (zipPath this))
                          (EvRemove (zipPath this))
       else ret tt) in
  do! dotnetPublish (publishFolder this) (projPath this) botPath in
  ask (fs_readJson svc (settingsPath this)) (EvReadJson (settingsPath this)).

(** The authoring key, endpoint key and authoring region after the
    defaults from the [luis] section of the settings have been applied. *)
Record LuisCredentials := {
  authoringKey : value;
  endpointKey : value;
  authoringRegion : value;
}.

Definition resolve_luis (settings : value)
    (luisAuthoringKey luisAuthoringRegion : option string)
  : Res LuisCredentials :=
  res_bind (getProp settings "luis") (λ luisSettings,
  res_bind (if negb (truthy (of_opt luisAuthoringKey)) then
              res_bind (getProp luisSettings "authoringKey") (λ k,
              res_bind (getProp luisSettings "endpointKey") (λ e,
                Ok (k, e)))
            else Ok (of_opt luisAuthoringKey, VStr "")) (λ keys,
  res_bind (if negb (truthy (of_opt luisAuthoringRegion)) then
              getProp luisSettings "region"
            else Ok (of_opt luisAuthoringRegion)) (λ region,
    Ok {| authoringKey := keys.1; endpointKey := keys.2;
          authoringRegion := region |}))).

(** The accumulation of the published application ids over the
    [luis.settings] files. *)
Fixpoint collect_app_ids (files : list string) (luisAppIds : gmap string value)
  : M W (gmap string value) :=
  match files with
  | [] => ret luisAppIds
  | luisConfigFile :: rest =>
      let! luisSettings := ask (fs_readJson svc luisConfigFile)
                               (EvReadJson luisConfigFile) in
      let! section := lift (getProp luisSettings "luis") in
      collect_app_ids rest (Object_assign luisAppIds section)
  end.

(** The three statements under the comment "Update deploymentSettings with
    the luis config": the deployment settings are read, their [luis]
    property is assigned, and the document is written back. *)
Definition update_luis_settings (luisConfig : gmap string value) : M W unit :=
  let! settings := ask (fs_readJson svc (deploymentSettingsPath this))
                       (EvReadJson (deploymentSettingsPath this)) in
  let! settings' := lift (setProp settings "luis" (VObj luisConfig)) in
  ask (fs_writeJson svc (deploymentSettingsPath this) settings')
      (EvWriteJson (deploymentSettingsPath this) settings').

(** One turn of the [for (const k in luisAppIds)] loop. *)
Definition assign_account (luisEndpoint : string) (account : value)
    (luisAuthoringKey : value) (luisAppIds : gmap string value)
    (entry : string * value) : M W unit :=
  let luisAppId := entry.2 in
  do! logger DEPLOY_INFO
        (PText ("Assigning to luis app id: " +:+ ToString (VObj luisAppIds))) in
  let luisAssignEndpoint :=
    luisEndpoint +:+ "/luis/api/v2.0/apps/" +:+ ToString luisAppId
    +:+ "/azureaccounts" in
  let options :=
    AccountAssign account ("Bearer " +:+ creds_token this) luisAuthoringKey in
  let! response := ask (rp_post svc luisAssignEndpoint options)
                       (EvRpPost luisAssignEndpoint options) in
  logger DEPLOY_INFO (PAny response).

(** The block under [if (luisAuthoringKey && luisAuthoringRegion)].  The
    properties of [luisAppIds] are visited in the order of
    [map_to_list]. *)
Definition publishLuis (name environment language : string)
    (c : LuisCredentials) : M W unit :=
  let luisAuthoringKey := authoringKey c in
  let luisAuthoringRegion := authoringRegion c in
  let luisEndpointKey := endpointKey c in
  let! botFiles := ask (fs_getFiles svc (remoteBotPath this))
                       (EvGetFiles (remoteBotPath this)) in
  let! modelFiles :=
    filterM (λ name, if endsWith name ".lu" then notEmptyLuisModel name
                     else ret false) botFiles in
  let! hasGenerated := ask (fs_pathExists svc (generatedFolder this))
                           (EvPathExists (generatedFolder this)) in
  do! (if negb hasGenerated
       then ask (fs_mkdir svc (generatedFolder this))
                (EvMkdir (generatedFolder this))
       else ret tt) in
  let! loadResult :=
    ask (lu_loadContents svc modelFiles (or_empty language)
           (or_empty environment) (or_empty_value luisAuthoringRegion))
        (EvLoadContents modelFiles (or_empty language)
           (or_empty environment) (or_empty_value luisAuthoringRegion)) in
  let! luContents := lift (getProp loadResult "luContents") in
  let! recognizers := lift (getProp loadResult "recognizers") in
  let! multiRecognizers := lift (getProp loadResult "multiRecognizers") in
  let! loadSettings := lift (getProp loadResult "settings") in
  let buildArgs :=
    [luContents; recognizers; luisAuthoringKey; luisAuthoringRegion;
     VStr name; VStr environment; VStr language; VBool false;
     multiRecognizers; loadSettings] in
  let! buildResult := ask (lu_build svc buildArgs) (EvBuild buildArgs) in
  do! ask (lu_writeDialogAssets svc buildResult (generatedFolder this))
          (EvWriteDialogAssets buildResult (generatedFolder this)) in
  do! logger DEPLOY_INFO (PText "lubuild succeed") in
  let! allFiles := ask (fs_getFiles svc (remoteBotPath this))
                       (EvGetFiles (remoteBotPath this)) in
  let luisConfigFiles :=
    List.filter (λ filename, includes filename "luis.settings") allFiles in
  let! luisAppIds := collect_app_ids luisConfigFiles ∅ in
  let luisEndpoint :=
    "https://" +:+ ToString luisAuthoringRegion
    +:+ ".api.cognitive.microsoft.com" in
  let luisConfig : gmap string value :=
    Object_assign
      (<[ "endpoint" := VStr luisEndpoint ]>
       (<[ "endpointKey" := luisEndpointKey ]> ∅))
      (VObj luisAppIds) in
  do! update_luis_settings luisConfig in
  (* Assign a LUIS key to the endpoint *)
  let getAccountUri := luisEndpoint +:+ "/luis/api/v2.0/azureaccounts" in
  let options :=
    AccountQuery ("Bearer " +:+ creds_token this) luisAuthoringKey in
  let! response := ask (rp_get svc getAccountUri options)
                       (EvRpGet getAccountUri options) in
  let! jsonRes := lift (JSON_parse response) in
  let! account :=
    lift (getAccount jsonRes (name +:+ "-" +:+ environment +:+ "-luis")) in
  do! for_each (map_to_list luisAppIds)
        (assign_account luisEndpoint account luisAuthoringKey luisAppIds) in
  logger DEPLOY_INFO (PText "Luis Publish Success! ...").

(** The steps of [deploy] from the packing on. *)
Definition pack_and_upload (name environment : string) : M W unit :=
  do! logger DEPLOY_INFO (PText "Packing up the bot service ...") in
  do! zipDirectory (publishFolder this) (zipPath this) in
  do! logger DEPLOY_INFO (PText "Packing Service Success!") in
  do! logger DEPLOY_INFO (PText "Publishing to Azure ...") in
  do! deployZip (zipPath this) name environment in
  logger DEPLOY_SUCCESS (PText "Publish To Azure Success!").

(** The body of the [try] block of [deploy]. *)
Definition deploy_body (name environment : string)
    (luisAuthoringKey luisAuthoringRegion botPath language : option string)
  : M W unit :=
  let! settings := prepare botPath in
  let! c := lift (resolve_luis settings luisAuthoringKey luisAuthoringRegion) in
  let language :=
    if negb (truthy (of_opt language)) then "en-us" else show_opt language in
  do! (if truthy (authoringKey c) && truthy (authoringRegion c)
       then publishLuis name environment language c
       else ret tt) in
  pack_and_upload name environment.

(** Deploy a bot to a location. *)
Definition deploy (name environment : string)
    (luisAuthoringKey luisAuthoringRegion botPath language : option string)
  : M W unit :=
  try_catch
    (deploy_body name environment luisAuthoringKey luisAuthoringRegion
       botPath language)
    (λ error, record (EvConsoleLog error)).

(** Provision the Azure resources and deploy a bot to those resources. *)
Definition createAndDeploy (name location environment : string)
    (appPassword luisAuthoringKey luisAuthoringRegion : option string)
  : M W unit :=
  try_catch
    (do! create name location environment appPassword luisAuthoringKey in
     deploy name environment luisAuthoringKey luisAuthoringRegion None None)
    (λ er, do! record (EvConsoleLog er) in throw er).

End Methods.

(** ** The publish page: the effect that watches the publish history *)

Module PublishPage.

(** Modelled from the spec: the type [PublishTarget] of the shared
    package, which is not among the sources: a name, a type, and the
    [lastPublished] date set by [publish] once a bot has been sent to the
    target. *)
Record PublishTarget := {
  name : string;
  type : string;
  lastPublished : option string;
}.

(** Modelled from the spec: the interface [IStatus] of the publish status
    list, whose declaration is not among the sources.  A snapshot carries
    an HTTP-like status code (200 success, 202 pending, 500 failure), a
    message, a comment and a timestamp. *)
Record IStatus := {
  status : Z;
  message : string;
  comment : string;
  time : string;
}.

(** Modelled from the spec: the interface [IBotStatus] of the bot status
    list, whose declaration is not among the sources; the fields are the
    ones the page reads and writes. *)
Record IBotStatus := {
  id : string;
  bot_name : string;
  publishTarget : option string;
  publishTargets : option (list PublishTarget);
  bot_status : option Z;
  bot_message : option string;
  bot_comment : option string;
  bot_time : option string;
}.

(** An element of [botPublishHistoryList]: the histories of one project,
    by target name. *)
Record BotPublishHistory := {
  projectId : string;
  publishHistory : gmap string (list IStatus);
}.

(** Modelled from the spec: the type [Notification] of the page's state
    model, which is not among the sources; the effect reads its id. *)
Record Notification := {
  notification_id : string;
}.

Definition getPublishStatusInterval : Z := 10000.

(** What the effect asks of the dispatchers, of the timer and of the
    state setters. *)
Inductive Action : Type :=
| SetTimeout_getPublishStatus (delay : Z) (botProjectId : string)
    (target : PublishTarget)
| GetPublishStatus (botProjectId : string) (target : PublishTarget)
| DeleteNotification (nid : string)
| AddPublishedNotification (bot : IBotStatus)
| SetShowNotifications (shown : gmap string bool)
| SetBotStatusList (items : list IBotStatus).

(** The state the effect closes over.  [selectedBots] and the items of
    [botStatusList] are objects that the effect mutates in place; aliasing
    between the two lists is not tracked. *)
Record Closure := {
  botPublishHistoryList : list BotPublishHistory;
  showNotifications : gmap string bool;
  pendingNotification : option Notification;
}.

(** [getUpdatedStatus(target, botProjectId)]: the target handed over is an
    object, hence truthy, and the timer is always armed. *)
Definition getUpdatedStatus (target : PublishTarget) (botProjectId : string)
  : list Action :=
  [SetTimeout_getPublishStatus getPublishStatusInterval botProjectId target].

(** [bot.publishTargets.find(target => target.name === bot.publishTarget)]. *)
Definition find_target (targets : list PublishTarget) (wanted : string)
  : option PublishTarget :=
  List.find (λ target, String.eqb (name target) wanted) targets.

(** [botPublishHistoryList.find(h => h.projectId === botProjectId)
      ?.publishHistory[bot.publishTarget]]. *)
Definition history_of (c : Closure) (botProjectId target : string)
  : option (list IStatus) :=
  match List.find (λ h, String.eqb (projectId h) botProjectId)
                  (botPublishHistoryList c) with
  | Some h => publishHistory h !! target
  | None => None
  end.

(** The [map] over [botStatusList]: the item of the project takes the
    fields of the most recent snapshot. *)
Definition refresh_item (botProjectId : string) (latest : IStatus)
    (item : IBotStatus) : IBotStatus :=
  if String.eqb (id item) botProjectId then
    {| id := id item; bot_name := bot_name item;
       publishTarget := publishTarget item;
       publishTargets := publishTargets item;
       bot_status := Some (status latest);
       bot_message := Some (message latest);
       bot_comment := Some (comment latest);
       bot_time := Some (time latest) |}
  else item.

Definition set_status (bot : IBotStatus) (st : Z) : IBotStatus :=
  {| id := id bot; bot_name := bot_name bot;
     publishTarget := publishTarget bot;
     publishTargets := publishTargets bot;
     bot_status := Some st;
     bot_message := bot_message bot;
     bot_comment := bot_comment bot;
     bot_time := bot_time bot |}.

(** The body of [selectedBots.forEach]: the bot after the turn, the status
    list after the turn, and the actions of the turn in order. *)
Definition watch_bot (c : Closure) (botStatusList : list IBotStatus)
    (bot : IBotStatus) : IBotStatus * list IBotStatus * list Action :=
  match publishTarget bot, publishTargets bot with
  | Some wanted, Some targets =>
      if negb (String.eqb wanted "") then
        match find_target targets wanted with
        | Some selectedTarget =>
            let botProjectId := id bot in
            match history_of c botProjectId wanted with
            | Some (latest :: older) =>
                let botPublishHistory := latest :: older in
                let '(bot', acts) :=
                  if (status latest =? 202)%Z then
                    (bot, getUpdatedStatus selectedTarget botProjectId)
                  else if (status latest =? 200)%Z || (status latest =? 500)%Z
                  then
                    let bot' := set_status bot (status latest) in
                    (bot',
                     if default false (showNotifications c !! id bot) then
                       match pendingNotification c with
                       | Some n => [DeleteNotification (notification_id n)]
                       | None => []
                       end
                       ++ [AddPublishedNotification bot';
                           SetShowNotifications
                             (<[botProjectId := false]> (showNotifications c))]
                     else [])
                  else if match lastPublished selectedTarget with
                          | Some _ => true
                          | None => false
                          end
                          && (length botPublishHistory =? 0)
                  then
                    (bot, [GetPublishStatus botProjectId selectedTarget])
                  else (bot, []) in
                let items := refresh_item botProjectId latest <$> botStatusList in
                (bot', items, acts ++ [SetBotStatusList items])
            | _ => (bot, botStatusList, [])
            end
        | None => (bot, botStatusList, [])
        end
      else (bot, botStatusList, [])
  | _, _ => (bot, botStatusList, [])
  end.

(** The effect on [botPublishHistoryList] and [selectedBots]. *)
Fixpoint watch_history (c : Closure) (botStatusList : list IBotStatus)
    (selectedBots : list IBotStatus)
  : list IBotStatus * list IBotStatus * list Action :=
  match selectedBots with
  | [] => ([], botStatusList, [])
  | bot :: rest =>
      let '(bot', items, acts) := watch_bot c botStatusList bot in
      let '(rest', items', acts') := watch_history c items rest in
      (bot' :: rest', items', acts ++ acts')
  end.

Definition actions_of (c : Closure) (botStatusList selectedBots : list IBotStatus)
  : list Action :=
  (watch_history c botStatusList selectedBots).2.

(** The status-fetch calls issued at once. *)
Definition is_fetch (a : Action) : bool :=
  match a with
  | GetPublishStatus _ _ => true
  | _ => false
  end.

(** A bot whose selected target has been published to, with an empty
    history for that target. *)
Definition republished : PublishTarget :=
  {| name := "prod"; type := "azurePublish";
     lastPublished := Some "2020-09-01T10:00:00.000Z" |}.

Definition bot1 : IBotStatus :=
  {| id := "bot1"; bot_name := "echo"; publishTarget := Some "prod";
     publishTargets := Some [republished];
     bot_status := None; bot_message := None; bot_comment := None;
     bot_time := None |}.

Definition empty_history : Closure :=
  {| botPublishHistoryList :=
       [ {| projectId := "bot1"; publishHistory := {[ "prod" := [] ]} |} ];
     showNotifications := ∅;
     pendingNotification := None |}.

End PublishPage.

(** ** The publish page: the handlers around the effect *)

Module PublishPageState.
Import PublishPage.

(** [bot.publishTarget] used as a condition: a string that is present and
    not empty. *)
Definition chosen (publishTarget : option string) : bool :=
  match publishTarget with
  | Some t => negb (String.eqb t "")
  | None => false
  end.

(** [updatePublishHistory(publishHistories, botStatus)]: the new value of
    [botPublishHistoryList]. *)
Definition updatePublishHistory (publishHistories : list IStatus)
    (botStatus : IBotStatus) (histories : list BotPublishHistory)
  : list BotPublishHistory :=
  (λ botPublishHistory,
     match publishTarget botStatus with
     | Some t =>
         if String.eqb (projectId botPublishHistory) (id botStatus)
            && chosen (publishTarget botStatus)
         then {| projectId := projectId botPublishHistory;
                 publishHistory :=
                   <[t := publishHistories]> (publishHistory botPublishHistory) |}
         else botPublishHistory
     | None => botPublishHistory
     end) <$> histories.

(** The flags that [publish] hands to [setShowNotifications]:
    [items.reduce((accumulator, item) => { accumulator[item.id] = true; ... }, {})]. *)
Definition publish_showNotifications (items : list IBotStatus)
  : gmap string bool :=
  fold_left (λ accumulator item, <[id item := true]> accumulator) items ∅.

(** The list that [publish] hands to [setBotStatusList] when [items] is not
    empty, read as values: at the place of a bot that is among the
    published items stands that item, marked as pending.  That the item
    stored is the very object passed to [publish], which is marked in
    place, is followed in [PublishPageStore.publish_in_place]. *)
Definition publish_botStatusList (items botStatusList : list IBotStatus)
  : list IBotStatus :=
  (λ bot,
     match List.find (λ i, String.eqb (id i) (id bot)) items with
     | Some item => set_status item 202
     | None => bot
     end) <$> botStatusList.

(** The closure of the effect once [updatePublishHistory] has stored a
    history. *)
Definition with_history (c : Closure) (publishHistories : list IStatus)
    (botStatus : IBotStatus) : Closure :=
  {| botPublishHistoryList :=
       updatePublishHistory publishHistories botStatus
         (botPublishHistoryList c);
     showNotifications := showNotifications c;
     pendingNotification := pendingNotification c |}.

(** The parts of a status item that the effect leaves alone. *)
Definition same_bot (a b : IBotStatus) : Prop :=
  id a = id b ∧ bot_name a = bot_name b
  ∧ publishTarget a = publishTarget b
  ∧ publishTargets a = publishTargets b.

(** A bot for which the effect has nothing to look at: no target chosen,
    no such target, or no snapshot in the history of the target. *)
Definition nothing_to_watch (c : Closure) (bot : IBotStatus) : Prop :=
  ∀ wanted, publishTarget bot = Some wanted →
    history_of c (id bot) wanted = None
    ∨ history_of c (id bot) wanted = Some [].

Definition pending : IStatus :=
  {| status := 202; message := "Accepted for publishing.";
     comment := "first"; time := "2020-09-01T10:00:05.000Z" |}.

Definition succeeded : IStatus :=
  {| status := 200; message := "Success"; comment := "first";
     time := "2020-09-01T10:01:00.000Z" |}.

(** The bot of the page once its publish has been accepted, and once it
    has succeeded with the notification still to be shown. *)
Definition pending_history : Closure :=
  {| botPublishHistoryList :=
       [ {| projectId := "bot1"; publishHistory := {[ "prod" := [pending] ]} |} ];
     showNotifications := ∅;
     pendingNotification := None |}.

Definition finished_history : Closure :=
  {| botPublishHistoryList :=
       [ {| projectId := "bot1";
            publishHistory := {[ "prod" := [succeeded; pending] ]} |} ];
     showNotifications := publish_showNotifications [bot1];
     pendingNotification := Some {| notification_id := "pending-1" |} |}.

End PublishPageState.

(** ** The publish page: the objects that the page shares

    The items of [botStatusList] and of [selectedBots] are objects, and the
    page writes into them.  Here an object is known by a reference, the
    lists are lists of references, and a store gives the object behind each
    reference: two lists that hold the same reference share the object. *)

Module PublishPageStore.
Import PublishPage PublishPageState.

Definition Ref := nat.

(** The objects behind the references, and the first reference not yet in
    use. *)
Record Store := {
  obj : Ref → IBotStatus;
  free : Ref;
}.

(** [o.field = ...] on the object behind [r]. *)
Definition write (h : Store) (r : Ref) (f : IBotStatus → IBotStatus)
  : Store :=
  {| obj := λ r', if Nat.eqb r' r then f (obj h r) else obj h r';
     free := free h |}.

(** An object literal: a new object behind a new reference. *)
Definition alloc (h : Store) (o : IBotStatus) : Ref * Store :=
  (free h,
   {| obj := λ r', if Nat.eqb r' (free h) then o else obj h r';
      free := S (free h) |}).

(** The literal [{ id: bot.id, name: bot.name, publishTarget:
    bot.publishTarget, publishTargets: bot.publishTargets }]. *)
Definition copy_of (bot : IBotStatus) : IBotStatus :=
  {| id := id bot; bot_name := bot_name bot;
     publishTarget := publishTarget bot;
     publishTargets := publishTargets bot;
     bot_status := None; bot_message := None; bot_comment := None;
     bot_time := None |}.

(** [updateSelectedBots(selectedBots)]: the list handed to
    [setSelectedBots], made of new objects. *)
Fixpoint updateSelectedBots (selectedBots : list Ref) (h : Store)
  : list Ref * Store :=
  match selectedBots with
  | [] => ([], h)
  | bot :: rest =>
      let '(r, h1) := alloc h (copy_of (obj h bot)) in
      let '(bots, h2) := updateSelectedBots rest h1 in
      (r :: bots, h2)
  end.

(** [items.find((i) => i.id === bot.id)]. *)
Definition find_item (h : Store) (items : list Ref) (bot : Ref)
  : option Ref :=
  List.find (λ i, String.eqb (id (obj h i)) (id (obj h bot))) items.

(** The argument of [setBotStatusList] at the end of [publish]:
    [botStatusList.map((bot) => { const item = items.find(...);
    if (item) { item.status = 202; return item; } return bot; })].  The
    item found is marked in place and is itself the element of the new
    list. *)
Fixpoint publish_in_place (items botStatusList : list Ref) (h : Store)
  : list Ref * Store :=
  match botStatusList with
  | [] => ([], h)
  | bot :: rest =>
      match find_item h items bot with
      | Some item =>
          let '(l, h') :=
            publish_in_place items rest
              (write h item (λ o, set_status o 202)) in
          (item :: l, h')
      | None =>
          let '(l, h') := publish_in_place items rest h in
          (bot :: l, h')
      end
  end.

(** The [map] over [botStatusList] in the effect: the fields of the latest
    snapshot are written into every item of the project. *)
Definition refresh_in_place (botProjectId : string) (latest : IStatus)
    (botStatusList : list Ref) (h : Store) : Store :=
  fold_left (λ h item, write h item (refresh_item botProjectId latest))
    botStatusList h.

(** The writes of the body of [selectedBots.forEach]; the calls of the turn
    are those of [watch_bot]. *)
Definition watch_bot_in_place (c : Closure) (botStatusList : list Ref)
    (h : Store) (bot : Ref) : Store :=
  match publishTarget (obj h bot), publishTargets (obj h bot) with
  | Some wanted, Some targets =>
      if negb (String.eqb wanted "") then
        match find_target targets wanted with
        | Some selectedTarget =>
            let botProjectId := id (obj h bot) in
            match history_of c botProjectId wanted with
            | Some (latest :: older) =>
                let h1 :=
                  if (status latest =? 202)%Z then h
                  else if (status latest =? 200)%Z || (status latest =? 500)%Z
                  then write h bot (λ o, set_status o (status latest))
                  else h in
                refresh_in_place botProjectId latest botStatusList h1
            | _ => h
            end
        | None => h
        end
      else h
  | _, _ => h
  end.

(** The writes of the effect on [botPublishHistoryList] and
    [selectedBots]. *)
Definition watch_history_in_place (c : Closure)
    (botStatusList selectedBots : list Ref) (h : Store) : Store :=
  fold_left (watch_bot_in_place c botStatusList) selectedBots h.

(** The page with one bot in its status list, behind reference 0. *)
Definition one_bot : Store :=
  {| obj := λ _, bot1; free := 1 |}.

(** The bot is selected, and then published. *)
Definition selected : list Ref * Store := updateSelectedBots [0] one_bot.

Definition published : list Ref * Store :=
  publish_in_place selected.1 [0] selected.2.

End PublishPageStore.

(** ** Vocabulary of the properties *)

(** The state after an event has been journalled, without and with a move
    of the world. *)
Definition push {W} (ev : Event) (s : State W) : State W :=
  {| world := world s; journal := ev :: journal s |}.

Definition moved {W} (w : W) (ev : Event) (s : State W) : State W :=
  {| world := w; journal := ev :: journal s |}.

(** [adds P m]: from any state, [m] only prepends events to the journal, and
    the events it prepends satisfy [P]. *)
Definition adds {W A} (P : list Event → Prop) (m : M W A) : Prop :=
  ∀ s, ∃ l, journal (m s).2 = l ++ journal s ∧ P l.

(** The properties of journals that are preserved when runs are put one
    after the other: they hold of the empty journal and of the concatenation
    of two journals that have them. *)
Class Sequential (P : list Event → Prop) : Prop := {
  sequential_nil : P [];
  sequential_app : ∀ l1 l2, P l1 → P l2 → P (l1 ++ l2);
}.

(** No condition on the events added. *)
Definition anything (l : list Event) : Prop := True.

(** *** Provisioning *)

(** The resource group an Azure call is addressed to. *)
Definition event_group (ev : Event) : option string :=
  match ev with
  | EvResourceGroupsCreateOrUpdate g _ _
  | EvDeploymentsValidate g _ _ _
  | EvDeploymentsCreateOrUpdate g _ _ _
  | EvDeploymentsGet g _ _
  | EvDeploymentOperationsList g _ _ => Some g
  | _ => None
  end.

(** [uses_group g ev]: if [ev] is an Azure call, it is addressed to [g]; if
    it is a logged remediation hint, the hint names [g]. *)
Definition uses_group (g : string) (ev : Event) : Prop :=
  match ev with
  | EvLogger _ (PText s) =>
      String.prefix "+ To delete this resource group" s = true →
      s = delete_hint g
  | _ => ∀ g', event_group ev = Some g' → g' = g
  end.

(** The three steps whose success [create] reports, read off the journal. *)
Definition group_created (j : list Event) : Prop :=
  ∃ g location r, In (EvResourceGroupsCreateOrUpdate g location (Ok r)) j.

Definition template_validated (j : list Event) : Prop :=
  ∃ g dn d v, In (EvDeploymentsValidate g dn d (Ok v)) j ∧ error v = None.

Definition template_deployed (j : list Event) : Prop :=
  ∃ g dn d r,
    In (EvDeploymentsCreateOrUpdate g dn d (Ok r)) j
    ∧ status (_response r) = 200%Z.

(** The settings update ran to its end: the deployment record was fetched
    and, when it carries outputs, the settings file was written. *)
Definition settings_update_completed (j : list Event) : Prop :=
  ∃ g dn got,
    In (EvDeploymentsGet g dn (Ok got)) j
    ∧ (truthy (deployment_outputs got) = true →
       ∃ p data, In (EvWriteFile p data (Ok tt)) j).

(** How a run of [updateDeploymentJsonFile] can end, given its result and
    its journal.  It resolves to a truthy object: the merged result when the
    deployment record carries outputs, the empty object otherwise.  Or it
    rejects: with the error of the record fetch, or, when there are outputs,
    with the error of their unpacking or of the file write. *)
Definition update_outcome (path g dn : string) (id : value)
    (pwd : option string) (r : Res value) (j : list Event) : Prop :=
  match r with
  | Ok v =>
      truthy v = true
      ∧ ∃ got,
          In (EvDeploymentsGet g dn (Ok got)) j
          ∧ ((truthy (deployment_outputs got) = true
              ∧ ∃ outputObj,
                  unpackObject (deployment_outputs got) = Ok outputObj
                  ∧ v = VObj (merged_result outputObj id pwd))
             ∨ (truthy (deployment_outputs got) = false ∧ v = VObj ∅))
  | Throw e =>
      In (EvDeploymentsGet g dn (Throw e)) j
      ∨ ∃ got,
          In (EvDeploymentsGet g dn (Ok got)) j
          ∧ truthy (deployment_outputs got) = true
          ∧ (unpackObject (deployment_outputs got) = Throw e
             ∨ ∃ data, In (EvWriteFile path data (Throw e)) j)
  end.

(** Events of the diagnostic branch of [create]: the listing of the
    deployment operations and the lines that report a failed one. *)
Definition diagnostic (ev : Event) : bool :=
  match ev with
  | EvDeploymentOperationsList _ _ _ => true
  | EvLogger _ (PText s) => String.prefix "! Deployment failed" s
  | _ => false
  end.

(** *** Publishing *)

(** Events that only the LUIS block of [deploy] produces: its file walks and
    reads, the three builder calls, the rewrite of the deployment settings,
    and the two network calls (account query and account assignment). *)
Definition luis_event (ev : Event) : bool :=
  match ev with
  | EvGetFiles _ _ | EvReadFileSync _ _ | EvMkdir _ _
  | EvLoadContents _ _ _ _ _ | EvBuild _ _ | EvWriteDialogAssets _ _ _
  | EvWriteJson _ _ _ | EvRpGet _ _ _ => true
  | EvRpPost _ (AccountAssign _ _ _) _ => true
  | _ => false
  end.

Definition no_luis (l : list Event) : Prop :=
  Forall (λ ev, luis_event ev = false) l.

(** The LUIS block has started: its first call, the walk over the deployed
    bot assets, is in the journal. *)
Definition luis_started (this : BotProjectDeploy) (j : list Event) : Prop :=
  ∃ r, In (EvGetFiles (remoteBotPath this) r) j.

(** In the words of the specification: an authoring key is known when it
    is passed explicitly or sourced from the settings file, where it is the
    [authoringKey] of the [luis] section; an authoring region is known when
    it is passed explicitly or sourced from the settings file, where it is
    the [region] of the [luis] section.  An empty key or region is no key
    or region. *)
Definition key_known (settings : value) (luisAuthoringKey : option string)
  : Prop :=
  truthy (of_opt luisAuthoringKey) = true
  ∨ ∃ luisSettings k,
      getProp settings "luis" = Ok luisSettings
      ∧ getProp luisSettings "authoringKey" = Ok k
      ∧ truthy k = true.

Definition region_known (settings : value) (luisAuthoringRegion : option string)
  : Prop :=
  truthy (of_opt luisAuthoringRegion) = true
  ∨ ∃ luisSettings r,
      getProp settings "luis" = Ok luisSettings
      ∧ getProp luisSettings "region" = Ok r
      ∧ truthy r = true.

Definition luis_known (settings : value)
    (luisAuthoringKey luisAuthoringRegion : option string) : Prop :=
  key_known settings luisAuthoringKey
  ∧ region_known settings luisAuthoringRegion.

(** What the code makes of the key and the region: the defaults are
    applied without an error, and the test of the LUIS block holds. *)
Definition luis_resolved (settings : value)
    (luisAuthoringKey luisAuthoringRegion : option string) : Prop :=
  ∃ c, resolve_luis settings luisAuthoringKey luisAuthoringRegion = Ok c
       ∧ truthy (authoringKey c) = true
       ∧ truthy (authoringRegion c) = true.

(** [rewrites_in_place path j]: every JSON document written in the journal
    [j] (most recent first) goes to [path], comes right after a read of
    [path], and is the document read with its [luis] property set. *)
Fixpoint rewrites_in_place (path : string) (j : list Event) : Prop :=
  match j with
  | [] => True
  | EvWriteJson p doc _ :: before =>
      match before with
      | EvReadJson p' (Ok D) :: _ =>
          p = path ∧ p' = path ∧ ∃ cfg, setProp D "luis" cfg = Ok doc
      | _ => False
      end
      ∧ rewrites_in_place path before
  | _ :: before => rewrites_in_place path before
  end.

(** ** Further vocabulary: provisioning *)

(** [submits name location pwd key id j ev]: if [ev] submits a deployment
    (validation or execution), the deployment is incremental, is named by a
    timestamp taken in the journal [j], and carries the template parameters
    of the run; if [ev] fetches the deployment record, it fetches it under
    such a name. *)
Definition submits (name location : string) (pwd key : option string)
    (id : value) (j : list Event) (ev : Event) : Prop :=
  match ev with
  | EvDeploymentsValidate _ dn d _
  | EvDeploymentsCreateOrUpdate _ dn d _ =>
      mode d = "Incremental"
      ∧ In (EvTimestamp dn) j
      ∧ parameters d
        = getDeploymentTemplateParam id pwd location name
            (negb (truthy (of_opt key)))
  | EvDeploymentsGet _ dn _ => In (EvTimestamp dn) j
  | _ => True
  end.

(** What [unpackObject] keeps of one property: its [value], when the read
    succeeds and yields a truthy value. *)
Definition unpacked_value (v : value) : option value :=
  match getProp v "value" with
  | Ok x => if truthy x then Some x else None
  | Throw _ => None
  end.

(** A property on which the read of [value] raises. *)
Definition unreadable (v : value) : Prop := getProp v "value" = Throw TypeError.

(** ** Further vocabulary: publishing *)

(** [assigns this ToString ep account key ids ev]: if [ev] is a request of
    the assignment loop, it posts the account descriptor, with the bearer
    token and the authoring key, to the assignment address of one of the
    application ids. *)
Definition assigns (this : BotProjectDeploy) (ToString : value → string)
    (luisEndpoint : string) (account luisAuthoringKey : value)
    (luisAppIds : gmap string value) (ev : Event) : Prop :=
  match ev with
  | EvRpPost uri opts _ =>
      opts = AccountAssign account ("Bearer " +:+ creds_token this)
               luisAuthoringKey
      ∧ ∃ k luisAppId,
          luisAppIds !! k = Some luisAppId
          ∧ uri = luisEndpoint +:+ "/luis/api/v2.0/apps/"
                  +:+ ToString luisAppId +:+ "/azureaccounts"
  | EvLogger _ _ => True
  | _ => False
  end.

Definition is_post (ev : Event) : bool :=
  match ev with
  | EvRpPost _ _ _ => true
  | _ => false
  end.

(** Model files are the only files whose content [deploy] reads
    synchronously. *)
Definition reads_only_models (ev : Event) : Prop :=
  match ev with
  | EvReadFileSync file _ => endsWith file ".lu" = true
  | _ => True
  end.

Definition is_load (ev : Event) : bool :=
  match ev with
  | EvLoadContents _ _ _ _ _ => true
  | _ => false
  end.

Definition loads_nothing (l : list Event) : Prop :=
  Forall (λ ev, is_load ev = false) l.

(** ** Further vocabulary: the verdict of a publication *)

(** The last line of a publication that went through. *)
Definition success_line : Event :=
  EvLogger DEPLOY_SUCCESS (PText "Publish To Azure Success!").

(** The two ways in which [deploy] can tell how it ended: the success line
    and the error printed on the console. *)
Definition is_verdict (ev : Event) : bool :=
  match ev with
  | EvConsoleLog _ => true
  | EvLogger DEPLOY_SUCCESS _ => true
  | _ => false
  end.

Definition silent (l : list Event) : Prop :=
  Forall (λ ev, is_verdict ev = false) l.

(** [ends_with_verdict m]: what [m] adds to the journal is silent, up to
    the success line that comes last when [m] completes. *)
Definition ends_with_verdict {W A : Type} (m : M W A) : Prop :=
  ∀ s, ∃ l,
    silent l
    ∧ match (m s).1 with
      | Ok _ => journal (m s).2 = success_line :: l ++ journal s
      | Throw _ => journal (m s).2 = l ++ journal s
      end.

(** The upload of the archive. *)
Definition is_upload (ev : Event) : bool :=
  match ev with
  | EvRpPost _ (ZipUpload _ _ _) _ => true
  | _ => false
  end.

Definition uploads_nothing (l : list Event) : Prop :=
  Forall (λ ev, is_upload ev = false) l.

(** ** Scripted worlds

    A scripted world has no state of its own: each service answers from a
    fixed script, whatever its arguments.  The scripts below are the
    scenarios at which the properties are exercised. *)

Record Script := {
  settings_file_exists : bool;
  settings_document : Res value;
  registered : Res Application;
  template_text : Res string;
  validation_answer : Res DeploymentsValidateResponse;
  deployment_answer : Res DeploymentsCreateOrUpdateResponse;
  deployment_record : Res (option DeploymentExtended);
  write_answer : Res unit;
  build_answer : Res unit;
}.

Definition scripted (sc : Script) : Services unit := {|
  fs_existsSync := λ _ w, (settings_file_exists sc, w);
  fs_pathExists := λ _ w, (Ok false, w);
  fs_readJson := λ _ w, (settings_document sc, w);
  fs_readFile := λ _ w, (template_text sc, w);
  fs_readFileSync := λ _ w, (Ok "intent", w);
  fs_writeFile := λ _ _ w, (write_answer sc, w);
  fs_writeJson := λ _ _ w, (write_answer sc, w);
  fs_remove := λ _ w, (Ok tt, w);
  fs_mkdir := λ _ w, (Ok tt, w);
  fs_copy := λ _ _ w, w;
  fs_getFiles := λ _ w, (Ok [], w);
  child_exec := λ _ w, (build_answer sc, w);
  archiver_zip := λ _ _ w, (Ok tt, w);
  clock_timestamp := λ w, ("1599000000000", w);
  applications_create := λ _ _ w, (registered sc, w);
  resourceGroups_createOrUpdate := λ _ _ w, (Ok (VObj ∅), w);
  deployments_validate := λ _ _ _ w, (validation_answer sc, w);
  deployments_createOrUpdate := λ _ _ _ w, (deployment_answer sc, w);
  deployments_get := λ _ _ w, (deployment_record sc, w);
  deploymentOperations_list := λ _ _ w, (Ok (Some []), w);
  web_updatePublishingUser := λ _ _ w, (Ok (VObj ∅), w);
  lu_loadContents := λ _ _ _ _ w, (Ok (VObj ∅), w);
  lu_build := λ _ w, (Ok (VObj ∅), w);
  lu_writeDialogAssets := λ _ _ w, (Ok tt, w);
  rp_get := λ _ _ w, (Ok "[]", w);
  rp_post := λ _ _ w, (Ok (VStr "ok"), w);
|}.

(** Pure functions of the platform, fixed for the scenarios: the text [[]]
    parses to the empty array and every other text to the empty object, a
    path is joined with a slash, a string interpolates as itself and any
    other value as a fixed text, and the credentials are left unencoded. *)
Definition parse_any (text : string) : Res value :=
  if String.eqb text "[]" then Ok (VArr []) else Ok (VObj ∅).

Definition join_slash (a b : string) : string := a +:+ "/" +:+ b.

Definition show_value (v : value) : string :=
  match v with
  | VStr s => s
  | _ => "[value]"
  end.

Definition plain (s : string) : string := s.

Definition bot : BotProjectDeploy :=
  new_BotProjectDeploy join_slash
    {| cfg_subId := "sub"; cfg_accessToken := "token"; cfg_graphToken := "graph";
       cfg_projPath := "/bot";
       cfg_deployFilePath := None; cfg_zipPath := None;
       cfg_publishFolder := None; cfg_settingsPath := None;
       cfg_deploymentSettingsPath := None; cfg_templatePath := None;
       cfg_dotnetProjectPath := None; cfg_remoteBotPath := None;
       cfg_generatedFolder := None |}.

(** The outputs of a successful deployment: one wrapped value. *)
Definition sample_outputs : value :=
  VObj {[ "applicationInsights" := pack (VStr "key-1") ]}.

(** A settings document with an identity and a key of its own. *)
Definition sample_settings : gmap string value :=
  <[ "MicrosoftAppId" := VStr "app-1" ]>
  (<[ "feature" := VStr "on" ]>
  (<[ "luis" := VObj {[ "authoringKey" := VStr ""; "region" := VStr "" ]} ]> ∅)).

(** Every step succeeds. *)
Definition all_good : Script := {|
  settings_file_exists := true;
  settings_document := Ok (VObj sample_settings);
  registered := Ok {| appId := Some "app-2" |};
  template_text := Ok "{}";
  validation_answer := Ok {| error := None |};
  deployment_answer := Ok {| _response := {| status := 200 |} |};
  deployment_record :=
    Ok (Some {| properties := Some {| outputs := sample_outputs |} |});
  write_answer := Ok tt;
  build_answer := Ok tt;
|}.

(** The template is rejected. *)
Definition rejected_template : Script := {|
  settings_file_exists := true;
  settings_document := Ok (VObj sample_settings);
  registered := Ok {| appId := Some "app-2" |};
  template_text := Ok "{}";
  validation_answer :=
    Ok {| error := Some {| code := Some "InvalidTemplate";
                           message := Some "bad parameter" |} |};
  deployment_answer := Ok {| _response := {| status := 200 |} |};
  deployment_record := Ok None;
  write_answer := Ok tt;
  build_answer := Ok tt;
|}.

(** The settings hold no identity. *)
Definition no_identity : Script := {|
  settings_file_exists := true;
  settings_document := Ok (VObj ∅);
  registered := Ok {| appId := Some "app-2" |};
  template_text := Ok "{}";
  validation_answer := Ok {| error := None |};
  deployment_answer := Ok {| _response := {| status := 200 |} |};
  deployment_record := Ok None;
  write_answer := Ok tt;
  build_answer := Ok tt;
|}.

(** Everything succeeds up to the deployment; fetching its record fails. *)
Definition record_unavailable : Script := {|
  settings_file_exists := true;
  settings_document := Ok (VObj sample_settings);
  registered := Ok {| appId := Some "app-2" |};
  template_text := Ok "{}";
  validation_answer := Ok {| error := None |};
  deployment_answer := Ok {| _response := {| status := 200 |} |};
  deployment_record := Throw (Failure (VStr "ETIMEDOUT"));
  write_answer := Ok tt;
  build_answer := Ok tt;
|}.

(** The build of the project fails. *)
Definition build_fails : Script := {|
  settings_file_exists := true;
  settings_document := Ok (VObj sample_settings);
  registered := Ok {| appId := Some "app-2" |};
  template_text := Ok "{}";
  validation_answer := Ok {| error := None |};
  deployment_answer := Ok {| _response := {| status := 200 |} |};
  deployment_record := Ok None;
  write_answer := Ok tt;
  build_answer := Throw (Failure (VStr "dotnet: exit code 1"));
|}.

(** A settings document whose [luis] section holds an authoring key and a
    region, and the world where it is the settings file. *)
Definition sourced_settings : value :=
  VObj {[ "luis" := VObj (<[ "authoringKey" := VStr "key-from-file" ]>
                          (<[ "region" := VStr "westus" ]> ∅)) ]}.

Definition luis_in_settings : Script := {|
  settings_file_exists := true;
  settings_document := Ok sourced_settings;
  registered := Ok {| appId := Some "app-2" |};
  template_text := Ok "{}";
  validation_answer := Ok {| error := None |};
  deployment_answer := Ok {| _response := {| status := 200 |} |};
  deployment_record := Ok None;
  write_answer := Ok tt;
  build_answer := Ok tt;
|}.

(** The settings file holds the JSON text [null]. *)
Definition null_settings : Script := {|
  settings_file_exists := true;
  settings_document := Ok VNull;
  registered := Ok {| appId := Some "app-2" |};
  template_text := Ok "{}";
  validation_answer := Ok {| error := None |};
  deployment_answer := Ok {| _response := {| status := 200 |} |};
  deployment_record := Ok None;
  write_answer := Ok tt;
  build_answer := Ok tt;
|}.

(** [create] and [deploy] of the sample bot in a scripted world. *)
Definition create_in (sc : Script) (name location environment : string)
    (appPassword luisAuthoringKey : option string) : M unit (option bool) :=
  create (scripted sc) parse_any show_value bot
    name location environment appPassword luisAuthoringKey.

Definition deploy_in (sc : Script) (name environment : string)
    (luisAuthoringKey luisAuthoringRegion botPath language : option string)
  : M unit unit :=
  deploy (scripted sc) parse_any join_slash show_value bot plain
    name environment luisAuthoringKey luisAuthoringRegion botPath language.

(** A publication with explicit LUIS credentials in a world where every step
    succeeds, and the provisioning of the same bot. *)
Definition luis_run : list Event :=
  calls (deploy_in all_good "bot1" "dev" (Some "key") (Some "westus") None None)
        tt.

Definition provision_run : list Event :=
  calls (create_in all_good "bot1" "westus" "dev" (Some "pw") None) tt.

(** The LUIS configuration of that publication, and the deployment settings
    once it has been assigned to them. *)
Definition sample_luis_config : gmap string value :=
  <[ "endpoint" := VStr "https://westus.api.cognitive.microsoft.com" ]>
  (<[ "endpointKey" := VStr "" ]> ∅).

Definition rewritten_settings : value :=
  VObj (<[ "luis" := VObj sample_luis_config ]> sample_settings).

(** The document that the provisioning of the sample bot writes. *)
Definition provisioned_settings : gmap string value :=
  merged_result {[ "applicationInsights" := VStr "key-1" ]}
    (VStr "app-1") (Some "pw").

(** The deployment submitted for the sample bot. *)
Definition sample_deployment : Deployment :=
  {| template := VObj ∅;
     parameters :=
       getDeploymentTemplateParam (VStr "app-1") (Some "pw") "westus" "bot1" true;
     mode := "Incremental" |}.

(** A mapping with a falsy entry, as the template parameters have when an
    authoring key is supplied. *)
Definition flagged : gmap string value :=
  <[ "botId" := VStr "bot1" ]>
  (<[ "shouldCreateAuthoringResource" := VBool false ]> ∅).

(** A publication whose key and region come from the settings file, and
    the state in which its preparation ends. *)
Definition sourced_run : list Event :=
  calls (deploy_in luis_in_settings "bot1" "dev" None None None None) tt.

Definition sourced_state : State unit :=
  (prepare (scripted luis_in_settings) join_slash bot None (fresh tt)).2.

(** ** Further scripted worlds *)

(** There is no settings file. *)
Definition missing_file : Script := {|
  settings_file_exists := false;
  settings_document := Throw (Failure (VStr "ENOENT"));
  registered := Ok {| appId := Some "app-2" |};
  template_text := Ok "{}";
  validation_answer := Ok {| error := None |};
  deployment_answer := Ok {| _response := {| status := 200 |} |};
  deployment_record := Ok None;
  write_answer := Ok tt;
  build_answer := Ok tt;
|}.

(** The deployment is refused. *)
Definition deployment_refused : Script := {|
  settings_file_exists := true;
  settings_document := Ok (VObj sample_settings);
  registered := Ok {| appId := Some "app-2" |};
  template_text := Ok "{}";
  validation_answer := Ok {| error := None |};
  deployment_answer := Ok {| _response := {| status := 500 |} |};
  deployment_record := Ok None;
  write_answer := Ok tt;
  build_answer := Ok tt;
|}.

(** A bot without identity whose deployment yields outputs. *)
Definition first_provision : Script := {|
  settings_file_exists := true;
  settings_document := Ok (VObj ∅);
  registered := Ok {| appId := Some "app-2" |};
  template_text := Ok "{}";
  validation_answer := Ok {| error := None |};
  deployment_answer := Ok {| _response := {| status := 200 |} |};
  deployment_record :=
    Ok (Some {| properties := Some {| outputs := sample_outputs |} |});
  write_answer := Ok tt;
  build_answer := Ok tt;
|}.

Definition first_provision_run : list Event :=
  calls (create_in first_provision "bot1" "westus" "dev" (Some "pw") None) tt.

Definition refused_run : list Event :=
  calls (create_in deployment_refused "bot1" "westus" "dev" (Some "pw") None) tt.

Definition no_outputs_run : list Event :=
  calls (create_in no_identity "bot1" "westus" "dev" (Some "pw") None) tt.

(** The document written at the first provisioning. *)
Definition first_settings : gmap string value :=
  merged_result {[ "applicationInsights" := VStr "key-1" ]}
    (VStr "app-2") (Some "pw").

(** The world where every step succeeds, with a bot folder that holds a
    model file, a dialog file and a LUIS settings file. *)
Definition with_models : Services unit :=
  let base := scripted all_good in
  {| fs_existsSync := fs_existsSync base;
     fs_pathExists := fs_pathExists base;
     fs_readJson := fs_readJson base;
     fs_readFile := fs_readFile base;
     fs_readFileSync := fs_readFileSync base;
     fs_writeFile := fs_writeFile base;
     fs_writeJson := fs_writeJson base;
     fs_remove := fs_remove base;
     fs_mkdir := fs_mkdir base;
     fs_copy := fs_copy base;
     fs_getFiles :=
       λ _ w, (Ok ["/bot/main.lu"; "/bot/main.dialog";
                   "/bot/generated/luis.settings.dev.westus.json"], w);
     child_exec := child_exec base;
     archiver_zip := archiver_zip base;
     clock_timestamp := clock_timestamp base;
     applications_create := applications_create base;
     resourceGroups_createOrUpdate := resourceGroups_createOrUpdate base;
     deployments_validate := deployments_validate base;
     deployments_createOrUpdate := deployments_createOrUpdate base;
     deployments_get := deployments_get base;
     deploymentOperations_list := deploymentOperations_list base;
     web_updatePublishingUser := web_updatePublishingUser base;
     lu_loadContents := lu_loadContents base;
     lu_build := lu_build base;
     lu_writeDialogAssets := lu_writeDialogAssets base;
     rp_get := rp_get base;
     rp_post := rp_post base |}.

Definition sample_credentials : LuisCredentials :=
  {| authoringKey := VStr "key"; authoringRegion := VStr "westus";
     endpointKey := VStr "" |}.

Definition models_run : list Event :=
  calls (publishLuis with_models parse_any show_value bot
           "bot1" "dev" "en-us" sample_credentials) tt.

Definition upload_run : list Event :=
  calls (deployZip (scripted all_good) plain "/bot/code.zip" "bot1" "dev") tt.

Definition build_run : list Event :=
  calls (dotnetPublish (scripted all_good) join_slash bot "/bot/bin" "/bot"
           None) tt.

Definition prepare_run : list Event :=
  calls (prepare (scripted all_good) join_slash bot None) tt.

(** The state in which [prepare] leaves a bot without settings of its own. *)
Definition prepared_state : State unit :=
  (prepare (scripted no_identity) join_slash bot None (fresh tt)).2.

(** Two LUIS accounts, the second one being the account of the bot. *)
Definition other_account : value :=
  VObj {[ "AccountName" := VStr "shared-luis" ]}.

Definition bot_account : value :=
  VObj {[ "AccountName" := VStr "bot1-dev-luis" ]}.

(** The world where every step succeeds, seen before the first
    publication from a folder that holds a stale archive: there is no
    deployment descriptor yet, and an archive is in the way. *)
Definition stale_archive : Services unit :=
  let base := scripted all_good in
  {| fs_existsSync := λ _ w, (false, w);
     fs_pathExists := λ _ w, (Ok true, w);
     fs_readJson := fs_readJson base;
     fs_readFile := fs_readFile base;
     fs_readFileSync := fs_readFileSync base;
     fs_writeFile := fs_writeFile base;
     fs_writeJson := fs_writeJson base;
     fs_remove := fs_remove base;
     fs_mkdir := fs_mkdir base;
     fs_copy := fs_copy base;
     fs_getFiles := fs_getFiles base;
     child_exec := child_exec base;
     archiver_zip := archiver_zip base;
     clock_timestamp := clock_timestamp base;
     applications_create := applications_create base;
     resourceGroups_createOrUpdate := resourceGroups_createOrUpdate base;
     deployments_validate := deployments_validate base;
     deployments_createOrUpdate := deployments_createOrUpdate base;
     deployments_get := deployments_get base;
     deploymentOperations_list := deploymentOperations_list base;
     web_updatePublishingUser := web_updatePublishingUser base;
     lu_loadContents := lu_loadContents base;
     lu_build := lu_build base;
     lu_writeDialogAssets := lu_writeDialogAssets base;
     rp_get := rp_get base;
     rp_post := rp_post base |}.

Definition stale_run : list Event :=
  calls (prepare stale_archive join_slash bot None) tt.

(** * Properties *)

(** *** Facts about the envelope *)

Lemma getProp_pack x : getProp (pack x) "value" = Ok x.
Proof. unfold pack, getProp. by rewrite lookup_singleton_eq. Qed.

Lemma unpack_step_pack key x unpacked :
  unpack_step key (pack x) (Ok unpacked)
  = Ok (if truthy x then <[key := x]> unpacked else unpacked).
Proof. unfold unpack_step; cbn [res_bind]. by rewrite getProp_pack. Qed.

Lemma unpackObject_packed (m : gmap string value) :
  unpackObject (VObj (pack <$> m)) = Ok (filter truthy_entry m).
Proof.
  unfold unpackObject; cbn [own_props].
  induction m as [|k x m Hk Hfold IH] using map_first_key_ind.
  - by rewrite fmap_empty, map_fold_empty, map_filter_empty.
  - rewrite fmap_insert.
    rewrite map_fold_insert_first_key.
    + rewrite IH, unpack_step_pack.
      destruct (truthy x) eqn:Hx.
      * by rewrite map_filter_insert_True.
      * rewrite map_filter_insert_not'; [done | | ].
        -- unfold truthy_entry; cbn. by rewrite Hx.
        -- intros y Hy. by rewrite Hk in Hy.
    + by rewrite lookup_fmap, Hk.
    + rewrite <- fmap_insert. by apply map_first_key_fmap.
Qed.


(** C7, as the code has it.  Every template parameter built by
    [getDeploymentTemplateParam] is [pack] of its value; [unpackObject] of a
    mapping of packed values returns the entries whose value is truthy, and
    so the original mapping when all its values are truthy. *)
Theorem template_params_packed_unpack_keeps_truthy :
  (∀ appId appPwd location name flag k v,
     getDeploymentTemplateParam appId appPwd location name flag !! k = Some v →
     ∃ x, v = pack x)
  ∧ (∀ m : gmap string value,
       unpackObject (VObj (pack <$> m)) = Ok (filter truthy_entry m))
  ∧ (∀ m : gmap string value,
       (∀ k x, m !! k = Some x → truthy x = true) →
       unpackObject (VObj (pack <$> m)) = Ok m).
Proof.
  split_and!.
  - intros appId appPwd location name flag k v.
    unfold getDeploymentTemplateParam.
    rewrite !lookup_insert, lookup_empty.
    repeat case_decide; intros [= <-]; eauto.
  - apply unpackObject_packed.
  - intros m Hm. rewrite unpackObject_packed. f_equal.
    apply map_filter_id. intros k x Hkx. exact (Hm k x Hkx).
Qed.

Lemma template_params_packed_unpack_keeps_truthy_witness :
  (∀ k x, ({[ "botId" := VStr "bot1" ]} : gmap string value) !! k = Some x →
          truthy x = true)
  ∧ unpackObject (VObj (pack <$> {[ "botId" := VStr "bot1" ]}))
    = Ok {[ "botId" := VStr "bot1" ]}.
Proof.
  assert (∀ k x, ({[ "botId" := VStr "bot1" ]} : gmap string value) !! k
                 = Some x → truthy x = true) as Hm.
  { intros k x Hkx. apply lookup_singleton_Some in Hkx as [_ <-]. reflexivity. }
  split; [exact Hm|].
  apply (proj2 (proj2 template_params_packed_unpack_keeps_truthy)). exact Hm.
Defined.

(** C7 as stated fails on a falsy value: the flag [false] is packed by
    [getDeploymentTemplateParam] and dropped by [unpackObject]. *)
Lemma unpack_drops_false_flag :
  getDeploymentTemplateParam (VStr "app-1") (Some "pw") "westus" "bot1" false
    !! "shouldCreateAuthoringResource" = Some (pack (VBool false))
  ∧ unpackObject (VObj (pack <$> flagged)) ≠ Ok flagged.
Proof.
  split; [reflexivity|].
  rewrite unpackObject_packed. intros H.
  apply (f_equal (λ r : Res (gmap string value),
                    match r with
                    | Ok m => m !! "shouldCreateAuthoringResource"
                    | Throw _ => None
                    end)) in H.
  vm_compute in H. discriminate H.
Qed.

(** ** Running the monad: one equation per primitive *)

Section Running.
Context {W : Type}.
Implicit Types s : State W.

Lemma bind_assoc {A B C} (m : M W A) (k1 : A → M W B) (k2 : B → M W C) s :
  bind (bind m k1) k2 s = bind m (λ x, bind (k1 x) k2) s.
Proof. unfold bind. destruct (m s) as [[e|a] s']; reflexivity. Qed.

Lemma bind_ret {A B} (a : A) (k : A → M W B) s : bind (ret a) k s = k a s.
Proof. reflexivity. Qed.

Lemma bind_lift {A B} (r : Res A) (k : A → M W B) s :
  bind (lift r) k s
  = match r with Throw e => (Throw e, s) | Ok a => k a s end.
Proof. unfold bind, lift. destruct r; reflexivity. Qed.

Lemma bind_record {B} (ev : Event) (k : unit → M W B) s :
  bind (record ev) k s = k tt (push ev s).
Proof. reflexivity. Qed.

Lemma bind_fire {B} (f : W → W) (ev : Event) (k : unit → M W B) s :
  bind (fire f ev) k s = k tt (moved (f (world s)) ev s).
Proof. reflexivity. Qed.

Lemma bind_ask {T B} (f : W → Res T * W) (ev : Res T → Event)
    (k : T → M W B) s :
  bind (ask f ev) k s
  = match f (world s) with
    | (Throw e, w) => (Throw e, moved w (ev (Throw e)) s)
    | (Ok a, w) => k a (moved w (ev (Ok a)) s)
    end.
Proof. unfold bind, ask, moved. destruct (f (world s)) as [[e|a] w]; reflexivity. Qed.

Lemma bind_ask_total {T B} (f : W → T * W) (ev : T → Event)
    (k : T → M W B) s :
  bind (ask_total f ev) k s
  = match f (world s) with (a, w) => k a (moved w (ev a) s) end.
Proof. unfold bind, ask_total, moved. destruct (f (world s)) as [a w]; reflexivity. Qed.

Lemma run_ask {T} (f : W → Res T * W) (ev : Res T → Event) s :
  ask f ev s = match f (world s) with (r, w) => (r, moved w (ev r) s) end.
Proof. reflexivity. Qed.

Lemma run_record (ev : Event) s : record ev s = (Ok tt, push ev s).
Proof. reflexivity. Qed.

Lemma run_fire (f : W → W) (ev : Event) s :
  fire f ev s = (Ok tt, moved (f (world s)) ev s).
Proof. reflexivity. Qed.

Lemma run_ret {A} (a : A) s : ret a s = (Ok a, s).
Proof. reflexivity. Qed.
End Running.

(** One step of a run that is held in hypothesis [H], in the form
    [m s = (r, s')]: the head of [m] is executed and, where it depends on an
    answer of the world or on a test, the cases are split. *)
Ltac split_on x :=
  tryif is_var x then destruct x
  else (let Hb := fresh "Hb" in
        destruct x eqn:Hb; try (cbn in Hb; discriminate Hb)).

Ltac run_step H :=
  lazymatch type of H with
  | bind (bind _ _) _ _ = _ => rewrite bind_assoc in H
  | bind (ret _) _ _ = _ => rewrite bind_ret in H
  | bind (lift _) _ _ = _ => rewrite bind_lift in H
  | bind (record _) _ _ = _ => rewrite bind_record in H
  | bind (fire _ _) _ _ = _ => rewrite bind_fire in H
  | bind (ask _ _) _ _ = _ => rewrite bind_ask in H
  | bind (ask_total _ _) _ _ = _ => rewrite bind_ask_total in H
  | bind (if ?b then _ else _) _ _ = _ => split_on b
  | bind (match ?o with _ => _ end) _ _ = _ => split_on o
  | (if ?b then _ else _) _ = _ => split_on b
  | match ?o with _ => _ end _ = _ => split_on o
  | match ?o with _ => _ end = _ => split_on o
  | ask _ _ _ = _ => rewrite run_ask in H
  | record _ _ = _ => rewrite run_record in H
  | fire _ _ _ = _ => rewrite run_fire in H
  | ret _ _ = _ => rewrite run_ret in H
  end;
  cbn beta iota delta [world journal push moved fresh fst snd] in H.

Ltac run_all H := repeat run_step H.

(** ** What a run adds to the journal *)

Global Instance anything_sequential : Sequential anything.
Proof. by split. Qed.

Global Instance Forall_sequential (Q : Event → Prop) : Sequential (Forall Q).
Proof.
  split; [constructor | intros l1 l2 H1 H2].
  apply Forall_app. by split.
Qed.

Global Instance no_luis_sequential : Sequential no_luis.
Proof. exact (Forall_sequential _). Qed.

Global Instance rewrites_in_place_sequential (path : string) :
  Sequential (rewrites_in_place path).
Proof.
  split; [exact I|].
  intros l1 l2 H1 H2. induction l1 as [|ev before IH]; [exact H2|].
  destruct ev; cbn in *; try (by apply IH).
  destruct H1 as [Hread Hbefore]. split; [|by apply IH].
  destruct before as [|[] ?]; try contradiction.
  destruct r0; [contradiction|exact Hread].
Qed.

Section Adds.
Context {W : Type} (P : list Event → Prop) `{!Sequential P}.

Lemma adds_ret {A} (a : A) : adds (W:=W) P (ret a).
Proof. intros s. exists []. split; [reflexivity | apply sequential_nil]. Qed.

Lemma adds_throw {A} (e : exn) : adds (W:=W) (A:=A) P (throw e).
Proof. intros s. exists []. split; [reflexivity | apply sequential_nil]. Qed.

Lemma adds_lift {A} (r : Res A) : adds (W:=W) P (lift r).
Proof. intros s. exists []. split; [reflexivity | apply sequential_nil]. Qed.

Lemma adds_record (ev : Event) : P [ev] → adds (W:=W) P (record ev).
Proof. intros H s. by exists [ev]. Qed.

Lemma adds_fire (f : W → W) (ev : Event) : P [ev] → adds P (fire f ev).
Proof. intros H s. by exists [ev]. Qed.

Lemma adds_ask {T} (f : W → Res T * W) (ev : Res T → Event) :
  (∀ r, P [ev r]) → adds P (ask f ev).
Proof.
  intros H s. unfold ask. destruct (f (world s)) as [r w].
  by exists [ev r].
Qed.

Lemma adds_ask_total {T} (f : W → T * W) (ev : T → Event) :
  (∀ r, P [ev r]) → adds P (ask_total f ev).
Proof.
  intros H s. unfold ask_total. destruct (f (world s)) as [r w].
  by exists [ev r].
Qed.

Lemma adds_bind {A B} (m : M W A) (k : A → M W B) :
  adds P m → (∀ a, adds P (k a)) → adds P (bind m k).
Proof.
  intros Hm Hk s. unfold bind.
  destruct (Hm s) as (l1 & E1 & H1).
  destruct (m s) as [[e|a] s1]; cbn [snd] in E1.
  - by exists l1.
  - destruct (Hk a s1) as (l2 & E2 & H2).
    exists (l2 ++ l1). split.
    + by rewrite E2, E1, app_assoc.
    + by apply sequential_app.
Qed.

Lemma adds_try_catch {A} (body : M W A) (handler : exn → M W A) :
  adds P body → (∀ e, adds P (handler e)) → adds P (try_catch body handler).
Proof.
  intros Hm Hk s. unfold try_catch.
  destruct (Hm s) as (l1 & E1 & H1).
  destruct (body s) as [[e|a] s1]; cbn [snd] in E1.
  - destruct (Hk e s1) as (l2 & E2 & H2).
    exists (l2 ++ l1). split.
    + by rewrite E2, E1, app_assoc.
    + by apply sequential_app.
  - by exists l1.
Qed.

Lemma adds_if {A} (b : bool) (m1 m2 : M W A) :
  adds P m1 → adds P m2 → adds P (if b then m1 else m2).
Proof. by destruct b. Qed.

Lemma adds_for_each {A} (xs : list A) (body : A → M W unit) :
  (∀ x, adds P (body x)) → adds P (for_each xs body).
Proof.
  intros H. induction xs as [|x rest IH]; cbn [for_each].
  - apply adds_ret.
  - apply adds_bind; [apply H | intros _; exact IH].
Qed.

Lemma adds_filterM {A} (p : A → M W bool) (xs : list A) :
  (∀ x, adds P (p x)) → adds P (filterM p xs).
Proof.
  intros H. induction xs as [|x rest IH]; cbn [filterM].
  - apply adds_ret.
  - apply adds_bind; [apply H | intros keep].
    apply adds_bind; [exact IH | intros kept]. apply adds_ret.
Qed.

(** Events already journalled stay journalled. *)
Lemma adds_keeps {A} (m : M W A) (s : State W) (ev : Event) :
  adds P m → In ev (journal s) → In ev (journal (m s).2).
Proof.
  intros H Hin. destruct (H s) as (l & E & _). rewrite E.
  apply in_or_app. by right.
Qed.

(** From a fresh journal, the calls of a run are what it adds. *)
Lemma adds_calls {A} (m : M W A) (w : W) : adds P m → P (calls m w).
Proof.
  intros H. destruct (H (fresh w)) as (l & E & Hl).
  unfold calls. rewrite E. cbn. by rewrite app_nil_r.
Qed.
End Adds.

(** The program is taken apart along its binds, branches and loops; what is
    left is one goal per journalled event. *)
Ltac adds_steps_with known :=
  repeat first
    [ known
    | apply adds_ret; apply _
    | apply adds_throw; apply _
    | apply adds_lift; apply _
    | apply adds_bind; [apply _ | | intros ?]
    | apply adds_try_catch; [apply _ | | intros ?]
    | apply adds_for_each; [apply _ | intros ?]
    | apply adds_filterM; [apply _ | intros ?]
    | apply adds_record
    | apply adds_fire
    | apply adds_ask; intros ?
    | apply adds_ask_total; intros ?
    | apply adds_if
    | lazymatch goal with
      | |- adds _ (match ?x with _ => _ end) => destruct x
      end
    | progress cbv zeta ].

Ltac adds_steps := adds_steps_with fail.

(** ** Provisioning: [create] *)

(** Membership in a journal that has been computed: the cases are split and
    the impossible ones closed. *)
Ltac in_cases H :=
  cbn [In journal push moved fresh] in H;
  repeat (destruct H as [H|H]; [try discriminate H; simplify_eq|]);
  try contradiction.

Ltac find_event :=
  cbn [In journal push moved fresh];
  solve [repeat first [left; reflexivity | right]].

Ltac bool_facts :=
  repeat match goal with
         | H : negb _ = true |- _ => apply negb_true_iff in H
         | H : negb _ = false |- _ => apply negb_false_iff in H
         end.

Lemma merged_result_other (outputObj : gmap string value) (id : value)
    (pwd : option string) (k : string) :
  k ≠ "MicrosoftAppId" → k ≠ "MicrosoftAppPassword" →
  merged_result outputObj id pwd !! k = outputObj !! k.
Proof.
  intros H1 H2. unfold merged_result, Object_assign; cbn [own_props].
  rewrite lookup_union_r.
  - by rewrite lookup_union_l, ?lookup_empty.
  - by rewrite !lookup_insert_ne, lookup_empty.
Qed.

Lemma merged_result_identity (outputObj : gmap string value) (id : value)
    (pwd : option string) :
  merged_result outputObj id pwd !! "MicrosoftAppId" = Some id
  ∧ merged_result outputObj id pwd !! "MicrosoftAppPassword" = Some (of_opt pwd).
Proof.
  unfold merged_result, Object_assign; cbn [own_props].
  split.
  - erewrite lookup_union_Some_l; [done|]. by rewrite lookup_insert_eq.
  - erewrite lookup_union_Some_l; [done|].
    rewrite lookup_insert_ne by done. by rewrite lookup_insert_eq.
Qed.

Section CreateProperties.
Context {W : Type}.
Variable svc : Services W.
Variable JSON_parse : string → Res value.
Variable ToString : value → string.
Variable this : BotProjectDeploy.

Local Abbreviation create' := (create svc JSON_parse ToString this).
Local Abbreviation updateDeploymentJsonFile' := (updateDeploymentJsonFile svc).

(** Every path of [create] from a fresh journal, one goal per path. *)
Ltac create_paths w :=
  unfold calls, outcome;
  let H := fresh "Hrun" in
  destruct (create' _ _ _ _ _ (fresh w)) as [? ?] eqn:H; cbn [fst snd];
  unfold create, provision, createApp, createResourceGroup,
    validateDeployment, createDeployment, updateDeploymentJsonFile,
    readTemplateFile, logger in H;
  run_all H; simplify_eq.

(** C2.  In every run of [create] in which the validation call answers
    with a result whose [error] is set, [create] returns [false] and the
    deployment call is never issued. *)
Theorem create_stops_on_validation_error
    (w : W) (name location environment : string)
    (appPassword luisAuthoringKey : option string)
    (g dn : string) (d : Deployment) (v : DeploymentsValidateResponse) :
  In (EvDeploymentsValidate g dn d (Ok v))
     (calls (create' name location environment appPassword luisAuthoringKey) w) →
  is_Some (error v) →
  outcome (create' name location environment appPassword luisAuthoringKey) w
    = Ok (Some false)
  ∧ ∀ g' dn' d' r',
      ¬ In (EvDeploymentsCreateOrUpdate g' dn' d' r')
           (calls (create' name location environment appPassword
                     luisAuthoringKey) w).
Proof.
  create_paths w; intros Hin [err Herr]; in_cases Hin; try congruence.
  all: split; [reflexivity|]; intros g' dn' d' r' Hin'; in_cases Hin'.
Qed.


(** C4, as the code has it.  [create] returns [true] exactly when the
    resource group was created, the template validated without error, the
    deployment answered with status 200, and the settings update that
    follows ran to its end without raising; the value that update resolves
    to plays no part. *)
Theorem create_true_iff
    (w : W) (name location environment : string)
    (appPassword luisAuthoringKey : option string) :
  outcome (create' name location environment appPassword luisAuthoringKey) w
    = Ok (Some true)
  ↔ group_created
      (calls (create' name location environment appPassword luisAuthoringKey) w)
    ∧ template_validated
        (calls (create' name location environment appPassword luisAuthoringKey) w)
    ∧ template_deployed
        (calls (create' name location environment appPassword luisAuthoringKey) w)
    ∧ settings_update_completed
        (calls (create' name location environment appPassword luisAuthoringKey) w).
Proof.
  unfold group_created, template_validated, template_deployed,
    settings_update_completed.
  create_paths w; (split; [intros Hout; simplify_eq | ]).
  (* the runs that return [true] *)
  all: try (repeat match goal with u : unit |- _ => destruct u end;
            bool_facts; split_and!;
            [ do 3 eexists; find_event
            | do 4 eexists; split; [find_event | assumption]
            | do 4 eexists; split; [find_event | by apply Z.eqb_eq]
            | do 3 eexists; split;
              [ find_event
              | intros Ht; first [congruence | do 2 eexists; find_event] ] ]).
  (* the other runs miss one of the four steps *)
  all: intros (Hg & Hv & Hd & Hu); try reflexivity; exfalso;
    destruct Hg as (?&?&?&Hg);
    destruct Hv as (?&?&?&?&Hv&Hv');
    destruct Hd as (?&?&?&?&Hd&Hd');
    destruct Hu as (?&?&?&Hu&Hu');
    in_cases Hg; in_cases Hv; in_cases Hd; in_cases Hu;
    bool_facts; try congruence;
    try match goal with
        | H : (_ =? _)%Z = false |- _ => apply Z.eqb_neq in H; congruence
        end;
    try (destruct Hu' as (?&?&Hw); [assumption|]; in_cases Hw).
Qed.

(** C9.  In every run of [create], every Azure call (group creation,
    validation, deployment, record fetch, operations listing) is addressed
    to the group named [name-environment], and every remediation hint that
    is logged names that group. *)
Theorem create_uses_one_group
    (w : W) (name location environment : string)
    (appPassword luisAuthoringKey : option string) :
  Forall (uses_group (name +:+ "-" +:+ environment))
    (calls (create' name location environment appPassword luisAuthoringKey) w).
Proof.
  create_paths w; cbn [journal push moved fresh].
  all: repeat constructor.
  all: cbn; intros; first
    [ reflexivity
    | congruence
    | match goal with
      | H : String.prefix _ _ = true |- _ => cbv in H; discriminate H
      end ].
Qed.

(** How [updateDeploymentJsonFile] ends: it resolves to an object, or it
    rejects with the error of the record fetch, of the unpacking or of
    the file write. *)
Lemma updateDeploymentJsonFile_outcome
    (s : State W) (path g dn : string) (id : value) (pwd : option string) :
  update_outcome path g dn id pwd
    (updateDeploymentJsonFile' path g dn id pwd s).1
    (journal (updateDeploymentJsonFile' path g dn id pwd s).2).
Proof.
  destruct (updateDeploymentJsonFile' path g dn id pwd s) as [r s'] eqn:Hrun.
  unfold updateDeploymentJsonFile in Hrun.
  run_all Hrun; simplify_eq; cbn [fst snd update_outcome].
  - left. find_event.
  - right. eexists. split_and!; [find_event | done | by left].
  - right. eexists. split_and!; [find_event | done |].
    right. eexists. find_event.
  - split; [reflexivity|]. eexists. split; [find_event|]. left. eauto.
  - split; [reflexivity|]. eexists. split; [find_event|]. right. eauto.
Qed.

(** The diagnostic branch of [create] leaves no trace in any run. *)
Lemma create_never_diagnoses
    (w : W) (name location environment : string)
    (appPassword luisAuthoringKey : option string) :
  Forall (λ ev, diagnostic ev = false)
    (calls (create' name location environment appPassword luisAuthoringKey) w).
Proof.
  create_paths w; cbn [journal push moved fresh].
  all: repeat constructor.
Qed.

(** What [create] writes to disk: only the settings file, and as its
    content the unpacked outputs of the deployment overlaid with the
    identity; the document that was on disk does not enter. *)
Lemma create_writes_outputs_and_identity
    (w : W) (name location environment : string)
    (appPassword luisAuthoringKey : option string)
    (p : string) (data : content) (r : Res unit) :
  In (EvWriteFile p data r)
     (calls (create' name location environment appPassword luisAuthoringKey) w) →
  p = settingsPath this
  ∧ ∃ g dn got outputObj id,
      In (EvDeploymentsGet g dn (Ok got))
         (calls (create' name location environment appPassword
                   luisAuthoringKey) w)
      ∧ unpackObject (deployment_outputs got) = Ok outputObj
      ∧ data = Stringified (VObj (merged_result outputObj id appPassword)).
Proof.
  create_paths w; intros Hin; in_cases Hin.
  all: split; [reflexivity|]; do 5 eexists; split_and!;
    [find_event | eassumption | reflexivity].
Qed.
End CreateProperties.

(** ** Publishing: [deploy] *)

Lemma adds_weaken {W A} (P Q : list Event → Prop) (m : M W A) :
  (∀ l, P l → Q l) → adds P m → adds Q m.
Proof.
  intros HPQ H s. destruct (H s) as (l & E & Hl). exists l. auto.
Qed.

(** A journal without LUIS events holds no JSON rewrite at all. *)
Lemma no_luis_no_rewrite (path : string) (l : list Event) :
  Forall (λ ev, luis_event ev = false) l → rewrites_in_place path l.
Proof.
  induction 1 as [|ev l Hev Hl IH]; [exact I|].
  destruct ev; cbn in *; try done.
Qed.

(** A JSON write found anywhere in a journal that rewrites in place. *)
Lemma rewrites_in_place_at (path : string) (l1 l2 : list Event)
    (p : string) (doc : value) (r : Res unit) :
  rewrites_in_place path (l1 ++ EvWriteJson p doc r :: l2) →
  p = path
  ∧ ∃ D l3 cfg,
      l2 = EvReadJson path (Ok D) :: l3 ∧ setProp D "luis" cfg = Ok doc.
Proof.
  induction l1 as [|ev l1 IH]; cbn [app].
  - cbn. intros [Hread _].
    destruct l2 as [|[] l3]; try contradiction.
    destruct r0 as [|D]; [contradiction|].
    destruct Hread as (-> & -> & cfg & Hcfg). eauto 6.
  - intros H. apply IH. destruct ev; cbn in H; try exact H. apply H.
Qed.

(** Assigning [luis] on a settings object touches no other property. *)
Lemma setProp_frame (m : gmap string value) (cfg doc : value) :
  setProp (VObj m) "luis" cfg = Ok doc →
  ∃ m', doc = VObj m'
        ∧ m' !! "luis" = Some cfg
        ∧ ∀ k, k ≠ "luis" → m' !! k = m !! k.
Proof.
  intros [= <-]. eexists; split_and!; [reflexivity | | ].
  - by rewrite lookup_insert_eq.
  - intros k Hk. by rewrite lookup_insert_ne.
Qed.

Section DeployProperties.
Context {W : Type}.
Variable svc : Services W.
Variable JSON_parse : string → Res value.
Variable path_join : string → string → string.
Variable ToString : value → string.
Variable this : BotProjectDeploy.
Variable base64 : string → string.

Local Abbreviation deploy' :=
  (deploy svc JSON_parse path_join ToString this base64).
Local Abbreviation deploy_body' :=
  (deploy_body svc JSON_parse path_join ToString this base64).
Local Abbreviation prepare' := (prepare svc path_join this).
Local Abbreviation publishLuis' := (publishLuis svc JSON_parse ToString this).
Local Abbreviation pack_and_upload' := (pack_and_upload svc this base64).
Local Abbreviation update_luis_settings' := (update_luis_settings svc this).

(** The run of [deploy], step by step up to the LUIS block. *)
Lemma deploy_run (name environment : string)
    (key region botPath language : option string) (s : State W) :
  deploy' name environment key region botPath language s
  = match prepare' botPath s with
    | (Throw e, s1) => (Ok tt, push (EvConsoleLog e) s1)
    | (Ok settings, s1) =>
        match resolve_luis settings key region with
        | Throw e => (Ok tt, push (EvConsoleLog e) s1)
        | Ok c =>
            try_catch
              (do! (if truthy (authoringKey c) && truthy (authoringRegion c)
                    then publishLuis' name environment
                           (if negb (truthy (of_opt language))
                            then "en-us" else show_opt language) c
                    else ret tt) in
               pack_and_upload' name environment)
              (λ error, record (EvConsoleLog error)) s1
        end
    end.
Proof.
  unfold deploy, deploy_body, try_catch.
  unfold bind at 1. destruct (prepare' botPath s) as [[e|settings] s1];
    [reflexivity|].
  unfold bind at 1, lift.
  destruct (resolve_luis settings key region) as [e|c]; reflexivity.
Qed.

Lemma prepare_no_luis (botPath : option string) :
  adds no_luis (prepare' botPath).
Proof.
  unfold prepare, botPrepareDeploy, dotnetPublish, logger.
  adds_steps; by repeat constructor.
Qed.

Lemma pack_and_upload_no_luis (name environment : string) :
  adds no_luis (pack_and_upload' name environment).
Proof.
  unfold pack_and_upload, zipDirectory, deployZip, logger.
  adds_steps; by repeat constructor.
Qed.

Lemma update_luis_settings_in_place (cfg : gmap string value) :
  adds (rewrites_in_place (deploymentSettingsPath this))
    (update_luis_settings' cfg).
Proof.
  intros s.
  destruct (update_luis_settings' cfg s) as [r s'] eqn:Hrun.
  unfold update_luis_settings in Hrun.
  run_all Hrun; simplify_eq.
  all: cbn [snd journal push moved].
  - by exists [EvReadJson (deploymentSettingsPath this) (Throw e)].
  - by exists [EvReadJson (deploymentSettingsPath this) (Ok a)].
  - eexists [EvWriteJson _ _ _; EvReadJson _ (Ok _)].
    split; [reflexivity|]. cbn. eauto 6.
Qed.

Lemma collect_app_ids_in_place (files : list string)
    (acc : gmap string value) :
  adds (rewrites_in_place (deploymentSettingsPath this))
    (collect_app_ids svc files acc).
Proof.
  revert acc. induction files as [|f rest IH]; intros acc;
    cbn [collect_app_ids].
  - adds_steps.
  - adds_steps; first [done | apply IH].
Qed.

Lemma publishLuis_in_place (name environment language : string)
    (c : LuisCredentials) :
  adds (rewrites_in_place (deploymentSettingsPath this))
    (publishLuis' name environment language c).
Proof.
  unfold publishLuis, notEmptyLuisModel, assign_account, logger.
  adds_steps_with
    ltac:(first [ apply update_luis_settings_in_place
                | apply collect_app_ids_in_place ]);
    done.
Qed.

Lemma collect_app_ids_anything (files : list string)
    (acc : gmap string value) :
  adds anything (collect_app_ids svc files acc).
Proof.
  eapply adds_weaken; [|apply collect_app_ids_in_place]. done.
Qed.

Lemma pack_and_upload_anything (name environment : string) :
  adds anything (pack_and_upload' name environment).
Proof.
  eapply adds_weaken; [|apply pack_and_upload_no_luis]. done.
Qed.

(** The first call of a block stays in the journal whatever follows it,
    inside a [try] whose handler only logs. *)
Lemma first_call_stays {T A} (f : W → Res T * W) (ev : Res T → Event)
    (k : T → M W A) (h : exn → M W A) (s : State W) :
  (∀ a, adds anything (k a)) → (∀ e, adds anything (h e)) →
  ∃ r, In (ev r) (journal (try_catch (bind (ask f ev) k) h s).2).
Proof.
  intros Hk Hh. unfold try_catch. rewrite bind_ask.
  destruct (f (world s)) as [[e|a] w'].
  - exists (Throw e). apply (adds_keeps anything); [apply Hh|]. by left.
  - exists (Ok a).
    assert (In (ev (Ok a)) (journal (k a (moved w' (ev (Ok a)) s)).2)) as Hin
      by (apply (adds_keeps anything); [apply Hk | by left]).
    destruct (k a _) as [[e|x] s2]; [|exact Hin].
    apply (adds_keeps anything); [apply Hh | exact Hin].
Qed.

Lemma no_luis_not_started (l : list Event) :
  no_luis l → ¬ luis_started this l.
Proof.
  intros Hl [r Hin]. unfold no_luis in Hl. rewrite List.Forall_forall in Hl.
  specialize (Hl _ Hin). discriminate Hl.
Qed.

(** Once the test on the credentials has passed, the first call of the
    LUIS block is made. *)
Lemma luis_block_starts (name environment language : string)
    (c : LuisCredentials) (s : State W) :
  luis_started this
    (journal
       (try_catch
          (do! publishLuis' name environment language c in
           pack_and_upload' name environment)
          (λ error, record (EvConsoleLog error)) s).2).
Proof.
  unfold luis_started, publishLuis.
  unfold try_catch. rewrite bind_assoc.
  apply (first_call_stays _ _ _ (λ error, record (EvConsoleLog error))).
  - intros botFiles.
    unfold notEmptyLuisModel, update_luis_settings,
      assign_account, logger.
    adds_steps_with
      ltac:(first [ apply collect_app_ids_anything
                  | apply pack_and_upload_anything ]);
      done.
  - intros e. adds_steps; done.
Qed.

(** When the test fails, what remains of [deploy] adds no LUIS event. *)
Lemma deploy_tail_no_luis (name environment : string) :
  adds no_luis
    (try_catch
       (do! ret tt in pack_and_upload' name environment)
       (λ error, record (EvConsoleLog error))).
Proof.
  adds_steps_with ltac:(apply pack_and_upload_no_luis);
    by repeat constructor.
Qed.

(** C5.  From any state, [deploy] returns normally; when a step of its
    body raises, the journal of the body is kept and the error is only
    printed. *)
Theorem deploy_never_throws
    (s : State W) (name environment : string)
    (key region botPath language : option string) :
  (deploy' name environment key region botPath language s).1 = Ok tt
  ∧ journal (deploy' name environment key region botPath language s).2
    = match (deploy_body' name environment key region botPath language s).1 with
      | Throw error =>
          EvConsoleLog error
          :: journal
               (deploy_body' name environment key region botPath language s).2
      | Ok _ =>
          journal
            (deploy_body' name environment key region botPath language s).2
      end.
Proof.
  unfold deploy, try_catch.
  destruct (deploy_body' _ _ _ _ _ _ s) as [[e|[]] s']; by split.
Qed.

(** A property can be read of every value but [null] and [undefined]. *)
Lemma getProp_readable (v : value) (k : string) :
  (∃ x, getProp v k = Ok x) ↔ v ≠ VNull ∧ v ≠ VUndefined.
Proof.
  destruct v; cbn [getProp]; split;
    first [ by intros [x Hx] | by intros [? ?] | by eauto ].
Qed.

(** The defaults of the code against the words of the specification: the
    code resolves a key and a region exactly when both are known and the
    settings document is neither [null] nor [undefined].  On such a
    document the read of the [luis] section raises, whether or not the key
    and the region are passed. *)
Lemma luis_resolved_known (settings : value) (key region : option string) :
  luis_resolved settings key region
  ↔ luis_known settings key region
    ∧ settings ≠ VNull ∧ settings ≠ VUndefined.
Proof.
  unfold luis_resolved, luis_known, key_known, region_known, resolve_luis.
  rewrite <- (getProp_readable settings "luis").
  destruct (getProp settings "luis") as [e|luisSettings]; cbn [res_bind].
  { split; [by intros (c & Hc & _)|by intros (_ & x & Hx)]. }
  destruct (truthy (of_opt key)) eqn:Hk;
    destruct (truthy (of_opt region)) eqn:Hr; cbn [negb res_bind fst snd].
  - split.
    + intros _. split_and!; [by left|by left|by eauto].
    + intros _. eexists. by split_and!.
  - destruct (getProp luisSettings "region") as [e|r] eqn:Hregion;
      cbn [res_bind].
    { split; [by intros (c & Hc & _)|].
      intros ((_ & [Hx|(ls & r & Hls & Hr' & _)]) & _); [done|].
      congruence. }
    split.
    + intros (c & Hc & _ & Hg). simplify_eq. cbn in Hg.
      split_and!; [by left | right; by eauto | by eauto].
    + intros ((_ & [Hx|(ls & r' & Hls & Hr' & Ht)]) & _); [done|].
      simplify_eq. eexists. split_and!; [reflexivity|..]; cbn; congruence.
  - destruct (getProp luisSettings "authoringKey") as [e|k] eqn:Hkey;
      cbn [res_bind].
    { split; [by intros (c & Hc & _)|].
      intros (([Hx|(ls & k & Hls & Hk' & _)] & _) & _); [done|].
      congruence. }
    destruct (getProp luisSettings "endpointKey") as [e|ek] eqn:Hek;
      cbn [res_bind fst snd].
    { destruct luisSettings; cbn in Hkey, Hek; simplify_eq. }
    split.
    + intros (c & Hc & Hg & _). simplify_eq. cbn in Hg.
      split_and!; [right; by eauto | by left | by eauto].
    + intros (([Hx|(ls & k' & Hls & Hk' & Ht)] & _) & _); [done|].
      simplify_eq. eexists. split_and!; [reflexivity|..]; cbn; congruence.
  - destruct (getProp luisSettings "authoringKey") as [e|k] eqn:Hkey;
      cbn [res_bind].
    { split; [by intros (c & Hc & _)|].
      intros (([Hx|(ls & k & Hls & Hk' & _)] & _) & _); [done|].
      congruence. }
    destruct (getProp luisSettings "endpointKey") as [e|ek] eqn:Hek;
      cbn [res_bind fst snd].
    { destruct luisSettings; cbn in Hkey, Hek; simplify_eq. }
    destruct (getProp luisSettings "region") as [e|r] eqn:Hregion;
      cbn [res_bind].
    { destruct luisSettings; cbn in Hkey, Hregion; simplify_eq. }
    split.
    + intros (c & Hc & Hg & Hg'). simplify_eq. cbn in Hg, Hg'.
      split_and!; [right; by eauto | right; by eauto | by eauto].
    + intros (([Hx|(ls & k' & Hls & Hk' & Ht)]
               & [Hx'|(ls' & r' & Hls' & Hr' & Ht')]) & _); [done..|].
      simplify_eq. eexists. split_and!; [reflexivity|..]; cbn; congruence.
Qed.

(** The test of the LUIS block, as the code evaluates it. *)
Lemma luis_block_at_test
    (w : W) (name environment : string)
    (key region botPath language : option string) :
  match prepare' botPath (fresh w) with
  | (Ok settings, _) =>
      (luis_started this
         (calls (deploy' name environment key region botPath language) w)
       ↔ luis_resolved settings key region)
      ∧ (¬ luis_resolved settings key region →
         no_luis
           (calls (deploy' name environment key region botPath language) w))
  | (Throw _, _) =>
      no_luis (calls (deploy' name environment key region botPath language) w)
  end.
Proof.
  unfold calls. rewrite deploy_run.
  destruct (prepare_no_luis botPath (fresh w)) as (l0 & E0 & H0).
  destruct (prepare' botPath (fresh w)) as [[e|settings] s1];
    cbn [snd fresh journal] in E0; rewrite app_nil_r in E0.
  - cbn [snd journal push]. rewrite E0. by constructor.
  - destruct (resolve_luis settings key region) as [e|c] eqn:Hr.
    + assert (¬ luis_resolved settings key region) as Hn
        by (intros (c & Hc & _); congruence).
      assert (no_luis (journal (push (EvConsoleLog e) s1))) as Hno
        by (cbn [journal push]; rewrite E0; by constructor).
      split; [split|]; [|done|done].
      intros Hs. by apply no_luis_not_started in Hs.
    + destruct (truthy (authoringKey c) && truthy (authoringRegion c))
        eqn:Hc.
      * apply andb_true_iff in Hc as [Hk Hg].
        assert (luis_resolved settings key region) as Hkn
          by (exists c; done).
        split; [split|]; [done| |done].
        intros _. apply luis_block_starts.
      * assert (¬ luis_resolved settings key region) as Hn.
        { intros (c' & Hc' & Hk & Hg).
          rewrite Hr in Hc'. injection Hc' as <-.
          by rewrite Hk, Hg in Hc. }
        assert (no_luis
                  (journal
                     (try_catch
                        (do! ret tt in pack_and_upload' name environment)
                        (λ error, record (EvConsoleLog error)) s1).2))
          as Hno.
        { destruct (deploy_tail_no_luis name environment s1)
            as (l & E & Hl).
          rewrite E, E0. apply Forall_app. by split. }
        split; [split|]; [|done|done].
        intros Hs. by apply no_luis_not_started in Hs.
Qed.

(** C6, as the code has it.  When the steps of [deploy] that precede the
    LUIS settings have completed and yielded the settings document, the
    LUIS block starts exactly when both an authoring key and an authoring
    region are known, passed explicitly or sourced from the settings file,
    and the settings document is neither [null] nor [undefined]; when this
    is not so, or when a preceding step has failed, the run holds no event
    of the LUIS block, network calls included. *)
Theorem luis_block_guard
    (w : W) (name environment : string)
    (key region botPath language : option string) :
  match prepare' botPath (fresh w) with
  | (Ok settings, _) =>
      (luis_started this
         (calls (deploy' name environment key region botPath language) w)
       ↔ luis_known settings key region
         ∧ settings ≠ VNull ∧ settings ≠ VUndefined)
      ∧ (¬ (luis_known settings key region
            ∧ settings ≠ VNull ∧ settings ≠ VUndefined) →
         no_luis
           (calls (deploy' name environment key region botPath language) w))
  | (Throw _, _) =>
      no_luis (calls (deploy' name environment key region botPath language) w)
  end.
Proof.
  pose proof (luis_block_at_test w name environment key region botPath
                language) as Htest.
  destruct (prepare' botPath (fresh w)) as [[e|settings] s1]; [done|].
  destruct Htest as [Hiff Hno].
  rewrite <- luis_resolved_known. by split.
Qed.

Lemma deploy_in_place (name environment : string)
    (key region botPath language : option string) :
  adds (rewrites_in_place (deploymentSettingsPath this))
    (deploy' name environment key region botPath language).
Proof.
  unfold deploy, deploy_body.
  adds_steps_with
    ltac:(first
            [ apply publishLuis_in_place
            | eapply adds_weaken;
              [apply no_luis_no_rewrite | apply prepare_no_luis]
            | eapply adds_weaken;
              [apply no_luis_no_rewrite | apply pack_and_upload_no_luis] ]);
    done.
Qed.
End DeployProperties.

(** ** The publish page *)

Module PublishPageProperties.
Import PublishPage.

(** The test that guards the fetch can never hold: it sits under a test
    that the history is not empty. *)
Lemma empty_under_nonempty (b : bool) (latest : IStatus)
    (older : list IStatus) :
  b && (length (latest :: older) =? 0) = false.
Proof. apply andb_false_r. Qed.

Lemma watch_bot_never_fetches (c : Closure) (items : list IBotStatus)
    (bot : IBotStatus) :
  Forall (λ a, is_fetch a = false) (watch_bot c items bot).2.
Proof.
  unfold watch_bot.
  destruct (publishTarget bot) as [wanted|]; [|constructor].
  destruct (publishTargets bot) as [targets|]; [|constructor].
  destruct (negb (wanted =? "")%string); [|constructor].
  destruct (find_target targets wanted) as [selectedTarget|]; [|constructor].
  destruct (history_of c (id bot) wanted) as [[|latest older]|];
    [constructor| |constructor].
  rewrite empty_under_nonempty.
  destruct (status latest =? 202)%Z; cbn [snd].
  { unfold getUpdatedStatus. by repeat constructor. }
  destruct ((status latest =? 200)%Z || (status latest =? 500)%Z); cbn [snd].
  - destruct (default false (showNotifications c !! id bot)).
    + destruct (pendingNotification c); by repeat constructor.
    + by repeat constructor.
  - by repeat constructor.
Qed.

Lemma watch_history_never_fetches (c : Closure)
    (items selectedBots : list IBotStatus) :
  Forall (λ a, is_fetch a = false) (actions_of c items selectedBots).
Proof.
  unfold actions_of. revert items.
  induction selectedBots as [|bot rest IH]; intros items;
    cbn [watch_history]; [constructor|].
  pose proof (watch_bot_never_fetches c items bot) as Hbot.
  destruct (watch_bot c items bot) as [[bot' items'] acts].
  specialize (IH items').
  destruct (watch_history c items' rest) as [[rest' items''] acts'].
  cbn [snd] in *. apply Forall_app. by split.
Qed.

(** C8.  The effect never issues a status fetch of its own: in
    particular, for the bot whose selected target carries a
    [lastPublished] date and whose history for that target is empty, the
    effect does nothing at all. *)
Theorem empty_history_is_not_polled :
  (∀ c items selectedBots,
     Forall (λ a, is_fetch a = false) (actions_of c items selectedBots))
  ∧ find_target [republished] "prod" = Some republished
  ∧ lastPublished republished = Some "2020-09-01T10:00:00.000Z"
  ∧ history_of empty_history "bot1" "prod" = Some []
  ∧ actions_of empty_history [bot1] [bot1] = [].
Proof.
  split_and!; [apply watch_history_never_fetches | reflexivity..].
Qed.
End PublishPageProperties.

(** An event of a computed journal, shown at its position. *)
Ltac at_position n :=
  apply (nth_error_In _ n); vm_compute; reflexivity.

(** ** The settings documents on disk *)

(** C1, as the code has it.  The LUIS merge of [deploy] rewrites the
    deployment settings in place: each JSON document it writes goes to the
    deployment settings file, follows a read of that file, and is the
    document read with [luis] assigned, every other key of an object
    unchanged.  The post-provision write of [create] does not merge into the
    document on disk: it writes the unpacked outputs of the deployment
    overlaid with [MicrosoftAppId] and [MicrosoftAppPassword], and nothing
    else. *)
Theorem settings_rewrites_frame {W : Type} (svc : Services W)
    (JSON_parse : string → Res value) (path_join : string → string → string)
    (ToString : value → string) (this : BotProjectDeploy)
    (base64 : string → string) :
  (∀ w name environment key region botPath language l1 l2 p doc r,
     calls (deploy svc JSON_parse path_join ToString this base64
              name environment key region botPath language) w
       = l1 ++ EvWriteJson p doc r :: l2 →
     p = deploymentSettingsPath this
     ∧ ∃ D l3 cfg,
         l2 = EvReadJson (deploymentSettingsPath this) (Ok D) :: l3
         ∧ setProp D "luis" cfg = Ok doc
         ∧ ∀ m, D = VObj m →
             ∃ m', doc = VObj m'
                   ∧ m' !! "luis" = Some cfg
                   ∧ ∀ k, k ≠ "luis" → m' !! k = m !! k)
  ∧ (∀ w name location environment appPassword luisAuthoringKey p data r,
       In (EvWriteFile p data r)
          (calls (create svc JSON_parse ToString this
                    name location environment appPassword luisAuthoringKey) w) →
       p = settingsPath this
       ∧ ∃ g dn got outputObj id,
           In (EvDeploymentsGet g dn (Ok got))
              (calls (create svc JSON_parse ToString this
                        name location environment appPassword
                        luisAuthoringKey) w)
           ∧ unpackObject (deployment_outputs got) = Ok outputObj
           ∧ data = Stringified (VObj (merged_result outputObj id appPassword))
           ∧ ∀ k, k ≠ "MicrosoftAppId" → k ≠ "MicrosoftAppPassword" →
               merged_result outputObj id appPassword !! k = outputObj !! k).
Proof.
  split.
  - intros w name environment key region botPath language l1 l2 p doc r Hcalls.
    pose proof (adds_calls _ _ w
                  (deploy_in_place svc JSON_parse path_join ToString this
                     base64 name environment key region botPath language))
      as Hplace.
    rewrite Hcalls in Hplace.
    apply rewrites_in_place_at in Hplace
      as (-> & D & l3 & cfg & -> & Hset).
    split; [reflexivity|]. exists D, l3, cfg. split_and!; [done..|].
    intros m ->. by apply setProp_frame.
  - intros w name location environment appPassword luisAuthoringKey p data r
      Hin.
    destruct (create_writes_outputs_and_identity svc JSON_parse ToString this
                w name location environment appPassword luisAuthoringKey
                p data r Hin)
      as (-> & g & dn & got & outputObj & id & Hget & Hunpack & ->).
    split; [reflexivity|]. exists g, dn, got, outputObj, id.
    split_and!; [done..|]. intros k. apply merged_result_other.
Qed.

Lemma settings_rewrites_frame_witness :
  (luis_run
     = take 14 luis_run
       ++ EvWriteJson (deploymentSettingsPath bot) rewritten_settings (Ok tt)
          :: drop 15 luis_run
   ∧ ∃ D l3 cfg,
       drop 15 luis_run = EvReadJson (deploymentSettingsPath bot) (Ok D) :: l3
       ∧ setProp D "luis" cfg = Ok rewritten_settings
       ∧ ∀ m, D = VObj m →
           ∃ m', rewritten_settings = VObj m'
                 ∧ m' !! "luis" = Some cfg
                 ∧ ∀ k, k ≠ "luis" → m' !! k = m !! k)
  ∧ (In (EvWriteFile (settingsPath bot)
           (Stringified (VObj provisioned_settings)) (Ok tt)) provision_run
     ∧ ∃ g dn got outputObj id,
         In (EvDeploymentsGet g dn (Ok got)) provision_run
         ∧ unpackObject (deployment_outputs got) = Ok outputObj
         ∧ Stringified (VObj provisioned_settings)
           = Stringified (VObj (merged_result outputObj id (Some "pw")))
         ∧ ∀ k, k ≠ "MicrosoftAppId" → k ≠ "MicrosoftAppPassword" →
             merged_result outputObj id (Some "pw") !! k = outputObj !! k).
Proof.
  assert (luis_run
          = take 14 luis_run
            ++ EvWriteJson (deploymentSettingsPath bot) rewritten_settings (Ok tt)
               :: drop 15 luis_run) as Hrun
    by (vm_compute; reflexivity).
  assert (In (EvWriteFile (settingsPath bot)
                (Stringified (VObj provisioned_settings)) (Ok tt))
             provision_run) as Hwrite
    by at_position 2.
  split; (split; [assumption|]).
  - exact (proj2 (proj1 (settings_rewrites_frame (scripted all_good) parse_any
                           join_slash show_value bot plain)
                    tt "bot1" "dev" (Some "key") (Some "westus") None None
                    (take 14 luis_run) (drop 15 luis_run)
                    (deploymentSettingsPath bot) rewritten_settings (Ok tt)
                    Hrun)).
  - exact (proj2 (proj2 (settings_rewrites_frame (scripted all_good) parse_any
                           join_slash show_value bot plain)
                    tt "bot1" "westus" "dev" (Some "pw") None
                    (settingsPath bot)
                    (Stringified (VObj provisioned_settings)) (Ok tt)
                    Hwrite)).
Defined.

(** C1 as stated fails on the post-provision write: the settings on disk
    hold a key [feature] that is neither an output nor part of the identity,
    and the document written back does not hold it. *)
Lemma create_rewrite_drops_settings_key :
  In (EvReadJson (settingsPath bot) (Ok (VObj sample_settings))) provision_run
  ∧ In (EvWriteFile (settingsPath bot) (Stringified (VObj provisioned_settings))
          (Ok tt)) provision_run
  ∧ sample_settings !! "feature" = Some (VStr "on")
  ∧ provisioned_settings !! "feature" = None.
Proof.
  split_and!.
  - at_position 18.
  - at_position 2.
  - reflexivity.
  - reflexivity.
Qed.

(** ** Instances of the provisioning properties *)

Lemma create_stops_on_validation_error_witness :
  (In (EvDeploymentsValidate "bot1-dev" "1599000000000" sample_deployment
         (Ok {| error := Some {| code := Some "InvalidTemplate";
                                 message := Some "bad parameter" |} |}))
      (calls (create_in rejected_template "bot1" "westus" "dev" (Some "pw") None)
             tt)
   ∧ is_Some (error {| error := Some {| code := Some "InvalidTemplate";
                                        message := Some "bad parameter" |} |}))
  ∧ (outcome (create_in rejected_template "bot1" "westus" "dev" (Some "pw") None)
       tt = Ok (Some false)
     ∧ ∀ g' dn' d' r',
         ¬ In (EvDeploymentsCreateOrUpdate g' dn' d' r')
              (calls (create_in rejected_template "bot1" "westus" "dev"
                        (Some "pw") None) tt)).
Proof.
  assert (In (EvDeploymentsValidate "bot1-dev" "1599000000000" sample_deployment
                (Ok {| error := Some {| code := Some "InvalidTemplate";
                                        message := Some "bad parameter" |} |}))
             (calls (create_in rejected_template "bot1" "westus" "dev"
                       (Some "pw") None) tt)) as Hin
    by at_position 4.
  assert (is_Some (error {| error := Some {| code := Some "InvalidTemplate";
                                             message := Some "bad parameter" |} |}))
    as Herr by (eexists; reflexivity).
  split; [split; [exact Hin | exact Herr]|].
  exact (create_stops_on_validation_error (scripted rejected_template)
           parse_any show_value bot tt "bot1" "westus" "dev" (Some "pw") None
           _ _ _ _ Hin Herr).
Defined.



(** C4 as stated fails when the settings update raises: the group is
    created, the template validated and deployed with status 200, and
    [create] does not return [true]. *)
Lemma create_fails_when_record_unavailable :
  group_created
    (calls (create_in record_unavailable "bot1" "westus" "dev" (Some "pw") None) tt)
  ∧ template_validated
      (calls (create_in record_unavailable "bot1" "westus" "dev" (Some "pw") None) tt)
  ∧ template_deployed
      (calls (create_in record_unavailable "bot1" "westus" "dev" (Some "pw") None) tt)
  ∧ outcome (create_in record_unavailable "bot1" "westus" "dev" (Some "pw") None) tt
    = Throw (Failure (VStr "ETIMEDOUT"))
  ∧ outcome (create_in record_unavailable "bot1" "westus" "dev" (Some "pw") None) tt
    ≠ Ok (Some true).
Proof.
  split_and!.
  - exists "bot1-dev", "westus", (VObj ∅). at_position 11.
  - exists "bot1-dev", "1599000000000", sample_deployment, {| error := None |}.
    split; [at_position 6 | reflexivity].
  - exists "bot1-dev", "1599000000000", sample_deployment,
      {| _response := {| status := 200 |} |}.
    split; [at_position 2 | reflexivity].
  - vm_compute. reflexivity.
  - vm_compute. discriminate.
Qed.

(** C10, as the code has it.  [updateDeploymentJsonFile] either rejects
    (the record fetch fails, the unpacking of the outputs raises, or the
    file write fails) or resolves to a truthy object: the merged result when
    the deployment record carries outputs, the empty object otherwise.
    Hence no run of [create] lists the deployment operations or logs a
    failed operation. *)
Theorem update_result_truthy_no_diagnosis {W : Type} (svc : Services W)
    (JSON_parse : string → Res value) (ToString : value → string)
    (this : BotProjectDeploy) :
  (∀ s path g dn id pwd,
     update_outcome path g dn id pwd
       (updateDeploymentJsonFile svc path g dn id pwd s).1
       (journal (updateDeploymentJsonFile svc path g dn id pwd s).2))
  ∧ (∀ w name location environment appPassword luisAuthoringKey,
       Forall (λ ev, diagnostic ev = false)
         (calls (create svc JSON_parse ToString this
                   name location environment appPassword luisAuthoringKey) w)).
Proof.
  split.
  - apply updateDeploymentJsonFile_outcome.
  - intros. apply create_never_diagnoses.
Qed.

(** C10 as stated fails on "always resolves": when the deployment record
    cannot be fetched, [updateDeploymentJsonFile] rejects. *)
Lemma update_rejects_when_record_unavailable :
  (updateDeploymentJsonFile (scripted record_unavailable) (settingsPath bot)
     "bot1-dev" "1599000000000" (VStr "app-1") (Some "pw") (fresh tt)).1
  = Throw (Failure (VStr "ETIMEDOUT")).
Proof. vm_compute. reflexivity. Qed.

(** In the sample provisioning it resolves to the merged result. *)
Example update_resolves_to_merged_result :
  (updateDeploymentJsonFile (scripted all_good) (settingsPath bot)
     "bot1-dev" "1599000000000" (VStr "app-1") (Some "pw") (fresh tt)).1
  = Ok (VObj provisioned_settings).
Proof. vm_compute. reflexivity. Qed.

(** ** Instances of the publishing properties *)

(** C6 at a publication whose key and region are sourced from the settings
    file: both are known, and the LUIS block starts. *)
Lemma luis_block_guard_witness :
  (luis_known sourced_settings None None
   ∧ sourced_settings ≠ VNull ∧ sourced_settings ≠ VUndefined)
  ∧ luis_started bot sourced_run.
Proof.
  assert (luis_known sourced_settings None None
          ∧ sourced_settings ≠ VNull ∧ sourced_settings ≠ VUndefined)
    as Hknown.
  { split_and!; [|done|done]. split; right; eexists _, _; by split_and!. }
  split; [exact Hknown|].
  pose proof (luis_block_guard (scripted luis_in_settings) parse_any
                join_slash show_value bot plain tt "bot1" "dev"
                None None None None) as Hguard.
  assert (prepare (scripted luis_in_settings) join_slash bot None (fresh tt)
          = (Ok sourced_settings, sourced_state)) as Hprepare
    by (vm_compute; reflexivity).
  rewrite Hprepare in Hguard.
  exact (proj2 (proj1 Hguard) Hknown).
Defined.

(** C6 as stated fails when a step before the LUIS test fails: the authoring key
    and region are passed explicitly, hence known, the build fails, and the
    LUIS block does not run. *)
Lemma luis_block_skipped_when_build_fails :
  luis_known (VObj sample_settings) (Some "key") (Some "westus")
  ∧ ¬ luis_started bot
        (calls (deploy_in build_fails "bot1" "dev" (Some "key") (Some "westus")
                  None None) tt).
Proof.
  split; [split; by left|].
  intros [r Hin]. vm_compute in Hin.
  repeat (destruct Hin as [Hin|Hin]; [discriminate Hin|]). exact Hin.
Qed.

(** It fails too when the settings file holds [null]: the key and the
    region are passed explicitly, hence known, every step before the LUIS
    settings succeeds, the read of the [luis] section raises, and the LUIS
    block does not run. *)
Example luis_block_skipped_when_settings_null :
  luis_known VNull (Some "key") (Some "westus")
  ∧ outcome (prepare (scripted null_settings) join_slash bot None) tt
    = Ok VNull
  ∧ ¬ luis_started bot
        (calls (deploy_in null_settings "bot1" "dev" (Some "key")
                  (Some "westus") None None) tt)
  ∧ head (calls (deploy_in null_settings "bot1" "dev" (Some "key")
                   (Some "westus") None None) tt)
    = Some (EvConsoleLog TypeError).
Proof.
  split_and!; [split; by left | vm_compute; reflexivity | |
               vm_compute; reflexivity].
  intros [r Hin]. vm_compute in Hin.
  repeat (destruct Hin as [Hin|Hin]; [discriminate Hin|]). exact Hin.
Qed.

(** In the sample publication the key and the region are passed explicitly
    and the block runs. *)
Example luis_block_runs_in_sample :
  luis_started bot luis_run
  ∧ luis_known (VObj sample_settings) (Some "key") (Some "westus").
Proof.
  split.
  - exists (Ok []). at_position 16.
  - split; by left.
Qed.

(** A failed build is swallowed by [deploy]: the run returns normally and
    ends with the printing of the error. *)
Example deploy_swallows_build_failure :
  outcome (deploy_in build_fails "bot1" "dev" None None None None) tt = Ok tt
  ∧ head (calls (deploy_in build_fails "bot1" "dev" None None None None) tt)
    = Some (EvConsoleLog (Failure (VStr "dotnet: exit code 1"))).
Proof. split; vm_compute; reflexivity. Qed.

(** * Further properties *)

(** ** Provisioning *)

(** The list of a computed journal, event by event. *)
Ltac journal_forall :=
  repeat first [apply List.Forall_nil | apply List.Forall_cons].

Section CreateFurther.
Context {W : Type}.
Variable svc : Services W.
Variable JSON_parse : string → Res value.
Variable ToString : value → string.
Variable this : BotProjectDeploy.

Local Abbreviation create' := (create svc JSON_parse ToString this).

Ltac provision_paths w :=
  unfold calls, outcome;
  let H := fresh "Hrun" in
  destruct (create' _ _ _ _ _ (fresh w)) as [? ?] eqn:H; cbn [fst snd];
  unfold create, provision, createApp, createResourceGroup,
    validateDeployment, createDeployment, updateDeploymentJsonFile,
    readTemplateFile, logger in H;
  run_all H; simplify_eq.

(** X1.  Without a settings file, [create] reports it and returns without
    a value: the file is not read and no service is called. *)
Theorem create_without_settings_file
    (w w' : W) (name location environment : string)
    (appPassword luisAuthoringKey : option string) :
  fs_existsSync svc (settingsPath this) w = (false, w') →
  outcome (create' name location environment appPassword luisAuthoringKey) w
    = Ok None
  ∧ calls (create' name location environment appPassword luisAuthoringKey) w
    = [ EvLogger PROVISION_INFO
          (PText "! Could not find an 'appsettings.deployment.json' file in the current directory.");
        EvExistsSync (settingsPath this) false ].
Proof.
  intros Hmissing. provision_paths w; try done.
Qed.

(** X2.  When the settings hold a truthy [MicrosoftAppId], no application
    is registered and every deployment submitted carries that id as its
    [appId] parameter. *)
Theorem create_reuses_identity
    (w : W) (name location environment : string)
    (appPassword luisAuthoringKey : option string)
    (settings id : value) :
  In (EvReadJson (settingsPath this) (Ok settings))
     (calls (create' name location environment appPassword luisAuthoringKey) w) →
  getProp settings "MicrosoftAppId" = Ok id →
  truthy id = true →
  (∀ n p r,
     ¬ In (EvApplicationsCreate n p r)
          (calls (create' name location environment appPassword
                    luisAuthoringKey) w))
  ∧ Forall (submits name location appPassword luisAuthoringKey id
              (calls (create' name location environment appPassword
                        luisAuthoringKey) w))
      (calls (create' name location environment appPassword luisAuthoringKey) w).
Proof.
  provision_paths w; intros Hin Hid Htrue; in_cases Hin;
    bool_facts; try congruence.
  all: try match goal with
       | H : getProp ?s ?k = Ok ?a, H' : getProp ?s ?k = Ok ?b |- _ =>
           tryif constr_eq a b then fail
           else (assert (a = b) by congruence; subst)
       end.
  all: split; [intros n p r Hin'; in_cases Hin'|].
  all: cbn [journal push moved fresh]; journal_forall.
  all: cbn [submits]; try exact I.
  all: first [find_event | split_and!; first [reflexivity | find_event]].
Qed.

(** X3.  In every run of [create] there is one application id such that
    every deployment submitted, for validation or for execution, is
    incremental, is named by a timestamp taken in the run, and carries the
    template parameters built from that id, the password, the location, the
    name and the absence of an authoring key; the record is fetched under
    such a name too. *)
Theorem create_submits_one_deployment
    (w : W) (name location environment : string)
    (appPassword luisAuthoringKey : option string) :
  ∃ id,
    Forall (submits name location appPassword luisAuthoringKey id
              (calls (create' name location environment appPassword
                        luisAuthoringKey) w))
      (calls (create' name location environment appPassword luisAuthoringKey) w).
Proof.
  provision_paths w; cbn [journal push moved fresh].
  all: first
    [ solve [ exists VUndefined; journal_forall; exact I ]
    | eexists; journal_forall; cbn [submits]; try exact I;
      first [find_event | split_and!; first [reflexivity | find_event]] ].
Qed.

(** X4.  When the deployment call answers with a status other than 200,
    [create] returns [false], logs the remediation hint as an error, and
    neither fetches the deployment record nor writes the settings file. *)
Theorem create_false_on_deployment_failure
    (w : W) (name location environment : string)
    (appPassword luisAuthoringKey : option string)
    (g dn : string) (d : Deployment) (r : DeploymentsCreateOrUpdateResponse) :
  In (EvDeploymentsCreateOrUpdate g dn d (Ok r))
     (calls (create' name location environment appPassword luisAuthoringKey) w) →
  status (_response r) ≠ 200%Z →
  outcome (create' name location environment appPassword luisAuthoringKey) w
    = Ok (Some false)
  ∧ In (EvLogger PROVISION_ERROR
          (PText (delete_hint (name +:+ "-" +:+ environment))))
       (calls (create' name location environment appPassword luisAuthoringKey) w)
  ∧ (∀ g' dn' r',
       ¬ In (EvDeploymentsGet g' dn' r')
            (calls (create' name location environment appPassword
                      luisAuthoringKey) w))
  ∧ (∀ p data r',
       ¬ In (EvWriteFile p data r')
            (calls (create' name location environment appPassword
                      luisAuthoringKey) w)).
Proof.
  provision_paths w; intros Hin Hstatus; in_cases Hin; bool_facts.
  all: try match goal with
           | H : (_ =? _)%Z = true |- _ => apply Z.eqb_eq in H; congruence
           end.
  all: split_and!; [reflexivity | find_event | |].
  all: intros ? ? ? Hin'; in_cases Hin'.
Qed.

(** X5.  [create] keeps its steps in order: a deployment is executed only
    after the group was created and the template validated without error;
    the deployment record is fetched, and the settings file written, only
    after a deployment that answered with status 200. *)
Theorem create_keeps_order
    (w : W) (name location environment : string)
    (appPassword luisAuthoringKey : option string) :
  ((∃ g dn d r,
      In (EvDeploymentsCreateOrUpdate g dn d r)
         (calls (create' name location environment appPassword
                   luisAuthoringKey) w)) →
   group_created
     (calls (create' name location environment appPassword luisAuthoringKey) w)
   ∧ template_validated
       (calls (create' name location environment appPassword luisAuthoringKey) w))
  ∧ ((∃ g dn r,
        In (EvDeploymentsGet g dn r)
           (calls (create' name location environment appPassword
                     luisAuthoringKey) w)) →
     template_deployed
       (calls (create' name location environment appPassword luisAuthoringKey) w))
  ∧ ((∃ p data r,
        In (EvWriteFile p data r)
           (calls (create' name location environment appPassword
                     luisAuthoringKey) w)) →
     template_deployed
       (calls (create' name location environment appPassword luisAuthoringKey) w)).
Proof.
  unfold group_created, template_validated, template_deployed.
  provision_paths w; bool_facts.
  all: split_and!.
  all: try (intros (?&?&?&?&Hin); in_cases Hin).
  all: try (intros (?&?&?&Hin); in_cases Hin).
  all: try (split; [do 3 eexists; find_event
                   | do 4 eexists; split; [find_event | assumption]]).
  all: do 4 eexists; split; [find_event | by apply Z.eqb_eq].
Qed.

(** X6.  When [create] registers an application, it registers it under the
    bot's name with the password given, and the settings document it writes
    holds the id of the registered application and that password. *)
Theorem create_writes_registered_identity
    (w : W) (name location environment : string)
    (appPassword luisAuthoringKey : option string)
    (n p path : string) (a : Application) (doc : gmap string value)
    (r : Res unit) :
  In (EvApplicationsCreate n p (Ok a))
     (calls (create' name location environment appPassword luisAuthoringKey) w) →
  In (EvWriteFile path (Stringified (VObj doc)) r)
     (calls (create' name location environment appPassword luisAuthoringKey) w) →
  n = name
  ∧ appPassword = Some p
  ∧ doc !! "MicrosoftAppId" = Some (of_opt (appId a))
  ∧ doc !! "MicrosoftAppPassword" = Some (VStr p).
Proof.
  provision_paths w; intros Hin Hw; in_cases Hin; in_cases Hw.
  all: split_and!; [reflexivity | reflexivity | |];
    apply merged_result_identity.
Qed.

(** X7.  When the deployment record carries no outputs, [create] writes no
    settings file and still returns [true]. *)
Theorem create_true_without_outputs
    (w : W) (name location environment : string)
    (appPassword luisAuthoringKey : option string)
    (g dn : string) (got : option DeploymentExtended) :
  In (EvDeploymentsGet g dn (Ok got))
     (calls (create' name location environment appPassword luisAuthoringKey) w) →
  truthy (deployment_outputs got) = false →
  outcome (create' name location environment appPassword luisAuthoringKey) w
    = Ok (Some true)
  ∧ ∀ p data r,
      ¬ In (EvWriteFile p data r)
           (calls (create' name location environment appPassword
                     luisAuthoringKey) w).
Proof.
  provision_paths w; intros Hin Hout; in_cases Hin; try congruence.
  all: split; [reflexivity|]; intros p data r Hin'; in_cases Hin'.
Qed.
End CreateFurther.

(** ** The helpers [unpackObject] and [getAccount] *)

Lemma getProp_throws (v : value) (k : string) (e : exn) :
  getProp v k = Throw e → e = TypeError.
Proof. destruct v; cbn; congruence. Qed.

(** The loop of [unpackObject] over an object, in closed form: it raises
    when some property cannot be read, and otherwise keeps the truthy
    values. *)
Lemma unpackObject_fold (m : gmap string value) :
  match map_fold unpack_step (Ok ∅) m with
  | Ok u => u = omap unpacked_value m
            ∧ ∀ k v, m !! k = Some v → ¬ unreadable v
  | Throw e => e = TypeError ∧ ∃ k v, m !! k = Some v ∧ unreadable v
  end.
Proof.
  induction m as [|k v m Hk Hfirst IH] using map_first_key_ind.
  - rewrite map_fold_empty. split; [by rewrite omap_empty|].
    intros k v Hkv. by rewrite lookup_empty in Hkv.
  - rewrite map_fold_insert_first_key by done.
    destruct (map_fold unpack_step (Ok ∅) m) as [e|u]; cbn [unpack_step res_bind].
    + destruct IH as (-> & k' & v' & Hkv' & Hbad). split; [done|].
      exists k', v'. split; [|done].
      rewrite lookup_insert_ne; [done|]. intros ->. congruence.
    + destruct IH as (-> & Hgood).
      destruct (getProp v "value") as [e|x] eqn:Hv; cbn [res_bind].
      * apply getProp_throws in Hv as Hv'. subst e. split; [done|].
        exists k, v. by rewrite lookup_insert_eq.
      * split.
        -- unfold unpacked_value at 2.
           destruct (truthy x) eqn:Hx.
           ++ rewrite <- (omap_insert_Some unpacked_value m k v x); [done|].
              unfold unpacked_value. by rewrite Hv, Hx.
           ++ rewrite omap_insert_None.
              ** rewrite delete_id; [done|]. by rewrite lookup_omap, Hk.
              ** unfold unpacked_value. by rewrite Hv, Hx.
        -- intros k' v' Hkv'.
           destruct (decide (k = k')) as [<-|Hne].
           ++ rewrite lookup_insert_eq in Hkv'. injection Hkv' as <-.
              unfold unreadable. congruence.
           ++ rewrite lookup_insert_ne in Hkv' by done. eauto.
Qed.

(** X8.  [unpackObject] of an object either raises a [TypeError], exactly
    when some property is [null] or [undefined], or returns the mapping
    that holds, for each property whose [value] is truthy, that value, and
    nothing else.  Of [undefined], [null], a number or a boolean it returns
    the empty mapping. *)
Theorem unpackObject_keeps_truthy_values :
  (∀ (m u : gmap string value),
     unpackObject (VObj m) = Ok u →
     ∀ k x, u !! k = Some x
            ↔ truthy x = true
              ∧ ∃ v, m !! k = Some v ∧ getProp v "value" = Ok x)
  ∧ (∀ (m : gmap string value),
       (∃ e, unpackObject (VObj m) = Throw e)
       ↔ ∃ k v, m !! k = Some v ∧ (v = VUndefined ∨ v = VNull))
  ∧ (∀ (m : gmap string value) e,
       unpackObject (VObj m) = Throw e → e = TypeError)
  ∧ (∀ v, own_props v = ∅ → unpackObject v = Ok ∅).
Proof.
  assert (∀ v, unreadable v ↔ v = VUndefined ∨ v = VNull) as Hbad.
  { intros v. unfold unreadable.
    destruct v; cbn; split; try done; try (by intros [?|?]); auto. }
  split_and!.
  - intros m u Hu k x. unfold unpackObject in Hu; cbn [own_props] in Hu.
    pose proof (unpackObject_fold m) as Hfold. rewrite Hu in Hfold.
    destruct Hfold as (-> & _). rewrite lookup_omap.
    destruct (m !! k) as [v|] eqn:Hkv; cbn.
    + unfold unpacked_value.
      destruct (getProp v "value") as [e|y] eqn:Hv.
      * split; [done|]. intros (_ & v' & [= <-] & Hv'). congruence.
      * destruct (truthy y) eqn:Hy.
        -- split.
           ++ intros [= <-]. eauto.
           ++ intros (_ & v' & [= <-] & Hv'). congruence.
        -- split; [done|]. intros (Hx & v' & [= <-] & Hv'). congruence.
    + split; [done|]. intros (_ & v' & Hv' & _). done.
  - intros m. unfold unpackObject; cbn [own_props].
    pose proof (unpackObject_fold m) as Hfold.
    destruct (map_fold unpack_step (Ok ∅) m) as [e|u].
    + destruct Hfold as (-> & k & v & Hkv & Hv). split; [|eauto].
      intros _. exists k, v. split; [done|]. by apply Hbad.
    + destruct Hfold as (_ & Hgood). split; [intros [e He]; done|].
      intros (k & v & Hkv & Hv). exfalso.
      apply (Hgood k v Hkv). by apply Hbad.
  - intros m e He. unfold unpackObject in He; cbn [own_props] in He.
    pose proof (unpackObject_fold m) as Hfold. rewrite He in Hfold.
    by destruct Hfold.
  - intros v Hv. unfold unpackObject. by rewrite Hv, map_fold_empty.
Qed.

Lemma find_account_found (l : list value) (filter : string) (a : value) :
  find_account l filter = Ok a →
  a = VUndefined
  ∨ ∃ before after,
      l = before ++ a :: after
      ∧ getProp a "AccountName" = Ok (VStr filter)
      ∧ ∀ b, In b before →
          ∃ n, getProp b "AccountName" = Ok n ∧ is_string n filter = false.
Proof.
  induction l as [|b rest IH]; cbn [find_account].
  - intros [= <-]. by left.
  - destruct (getProp b "AccountName") as [e|n] eqn:Hn; cbn [res_bind];
      [done|].
    destruct (is_string n filter) eqn:Hm.
    + intros [= <-]. right. exists [], rest. split_and!; [done| |done].
      destruct n; try done. cbn in Hm. apply String.eqb_eq in Hm. by subst.
    + intros Hrest. destruct (IH Hrest) as [->|(before & after & -> & Ha & Hb)];
        [by left|].
      right. exists (b :: before), after. split_and!; [done..|].
      intros b' [<-|Hin]; eauto.
Qed.

Lemma find_account_skips (before rest : list value) (filter : string) :
  (∀ b, In b before →
     ∃ n, getProp b "AccountName" = Ok n ∧ is_string n filter = false) →
  find_account (before ++ rest) filter = find_account rest filter.
Proof.
  induction before as [|b before IH]; intros Hb; cbn [app find_account];
    [done|].
  destruct (Hb b) as (n & Hn & Hm); [by left|].
  rewrite Hn; cbn [res_bind]. rewrite Hm.
  apply IH. intros b' Hb'. apply Hb. by right.
Qed.

(** X9.  [getAccount] over an array returns [undefined] or the first
    element whose [AccountName] is the name looked for; it returns
    [undefined] when no element bears that name, and raises a [TypeError]
    on an element that is [null] or [undefined] met before a match, and on
    an argument that is an object, [null] or [undefined]. *)
Theorem getAccount_first_match :
  (∀ l filter a,
     getAccount (VArr l) filter = Ok a →
     a = VUndefined
     ∨ ∃ before after,
         l = before ++ a :: after
         ∧ getProp a "AccountName" = Ok (VStr filter)
         ∧ ∀ b, In b before →
             ∃ n, getProp b "AccountName" = Ok n ∧ is_string n filter = false)
  ∧ (∀ l filter,
       (∀ b, In b l →
          ∃ n, getProp b "AccountName" = Ok n ∧ is_string n filter = false) →
       getAccount (VArr l) filter = Ok VUndefined)
  ∧ (∀ before b after filter,
       (∀ b', In b' before →
          ∃ n, getProp b' "AccountName" = Ok n ∧ is_string n filter = false) →
       (getProp b "AccountName" = Ok (VStr filter) →
        getAccount (VArr (before ++ b :: after)) filter = Ok b)
       ∧ (b = VNull ∨ b = VUndefined →
          getAccount (VArr (before ++ b :: after)) filter = Throw TypeError))
  ∧ (∀ m filter, getAccount (VObj m) filter = Throw TypeError)
  ∧ (∀ filter, getAccount VNull filter = Throw TypeError
               ∧ getAccount VUndefined filter = Throw TypeError).
Proof.
  split_and!.
  - intros l filter a. apply find_account_found.
  - intros l filter. cbn [getAccount].
    induction l as [|b rest IH]; intros Hl; cbn [find_account]; [done|].
    destruct (Hl b) as (n & Hn & Hm); [by left|].
    rewrite Hn; cbn [res_bind]. rewrite Hm.
    apply IH. intros b' Hb'. apply Hl. by right.
  - intros before b after filter Hbefore. cbn [getAccount].
    rewrite find_account_skips by done. cbn [find_account]. split.
    + intros ->. cbn [res_bind is_string]. by rewrite String.eqb_refl.
    + by intros [-> | ->].
  - done.
  - done.
Qed.

(** ** Publishing *)

Section DeployFurther.
Context {W : Type}.
Variable svc : Services W.
Variable JSON_parse : string → Res value.
Variable path_join : string → string → string.
Variable ToString : value → string.
Variable this : BotProjectDeploy.
Variable base64 : string → string.

Local Abbreviation deploy' :=
  (deploy svc JSON_parse path_join ToString this base64).
Local Abbreviation prepare' := (prepare svc path_join this).
Local Abbreviation dotnetPublish' := (dotnetPublish svc path_join this).
Local Abbreviation deployZip' := (deployZip svc base64).
Local Abbreviation create' := (create svc JSON_parse ToString this).
Local Abbreviation createAndDeploy' :=
  (createAndDeploy svc JSON_parse path_join ToString this base64).

(** Every path of a helper without loops, from a fresh journal. *)
Ltac helper_paths m w :=
  unfold calls, outcome;
  let H := fresh "Hrun" in
  destruct (m (fresh w)) as [? ?] eqn:H; cbn [fst snd];
  unfold prepare, botPrepareDeploy, dotnetPublish, deployZip, logger in H;
  run_all H; simplify_eq; bool_facts; simplify_eq;
  repeat match goal with u : unit |- _ => destruct u end.

(** X10.  The archive upload of [deployZip] goes to the zipdeploy address of
    the site [name-env]; its body is the archive read from [zipPath], its
    length the length of that body, and its basic authorization is built
    from the publishing user [name-env] and the password
    [name-env-timestamp] that were set just before.  [deployZip] completes
    exactly when the upload succeeded. *)
Theorem deployZip_uploads_with_fresh_credentials
    (w : W) (zipPath name env : string) :
  (∀ url opts r,
     In (EvRpPost url opts r) (calls (deployZip' zipPath name env) w) →
     url = "https://" +:+ name +:+ "-" +:+ env
           +:+ ".scm.azurewebsites.net/zipdeploy"
     ∧ ∃ now fileContent updateRes,
         In (EvTimestamp now) (calls (deployZip' zipPath name env) w)
         ∧ In (EvUpdatePublishingUser (name +:+ "-" +:+ env)
                 (name +:+ "-" +:+ env +:+ "-" +:+ now) (Ok updateRes))
              (calls (deployZip' zipPath name env) w)
         ∧ In (EvReadFile zipPath (Ok fileContent))
              (calls (deployZip' zipPath name env) w)
         ∧ opts = ZipUpload fileContent
                    ("Basic " +:+ base64 ((name +:+ "-" +:+ env) +:+ ":"
                                          +:+ (name +:+ "-" +:+ env +:+ "-"
                                               +:+ now)))
                    (String.length fileContent))
  ∧ (outcome (deployZip' zipPath name env) w = Ok tt
     ↔ ∃ url opts response,
         In (EvRpPost url opts (Ok response))
            (calls (deployZip' zipPath name env) w)).
Proof.
  split.
  - helper_paths (deployZip' zipPath name env) w;
      intros url opts r Hin; in_cases Hin.
    all: split; [reflexivity|]; do 3 eexists;
      split_and!; [find_event..|reflexivity].
  - helper_paths (deployZip' zipPath name env) w.
    all: first
      [ split; [done|]; intros (?&?&?&Hin); in_cases Hin
      | split; [intros _|done]; do 3 eexists; find_event ].
Qed.

(** X11.  [dotnetPublish] runs one build command for the project and the
    publish folder; it completes exactly when the build succeeded, whatever
    becomes of the copy; and it starts the copy of the declarative assets
    only after a successful build, into [publishFolder/ComposerDialogs],
    from the external bot path when one is given and else from
    [projFolder/ComposerDialogs]. *)
Theorem dotnetPublish_builds_then_copies
    (w : W) (publishFolder projFolder : string) (botPath : option string) :
  (∀ cmd r,
     In (EvExec cmd r)
        (calls (dotnetPublish' publishFolder projFolder botPath) w) →
     cmd = "dotnet publish " +:+ dotnetProjectPath this
           +:+ " -c release -o " +:+ publishFolder +:+ " -v q")
  ∧ (outcome (dotnetPublish' publishFolder projFolder botPath) w = Ok tt
     ↔ ∃ cmd,
         In (EvExec cmd (Ok tt))
            (calls (dotnetPublish' publishFolder projFolder botPath) w))
  ∧ (outcome (dotnetPublish' publishFolder projFolder botPath) w = Ok tt
     ↔ ∃ src,
         In (EvCopy src (path_join publishFolder "ComposerDialogs"))
            (calls (dotnetPublish' publishFolder projFolder botPath) w))
  ∧ (∀ src dst,
       In (EvCopy src dst)
          (calls (dotnetPublish' publishFolder projFolder botPath) w) →
       dst = path_join publishFolder "ComposerDialogs"
       ∧ src = if truthy (of_opt botPath) then show_opt botPath
               else path_join projFolder "ComposerDialogs").
Proof.
  split_and!.
  - helper_paths (dotnetPublish' publishFolder projFolder botPath) w;
      intros cmd r Hin; in_cases Hin; reflexivity.
  - helper_paths (dotnetPublish' publishFolder projFolder botPath) w.
    all: first
      [ split; [done|]; intros (?&Hin); in_cases Hin
      | split; [intros _|done]; eexists; find_event ].
  - helper_paths (dotnetPublish' publishFolder projFolder botPath) w.
    all: first
      [ split; [done|]; intros (?&Hin); in_cases Hin
      | split; [intros _|done]; eexists; find_event ].
  - helper_paths (dotnetPublish' publishFolder projFolder botPath) w;
      intros src dst Hin; in_cases Hin.
    all: split; reflexivity.
Qed.

(** X12.  Before the build, [deploy] writes the deployment descriptor only
    when it is missing, with the two lines that name the project, and
    removes the archive only when one exists; what it hands on is the
    settings document read from the settings file. *)
Theorem prepare_touches_only_what_it_must
    (w : W) (botPath : option string) :
  (∀ p data r,
     In (EvWriteFile p data r) (calls (prepare' botPath) w) →
     p = deployFilePath this
     ∧ data = Text ("[config]" +:+ newline +:+ "project = BotProject.csproj")
     ∧ In (EvExistsSync (deployFilePath this) false)
          (calls (prepare' botPath) w))
  ∧ (In (EvExistsSync (deployFilePath this) true) (calls (prepare' botPath) w) →
     ∀ p data r, ¬ In (EvWriteFile p data r) (calls (prepare' botPath) w))
  ∧ (∀ p r,
       In (EvRemove p r) (calls (prepare' botPath) w) →
       p = zipPath this
       ∧ In (EvPathExists (zipPath this) (Ok true))
            (calls (prepare' botPath) w))
  ∧ (∀ settings,
       outcome (prepare' botPath) w = Ok settings →
       In (EvReadJson (settingsPath this) (Ok settings))
          (calls (prepare' botPath) w)).
Proof.
  split_and!.
  - helper_paths (prepare' botPath) w; intros p data res Hin; in_cases Hin.
    all: split_and!; [reflexivity | reflexivity | find_event].
  - helper_paths (prepare' botPath) w;
      intros Hin p data res Hin'; in_cases Hin; in_cases Hin'.
  - helper_paths (prepare' botPath) w; intros p res Hin; in_cases Hin.
    all: split; [reflexivity | find_event].
  - helper_paths (prepare' botPath) w; intros settings Hout; simplify_eq.
    all: find_event.
Qed.

(** [deploy] returns normally from any state. *)
Lemma deploy_returns (s : State W) (name environment : string)
    (key region botPath language : option string) :
  (deploy' name environment key region botPath language s).1 = Ok tt.
Proof.
  unfold deploy, try_catch.
  destruct (deploy_body _ _ _ _ _ _ _ _ _ _ _ _ s) as [[e|[]] s']; done.
Qed.

(** X13.  When the settings document has no [luis] section and the
    authoring key or the authoring region is not passed, the read of the
    defaults raises a [TypeError] inside [deploy]: the error is printed and
    nothing is packed or uploaded. *)
Theorem deploy_needs_luis_section
    (w : W) (name environment : string)
    (key region botPath language : option string)
    (D : gmap string value) (s1 : State W) :
  prepare' botPath (fresh w) = (Ok (VObj D), s1) →
  D !! "luis" = None →
  truthy (of_opt key) = false ∨ truthy (of_opt region) = false →
  deploy' name environment key region botPath language (fresh w)
  = (Ok tt, push (EvConsoleLog TypeError) s1).
Proof.
  intros Hprep Hluis Hmissing. rewrite deploy_run, Hprep.
  unfold resolve_luis. cbn [getProp]. rewrite Hluis. cbn [default res_bind].
  destruct (truthy (of_opt key)); cbn [negb getProp res_bind fst snd];
    [|done].
  destruct Hmissing as [Hk|Hr]; [done|]. by rewrite Hr.
Qed.

(** X14.  [createAndDeploy] raises exactly when [create] raises, after
    printing the error, and then does not deploy.  When [create] returns,
    whatever it returns ([true], [false] or nothing), [deploy] is run from
    the state [create] left, with no bot path and no language. *)
Theorem createAndDeploy_deploys_after_any_return
    (s : State W) (name location environment : string)
    (appPassword key region : option string) :
  createAndDeploy' name location environment appPassword key region s
  = match create' name location environment appPassword key s with
    | (Throw e, s1) => (Throw e, push (EvConsoleLog e) s1)
    | (Ok _, s1) =>
        (Ok tt, (deploy' name environment key region None None s1).2)
    end.
Proof.
  unfold createAndDeploy, try_catch. unfold bind at 1.
  destruct (create' _ _ _ _ _ s) as [[e|b] s1]; [reflexivity|].
  pose proof (deploy_returns s1 name environment key region None None) as Hd.
  destruct (deploy' _ _ _ _ _ _ s1) as [r s2]. cbn [fst snd] in *.
  by subst r.
Qed.
End DeployFurther.

(** ** The LUIS block *)

Lemma adds_for_each_in {W A} (P : list Event → Prop) `{!Sequential P}
    (xs : list A) (body : A → M W unit) :
  (∀ x, In x xs → adds P (body x)) → adds P (for_each xs body).
Proof.
  induction xs as [|x rest IH]; intros H; cbn [for_each].
  - apply adds_ret; apply _.
  - apply adds_bind; [apply _ | apply H; by left | intros _].
    apply IH. intros y Hy. apply H. by right.
Qed.

Lemma bind_run {W A B} (m : M W A) (k : A → M W B) (s : State W) :
  bind m k s
  = match m s with
    | (Throw e, s') => (Throw e, s')
    | (Ok a, s') => k a s'
    end.
Proof. reflexivity. Qed.

Section LuisFurther.
Context {W : Type}.
Variable svc : Services W.
Variable JSON_parse : string → Res value.
Variable path_join : string → string → string.
Variable ToString : value → string.
Variable this : BotProjectDeploy.
Variable base64 : string → string.

Local Abbreviation deploy' :=
  (deploy svc JSON_parse path_join ToString this base64).
Local Abbreviation publishLuis' := (publishLuis svc JSON_parse ToString this).
Local Abbreviation assign_account' := (assign_account svc ToString this).

(** One turn of the assignment loop: one request, whatever its outcome. *)
Lemma assign_account_turn (luisEndpoint : string) (account key : value)
    (luisAppIds : gmap string value) (entry : string * value) (s : State W) :
  luisAppIds !! entry.1 = Some entry.2 →
  ∃ l,
    journal (assign_account' luisEndpoint account key luisAppIds entry s).2
      = l ++ journal s
    ∧ Forall (assigns this ToString luisEndpoint account key luisAppIds) l
    ∧ length (List.filter is_post l) = 1.
Proof.
  intros Hentry.
  destruct (assign_account' luisEndpoint account key luisAppIds entry s)
    as [r s'] eqn:Hrun.
  unfold assign_account, logger in Hrun. run_all Hrun; simplify_eq.
  all: cbn [snd journal push moved].
  - eexists [_; _]. split; [reflexivity|]. split; [|reflexivity].
    journal_forall; cbn [assigns]; eauto.
  - eexists [_; _; _]. split; [reflexivity|]. split; [|reflexivity].
    journal_forall; cbn [assigns]; eauto.
Qed.

Lemma assignment_loop (luisEndpoint : string) (account key : value)
    (luisAppIds : gmap string value) (entries : list (string * value))
    (s : State W) :
  (∀ entry, In entry entries → luisAppIds !! entry.1 = Some entry.2) →
  ∃ l,
    journal (for_each entries
               (assign_account' luisEndpoint account key luisAppIds) s).2
      = l ++ journal s
    ∧ Forall (assigns this ToString luisEndpoint account key luisAppIds) l
    ∧ match (for_each entries
               (assign_account' luisEndpoint account key luisAppIds) s).1 with
      | Ok _ => length (List.filter is_post l) = length entries
      | Throw _ => 1 ≤ length (List.filter is_post l) ≤ length entries
      end.
Proof.
  revert s. induction entries as [|entry rest IH]; intros s Hentries;
    cbn [for_each].
  - exists []. split_and!; [done | constructor | done].
  - unfold bind.
    destruct (assign_account_turn luisEndpoint account key luisAppIds entry s)
      as (l1 & E1 & H1 & N1); [apply Hentries; by left|].
    destruct (assign_account' luisEndpoint account key luisAppIds entry s)
      as [[e|[]] s1]; cbn [fst snd] in *.
    + exists l1. split; [done|]. split; [done|]. rewrite N1. cbn [length]. lia.
    + destruct (IH s1) as (l2 & E2 & H2 & N2);
        [intros y Hy; apply Hentries; by right|].
      exists (l2 ++ l1). split; [|split].
      * by rewrite E2, E1, app_assoc.
      * apply Forall_app. by split.
      * rewrite List.filter_app, length_app, N1.
        destruct (for_each rest _ s1).1; cbn [length]; lia.
Qed.

(** X15.  The loop that assigns the LUIS account sends, for each
    application id, one request to the assignment address of that id, with
    the account descriptor as body, the bearer token and the authoring key;
    it makes nothing but these requests and their log lines.  It completes
    after one request per application id, and stops at the first request
    that fails. *)
Theorem assignment_loop_posts_account
    (w : W) (luisEndpoint : string) (account key : value)
    (luisAppIds : gmap string value) :
  Forall (assigns this ToString luisEndpoint account key luisAppIds)
    (calls (for_each (map_to_list luisAppIds)
              (assign_account' luisEndpoint account key luisAppIds)) w)
  ∧ match outcome (for_each (map_to_list luisAppIds)
                     (assign_account' luisEndpoint account key luisAppIds)) w
    with
    | Ok _ =>
        length (List.filter is_post
                  (calls (for_each (map_to_list luisAppIds)
                            (assign_account' luisEndpoint account key
                               luisAppIds)) w))
        = size luisAppIds
    | Throw _ =>
        1 ≤ length (List.filter is_post
                      (calls (for_each (map_to_list luisAppIds)
                                (assign_account' luisEndpoint account key
                                   luisAppIds)) w))
          ≤ size luisAppIds
    end.
Proof.
  unfold calls, outcome.
  destruct (assignment_loop luisEndpoint account key luisAppIds
              (map_to_list luisAppIds) (fresh w)) as (l & E & Hl & N).
  { intros [k v] Hin. apply list_elem_of_In in Hin.
    by apply elem_of_map_to_list in Hin. }
  rewrite length_map_to_list in N.
  rewrite E. cbn [fresh journal]. rewrite app_nil_r. by split.
Qed.

(** The test that selects the model files, as [publishLuis] has it. *)
Local Abbreviation model_test :=
  (λ name : string,
     if endsWith name ".lu" then notEmptyLuisModel svc name else ret false).

Lemma notEmptyLuisModel_bind {B} (file : string) (k : bool → M W B)
    (s : State W) :
  bind (notEmptyLuisModel svc file) k s
  = match fs_readFileSync svc file (world s) with
    | (Throw e, w) => (Throw e, moved w (EvReadFileSync file (Throw e)) s)
    | (Ok data, w) =>
        k (0 <? String.length data) (moved w (EvReadFileSync file (Ok data)) s)
    end.
Proof.
  unfold notEmptyLuisModel. rewrite bind_assoc, bind_ask.
  destruct (fs_readFileSync svc file (world s)) as [[e|data] w];
    reflexivity.
Qed.

Lemma model_filter (files : list string) (s : State W) :
  ∃ l,
    journal (filterM model_test files s).2 = l ++ journal s
    ∧ Forall (λ ev, ∃ f r, ev = EvReadFileSync f r ∧ endsWith f ".lu" = true) l
    ∧ ∀ modelFiles,
        (filterM model_test files s).1 = Ok modelFiles →
        ∀ f, In f modelFiles →
          In f files
          ∧ endsWith f ".lu" = true
          ∧ ∃ data, In (EvReadFileSync f (Ok data)) l ∧ 0 < String.length data.
Proof.
  revert s. induction files as [|file rest IH]; intros s; cbn [filterM].
  - exists []. split_and!; [done | constructor |].
    intros modelFiles [= <-] f [].
  - destruct (endsWith file ".lu") eqn:Hlu.
    + rewrite notEmptyLuisModel_bind.
      destruct (fs_readFileSync svc file (world s)) as [[e|data] w1].
      * eexists [_]. split_and!; [reflexivity | | done].
        constructor; [eauto | constructor].
      * rewrite bind_run.
        destruct (IH (moved w1 (EvReadFileSync file (Ok data)) s))
          as (l & E & Hl & Hfiles).
        destruct (filterM model_test rest _) as [[e|kept] s2];
          cbn [fst snd ret] in *.
        -- exists (l ++ [EvReadFileSync file (Ok data)]).
           split_and!; [by rewrite E, <- app_assoc | | done].
           apply Forall_app. split; [done|]. constructor; [eauto|constructor].
        -- exists (l ++ [EvReadFileSync file (Ok data)]).
           split_and!; [by rewrite E, <- app_assoc | |].
           { apply Forall_app. split; [done|].
             constructor; [eauto|constructor]. }
           intros modelFiles [= <-] f Hf.
           destruct (0 <? String.length data) eqn:Hlen.
           ++ destruct Hf as [<-|Hf].
              ** split_and!; [by left | done |]. exists data. split.
                 --- apply in_or_app. right. by left.
                 --- by apply Nat.ltb_lt.
              ** destruct (Hfiles kept eq_refl f Hf) as (? & ? & d & ? & ?).
                 split_and!; [by right | done |]. exists d. split; [|done].
                 apply in_or_app. by left.
           ++ destruct (Hfiles kept eq_refl f Hf) as (? & ? & d & ? & ?).
              split_and!; [by right | done |]. exists d. split; [|done].
              apply in_or_app. by left.
    + rewrite bind_ret, bind_run.
      destruct (IH s) as (l & E & Hl & Hfiles).
      destruct (filterM model_test rest s) as [[e|kept] s2];
        cbn [fst snd ret] in *.
      * exists l. done.
      * exists l. split_and!; [done..|].
        intros modelFiles [= <-] f Hf.
        destruct (Hfiles kept eq_refl f Hf) as (? & ? & d & ? & ?).
        split_and!; [by right | done |]. eauto.
Qed.

#[local] Instance loads_nothing_sequential : Sequential loads_nothing.
Proof. exact (Forall_sequential _). Qed.

Lemma collect_app_ids_adds (P : list Event → Prop) `{!Sequential P}
    (files : list string) (acc : gmap string value) :
  (∀ f r, P [EvReadJson f r]) → adds P (collect_app_ids svc files acc).
Proof.
  intros HP. revert acc. induction files as [|f rest IH]; intros acc;
    cbn [collect_app_ids].
  - adds_steps.
  - adds_steps; first [apply HP | apply IH].
Qed.

(** X16.  What [publishLuis] hands to the LUIS builder: the language, the
    environment and the authoring region, and as model files only files of
    the deployed bot folder whose name ends in [.lu] and whose content was
    read and found not empty. *)
Theorem publishLuis_loads_nonempty_models
    (w : W) (name environment language : string) (c : LuisCredentials)
    (files : list string) (culture suffix : string) (region : value)
    (res : Res value) :
  In (EvLoadContents files culture suffix region res)
     (calls (publishLuis' name environment language c) w) →
  culture = or_empty language
  ∧ suffix = or_empty environment
  ∧ region = or_empty_value (authoringRegion c)
  ∧ ∀ f, In f files →
      endsWith f ".lu" = true
      ∧ (∃ data,
           In (EvReadFileSync f (Ok data))
              (calls (publishLuis' name environment language c) w)
           ∧ 0 < String.length data)
      ∧ ∃ botFiles,
          In (EvGetFiles (remoteBotPath this) (Ok botFiles))
             (calls (publishLuis' name environment language c) w)
          ∧ In f botFiles.
Proof.
  unfold calls.
  destruct (publishLuis' name environment language c (fresh w))
    as [r0 s'] eqn:Hrun.
  unfold publishLuis in Hrun. rewrite bind_ask in Hrun.
  destruct (fs_getFiles svc (remoteBotPath this) (world (fresh w)))
    as [[e|botFiles] w1].
  { simplify_eq. intros Hin. in_cases Hin. }
  rewrite bind_run in Hrun.
  destruct (model_filter botFiles
              (moved w1 (EvGetFiles (remoteBotPath this) (Ok botFiles))
                 (fresh w))) as (l & E & Hl & Hfiles).
  destruct (filterM _ botFiles _) as [[e|modelFiles] s2];
    cbn [fst snd journal moved fresh] in E, Hfiles.
  { simplify_eq. cbn [snd]. rewrite E. intros Hin.
    apply in_app_or in Hin as [Hin|Hin]; [|in_cases Hin].
    rewrite List.Forall_forall in Hl.
    destruct (Hl _ Hin) as (? & ? & ? & _). done. }
  specialize (Hfiles modelFiles eq_refl).
  run_all Hrun; simplify_eq; cbn [snd journal push moved].
  all: try match goal with
           | H : bind ?a ?k ?s = _ |- _ =>
               let Ha := fresh "Ha" in
               assert (adds loads_nothing (bind a k)) as Ha
                 by (unfold update_luis_settings, assign_account, logger;
                     adds_steps_with
                       ltac:(apply collect_app_ids_adds; [apply _|]);
                     by repeat constructor);
               destruct (Ha s) as (l' & E' & Hl');
               rewrite H in E'; cbn [snd journal push moved] in E';
               rewrite E'; clear H Ha E'
           end.
  all: rewrite ?E; intros Hin.
  all: repeat (cbn [In] in Hin; rewrite ?in_app_iff in Hin).
  all: unfold loads_nothing in *; rewrite List.Forall_forall in *.
  all: repeat (destruct Hin as [Hin|Hin];
               [ first
                   [ discriminate Hin
                   | match goal with
                     | H' : ∀ ev, In ev ?l0 → is_load ev = false |- _ =>
                         specialize (H' _ Hin); discriminate H'
                     end
                   | match goal with
                     | H' : ∀ ev, In ev ?l0 → ∃ f r, _ |- _ =>
                         destruct (H' _ Hin) as (? & ? & ? & _); discriminate
                     end
                   | simplify_eq ]
               | ]);
         try contradiction.
  all: split_and!; [reflexivity..|].
  all: intros f Hf; destruct (Hfiles f Hf) as (Hbot & Hlu & data & Hdata & Hlen).
  all: split_and!; [done | |].
  all: try (exists data; split; [|done]).
  all: try (exists botFiles; split; [|done]).
  all: repeat first
         [ assumption
         | left; reflexivity
         | apply in_or_app; left; assumption
         | apply in_or_app; right
         | right ].
Qed.

(** X17.  The only files whose content [deploy] reads synchronously are
    files whose name ends in [.lu]. *)
Theorem deploy_reads_only_model_files
    (w : W) (name environment : string)
    (key region botPath language : option string) :
  Forall reads_only_models
    (calls (deploy' name environment key region botPath language) w).
Proof.
  apply (adds_calls _ _ w).
  assert (∀ l, no_luis l → Forall reads_only_models l) as Hweak.
  { intros l Hl. unfold no_luis in Hl.
    eapply List.Forall_impl; [|exact Hl].
    intros ev Hev. by destruct ev. }
  unfold deploy, deploy_body, publishLuis, update_luis_settings,
    assign_account, logger.
  adds_steps_with
    ltac:(first
            [ eapply adds_weaken; [exact Hweak | apply prepare_no_luis]
            | eapply adds_weaken; [exact Hweak | apply pack_and_upload_no_luis]
            | apply collect_app_ids_adds; [apply _|]
            | lazymatch goal with
              | |- adds _ (if endsWith ?x ?y then _ else _) =>
                  let Hlu := fresh "Hlu" in
                  destruct (endsWith x y) eqn:Hlu; unfold notEmptyLuisModel
              end ]);
    by repeat constructor.
Qed.
End LuisFurther.

(** ** The publish page: what the effect and the handlers guarantee *)

Module PublishPageFurther.
Import PublishPage PublishPageState.

Lemma find_target_name (targets : list PublishTarget) (wanted : string)
    (t : PublishTarget) :
  find_target targets wanted = Some t → In t targets ∧ name t = wanted.
Proof.
  unfold find_target. intros H. apply find_some in H as [Hin Hname].
  split; [done|]. by apply String.eqb_eq.
Qed.

Lemma same_bot_refl (a : IBotStatus) : same_bot a a.
Proof. by repeat split. Qed.

Lemma same_bot_refresh (pid : string) (latest : IStatus) (item : IBotStatus) :
  same_bot item (refresh_item pid latest item).
Proof.
  unfold refresh_item. destruct (id item =? pid)%string; by repeat split.
Qed.

Lemma same_bot_trans (a b c : IBotStatus) :
  same_bot a b → same_bot b c → same_bot a c.
Proof.
  unfold same_bot. intros (-> & -> & -> & ->) (-> & -> & -> & ->). done.
Qed.

(** One turn of the loop, taken apart: either nothing happens, or the bot
    has a chosen target and a latest snapshot, and the turn is the one the
    status of that snapshot selects. *)
Lemma watch_bot_cases (c : Closure) (items : list IBotStatus)
    (bot : IBotStatus) :
  watch_bot c items bot = (bot, items, [])
  ∨ ∃ wanted targets selectedTarget latest older,
      publishTarget bot = Some wanted
      ∧ wanted ≠ ""
      ∧ publishTargets bot = Some targets
      ∧ find_target targets wanted = Some selectedTarget
      ∧ history_of c (id bot) wanted = Some (latest :: older)
      ∧ let refreshed := refresh_item (id bot) latest <$> items in
        (status latest = 202%Z
         ∧ watch_bot c items bot
           = (bot, refreshed,
              [SetTimeout_getPublishStatus getPublishStatusInterval (id bot)
                 selectedTarget;
               SetBotStatusList refreshed]))
        ∨ ((status latest = 200%Z ∨ status latest = 500%Z)
           ∧ showNotifications c !! id bot = Some true
           ∧ watch_bot c items bot
             = (set_status bot (status latest), refreshed,
                match pendingNotification c with
                | Some n => [DeleteNotification (notification_id n)]
                | None => []
                end
                ++ [AddPublishedNotification (set_status bot (status latest));
                    SetShowNotifications
                      (<[id bot := false]> (showNotifications c));
                    SetBotStatusList refreshed]))
        ∨ ((status latest = 200%Z ∨ status latest = 500%Z)
           ∧ showNotifications c !! id bot ≠ Some true
           ∧ watch_bot c items bot
             = (set_status bot (status latest), refreshed,
                [SetBotStatusList refreshed]))
        ∨ (status latest ≠ 202%Z ∧ status latest ≠ 200%Z
           ∧ status latest ≠ 500%Z
           ∧ watch_bot c items bot
             = (bot, refreshed, [SetBotStatusList refreshed])).
Proof.
  unfold watch_bot.
  destruct (publishTarget bot) as [wanted|]; [|by left].
  destruct (publishTargets bot) as [targets|]; [|by left].
  destruct (negb (wanted =? "")%string) eqn:Hwanted; [|by left].
  destruct (find_target targets wanted) as [selectedTarget|] eqn:Hfind;
    [|by left].
  destruct (history_of c (id bot) wanted) as [[|latest older]|] eqn:Hhist;
    [by left| |by left].
  right. exists wanted, targets, selectedTarget, latest, older.
  split; [done|]. split; [by intros ->|]. do 3 (split; [done|]).
  cbv zeta. rewrite PublishPageProperties.empty_under_nonempty.
  destruct (status latest =? 202)%Z eqn:H202.
  { left. split; [lia|done]. }
  destruct (status latest =? 200)%Z eqn:H200;
    destruct (status latest =? 500)%Z eqn:H500; cbn [orb].
  4: { do 3 right. split_and!; [lia..|done]. }
  all: assert (status latest = 200%Z ∨ status latest = 500%Z) as Hdone by lia.
  all: destruct (showNotifications c !! id bot) as [[|]|] eqn:Hshow;
    cbn [default]; rewrite <- ?app_assoc;
    [ right; left; split_and!; [done|done|]
    | right; right; left; split_and!; [done|done|]
    | right; right; left; split_and!; [done|done|] ].
  all: by destruct (pendingNotification c).
Qed.

Lemma watch_bot_same (c : Closure) (items : list IBotStatus)
    (bot : IBotStatus) :
  same_bot bot (watch_bot c items bot).1.1
  ∧ Forall2 same_bot items (watch_bot c items bot).1.2.
Proof.
  assert (∀ pid latest,
            Forall2 same_bot items (refresh_item pid latest <$> items))
    as Hitems.
  { intros pid latest. induction items as [|item items IH];
      constructor; [apply same_bot_refresh | done]. }
  destruct (watch_bot_cases c items bot)
    as [E|(wanted & targets & t & latest & older & _ & _ & _ & _ & _ & H)].
  { rewrite E. split; [apply same_bot_refl|].
    apply Forall_Forall2_diag, Forall_forall. intros. apply same_bot_refl. }
  cbv zeta in H.
  destruct H as [[_ E]|[(_ & _ & E)|[(_ & _ & E)|(_ & _ & _ & E)]]];
    rewrite E; cbn [fst snd]; (split; [|apply Hitems]);
    first [apply same_bot_refl | by repeat split].
Qed.

Lemma Forall2_same_bot_trans (l1 l2 l3 : list IBotStatus) :
  Forall2 same_bot l1 l2 → Forall2 same_bot l2 l3 → Forall2 same_bot l1 l3.
Proof.
  intros H12. revert l3. induction H12; intros l3 H23;
    inversion H23; subst; constructor; eauto using same_bot_trans.
Qed.

(** X18.  The effect keeps every bot in its place: the selected bots and
    the items of the status list come out in the same number and order,
    each with its id, name, chosen target and targets. *)
Theorem effect_keeps_bots (c : Closure)
    (botStatusList selectedBots : list IBotStatus) :
  Forall2 same_bot selectedBots
    (watch_history c botStatusList selectedBots).1.1
  ∧ Forall2 same_bot botStatusList
      (watch_history c botStatusList selectedBots).1.2.
Proof.
  revert botStatusList.
  induction selectedBots as [|bot rest IH]; intros items;
    cbn [watch_history].
  { cbn [fst snd]. split; [constructor|].
    apply Forall_Forall2_diag, Forall_forall. intros. apply same_bot_refl. }
  destruct (watch_bot_same c items bot) as [Hbot Hitems].
  destruct (watch_bot c items bot) as [[bot' items'] acts].
  destruct (IH items') as [Hrest Hitems'].
  destruct (watch_history c items' rest) as [[rest' items''] acts'].
  cbn [fst snd] in *. split; [by constructor|].
  by eapply Forall2_same_bot_trans.
Qed.

(** The actions of the effect are the actions of its turns. *)
Lemma actions_of_turn (c : Closure) (items selectedBots : list IBotStatus)
    (a : Action) :
  In a (actions_of c items selectedBots) →
  ∃ bot items0, In bot selectedBots ∧ In a (watch_bot c items0 bot).2.
Proof.
  unfold actions_of. revert items.
  induction selectedBots as [|bot rest IH]; intros items;
    cbn [watch_history]; [done|].
  destruct (watch_bot c items bot) as [[bot' items'] acts] eqn:Hturn.
  specialize (IH items').
  destruct (watch_history c items' rest) as [[rest' items''] acts'].
  cbn [snd] in *. intros Hin. apply in_app_or in Hin as [Hin|Hin].
  - exists bot, items. rewrite Hturn. split; [by left|done].
  - destruct (IH Hin) as (bot0 & items0 & Hbot0 & Ha).
    exists bot0, items0. split; [by right|done].
Qed.

(** Apart from the status list it stores, a turn asks the same whatever
    the status list is. *)
Lemma watch_bot_actions_items (c : Closure) (items items' : list IBotStatus)
    (bot : IBotStatus) (a : Action) :
  In a (watch_bot c items bot).2 →
  (∀ l, a ≠ SetBotStatusList l) →
  In a (watch_bot c items' bot).2.
Proof.
  unfold watch_bot. intros Hin Hnot.
  destruct (publishTarget bot) as [wanted|]; [|done].
  destruct (publishTargets bot) as [targets|]; [|done].
  destruct (negb (wanted =? "")%string); [|done].
  destruct (find_target targets wanted) as [selectedTarget|]; [|done].
  destruct (history_of c (id bot) wanted) as [[|latest older]|];
    [done| |done].
  cbv zeta in *.
  destruct (status latest =? 202)%Z;
    [|destruct ((status latest =? 200)%Z || (status latest =? 500)%Z);
      [|destruct (_ && _)]];
    cbn [snd] in *; apply in_or_app; apply in_app_or in Hin as [Hin|Hin];
    first [by left | destruct Hin as [<-|[]]; destruct (Hnot _ eq_refl)].
Qed.

Lemma turn_of_actions (c : Closure) (items selectedBots : list IBotStatus)
    (bot : IBotStatus) (items0 : list IBotStatus) (a : Action) :
  In bot selectedBots →
  In a (watch_bot c items0 bot).2 →
  (∀ l, a ≠ SetBotStatusList l) →
  In a (actions_of c items selectedBots).
Proof.
  unfold actions_of. intros Hbot Ha Hnot. revert items.
  induction selectedBots as [|bot0 rest IH]; intros items;
    cbn [watch_history]; [done|].
  destruct Hbot as [->|Hin].
  - apply (watch_bot_actions_items _ _ items) in Ha; [|done].
    destruct (watch_bot c items bot) as [[bot' items'] acts].
    destruct (watch_history c items' rest) as [[rest' items''] acts'].
    cbn [snd] in *. apply in_or_app. by left.
  - destruct (watch_bot c items bot0) as [[bot' items'] acts].
    specialize (IH Hin items').
    destruct (watch_history c items' rest) as [[rest' items''] acts'].
    cbn [snd] in *. apply in_or_app. by right.
Qed.

(** The turn behind a notification. *)
Lemma notification_turn (c : Closure)
    (botStatusList selectedBots : list IBotStatus) (shown : IBotStatus) :
  In (AddPublishedNotification shown)
     (actions_of c botStatusList selectedBots) →
  ∃ bot wanted latest older,
    In bot selectedBots
    ∧ shown = set_status bot (status latest)
    ∧ (status latest = 200%Z ∨ status latest = 500%Z)
    ∧ showNotifications c !! id bot = Some true
    ∧ publishTarget bot = Some wanted
    ∧ history_of c (id bot) wanted = Some (latest :: older)
    ∧ In (SetShowNotifications (<[id bot := false]> (showNotifications c)))
         (actions_of c botStatusList selectedBots).
Proof.
  intros Hin.
  destruct (actions_of_turn _ _ _ _ Hin) as (bot & items0 & Hbot & Ha).
  destruct (watch_bot_cases c items0 bot)
    as [E|(wanted & targets & t & latest & older
           & Hwanted & _ & _ & _ & Hhist & H)].
  { rewrite E in Ha. destruct Ha. }
  cbv zeta in H.
  destruct H as [[_ E]|[(Hst & Hshow & E)|[(_ & _ & E)|(_ & _ & _ & E)]]];
    rewrite E in Ha; cbn [snd] in Ha.
  1,3,4: repeat (destruct Ha as [Ha|Ha]; [discriminate Ha|]); destruct Ha.
  exists bot, wanted, latest, older. split_and!; try done.
  - destruct (pendingNotification c); cbn [app In] in Ha;
      repeat (destruct Ha as [Ha|Ha]; [by simplify_eq|]); destruct Ha.
  - apply (turn_of_actions c _ _ bot items0); [done| |done].
    rewrite E. cbn [snd]. apply in_or_app. right. right. by left.
Qed.

(** X19.  A notification is shown only for a selected bot whose latest
    snapshot says success or failure and whose flag in [showNotifications]
    is set; the bot shown carries that status, and in the same run the flag
    of that bot is handed to [setShowNotifications] as false, on top of the
    flags the effect started with. *)
Theorem effect_notifies_finished_bots (c : Closure)
    (botStatusList selectedBots : list IBotStatus) (shown : IBotStatus) :
  In (AddPublishedNotification shown)
     (actions_of c botStatusList selectedBots) →
  showNotifications c !! id shown = Some true
  ∧ (bot_status shown = Some 200%Z ∨ bot_status shown = Some 500%Z)
  ∧ (∃ bot wanted latest older,
       In bot selectedBots ∧ same_bot bot shown
       ∧ publishTarget bot = Some wanted
       ∧ history_of c (id bot) wanted = Some (latest :: older)
       ∧ bot_status shown = Some (status latest))
  ∧ In (SetShowNotifications (<[id shown := false]> (showNotifications c)))
       (actions_of c botStatusList selectedBots).
Proof.
  intros Hin.
  destruct (notification_turn _ _ _ _ Hin)
    as (bot & wanted & latest & older & Hbot & -> & Hst & Hshow & Hwanted
        & Hhist & Hset).
  cbn [set_status id bot_status]. split_and!; [done| | |done].
  - destruct Hst as [->| ->]; [by left|by right].
  - exists bot, wanted, latest, older. by repeat split.
Qed.

(** X20.  A timer is armed only for a selected bot whose latest snapshot
    for the chosen target is pending (202); it is armed with the polling
    interval, for the project of that bot and the chosen target. *)
Theorem effect_polls_pending_targets (c : Closure)
    (botStatusList selectedBots : list IBotStatus)
    (delay : Z) (botProjectId : string) (target : PublishTarget) :
  In (SetTimeout_getPublishStatus delay botProjectId target)
     (actions_of c botStatusList selectedBots) →
  delay = 10000%Z
  ∧ ∃ bot targets latest older,
      In bot selectedBots ∧ id bot = botProjectId
      ∧ publishTarget bot = Some (name target)
      ∧ publishTargets bot = Some targets ∧ In target targets
      ∧ history_of c botProjectId (name target) = Some (latest :: older)
      ∧ status latest = 202%Z.
Proof.
  intros Hin.
  destruct (actions_of_turn _ _ _ _ Hin) as (bot & items0 & Hbot & Ha).
  destruct (watch_bot_cases c items0 bot)
    as [E|(wanted & targets & t & latest & older
           & Hwanted & _ & Htargets & Hfind & Hhist & H)].
  { rewrite E in Ha. destruct Ha. }
  apply find_target_name in Hfind as [Ht Hname].
  cbv zeta in H.
  destruct H as [[H202 E]|[(Hst & Hshow & E)|[(_ & _ & E)|(_ & _ & _ & E)]]];
    rewrite E in Ha; cbn [snd] in Ha.
  2: { destruct (pendingNotification c); cbn [app In] in Ha;
         repeat (destruct Ha as [Ha|Ha]; [discriminate Ha|]); destruct Ha. }
  2,3: repeat (destruct Ha as [Ha|Ha]; [discriminate Ha|]); destruct Ha.
  destruct Ha as [Ha|[Ha|[]]]; [|discriminate Ha].
  injection Ha as <- <- <-. split; [reflexivity|].
  exists bot, targets, latest, older. subst wanted. by split_and!.
Qed.

(** X21.  While the latest snapshot of a selected bot is pending, the
    effect arms the timer for it: polling goes on until the server stops
    answering 202. *)
Theorem effect_keeps_polling (c : Closure)
    (botStatusList selectedBots : list IBotStatus) (bot : IBotStatus)
    (wanted : string) (targets : list PublishTarget)
    (selectedTarget : PublishTarget) (latest : IStatus)
    (older : list IStatus) :
  In bot selectedBots →
  publishTarget bot = Some wanted → wanted ≠ "" →
  publishTargets bot = Some targets →
  find_target targets wanted = Some selectedTarget →
  history_of c (id bot) wanted = Some (latest :: older) →
  status latest = 202%Z →
  In (SetTimeout_getPublishStatus getPublishStatusInterval (id bot)
        selectedTarget)
     (actions_of c botStatusList selectedBots).
Proof.
  intros Hbot Hwanted Hne Htargets Hfind Hhist H202.
  apply (turn_of_actions c _ _ bot botStatusList); [done| |done].
  unfold watch_bot.
  rewrite Hwanted, Htargets.
  assert (negb (wanted =? "")%string = true) as ->.
  { apply negb_true_iff, String.eqb_neq. done. }
  rewrite Hfind, Hhist.
  assert ((status latest =? 202)%Z = true) as -> by lia.
  cbn. by left.
Qed.

(** X22.  When no selected bot has a snapshot to look at, the effect does
    nothing: no action, and the bots and the status list stay as they
    are. *)
Theorem effect_idle_without_snapshots (c : Closure)
    (botStatusList selectedBots : list IBotStatus) :
  (∀ bot, In bot selectedBots → nothing_to_watch c bot) →
  watch_history c botStatusList selectedBots
  = (selectedBots, botStatusList, []).
Proof.
  induction selectedBots as [|bot rest IH]; intros Hidle;
    cbn [watch_history]; [done|].
  assert (watch_bot c botStatusList bot = (bot, botStatusList, [])) as ->.
  { destruct (watch_bot_cases c botStatusList bot)
      as [E|(wanted & targets & t & latest & older
             & Hwanted & _ & _ & _ & Hhist & _)]; [done|].
    destruct (Hidle bot (or_introl eq_refl) wanted Hwanted); congruence. }
  rewrite IH; [done|]. intros bot' Hin. apply Hidle. by right.
Qed.

Lemma history_of_updated (publishHistories : list IStatus)
    (botStatus : IBotStatus) (t : string) (c : Closure)
    (pid target : string) :
  publishTarget botStatus = Some t → t ≠ "" →
  history_of (with_history c publishHistories botStatus) pid target
  = if decide (pid = id botStatus ∧ target = t) then
      match history_of c pid target with
      | Some _ => Some publishHistories
      | None =>
          if existsb (λ h, String.eqb (projectId h) pid)
               (botPublishHistoryList c)
          then Some publishHistories else None
      end
    else history_of c pid target.
Proof.
  intros Ht Hne. unfold history_of, with_history, updatePublishHistory.
  cbn [botPublishHistoryList]. rewrite Ht. cbn [chosen].
  assert (negb (t =? "")%string = true) as ->.
  { apply negb_true_iff, String.eqb_neq. done. }
  induction (botPublishHistoryList c) as [|h rest IH].
  { cbn. by destruct (decide _). }
  cbn [fmap list_fmap find existsb]. rewrite andb_true_r.
  destruct (projectId h =? id botStatus)%string eqn:Hid; cbn [projectId].
  - apply String.eqb_eq in Hid. rewrite Hid.
    destruct (id botStatus =? pid)%string eqn:Hpid; cbn [publishHistory orb].
    + apply String.eqb_eq in Hpid. subst pid.
      destruct (decide (id botStatus = id botStatus ∧ target = t))
        as [[_ ->]|Hn].
      * rewrite lookup_insert_eq. by destruct (publishHistory h !! t).
      * rewrite lookup_insert_ne; [done|]. intros ->. by apply Hn.
    + rewrite IH. cbn [orb]. done.
  - destruct (projectId h =? pid)%string eqn:Hpid; cbn [orb]; [|apply IH].
    apply String.eqb_eq in Hpid.
    destruct (decide (pid = id botStatus ∧ target = t)) as [[-> _]|_];
      [|done].
    apply String.eqb_neq in Hid. done.
Qed.

(** X23.  [updatePublishHistory] stores a history where the effect reads
    it: for a bot with a chosen target and a project in the list, the
    history of that bot and target becomes the one handed over, and the
    history of every other bot or target is left as it was. *)
Theorem updatePublishHistory_round_trip (publishHistories : list IStatus)
    (botStatus : IBotStatus) (t : string) (c : Closure) :
  publishTarget botStatus = Some t → t ≠ "" →
  (∃ h, In h (botPublishHistoryList c) ∧ projectId h = id botStatus) →
  history_of (with_history c publishHistories botStatus) (id botStatus) t
  = Some publishHistories
  ∧ ∀ pid target,
      ¬ (pid = id botStatus ∧ target = t) →
      history_of (with_history c publishHistories botStatus) pid target
      = history_of c pid target.
Proof.
  intros Ht Hne (h & Hin & Hid). split.
  - rewrite (history_of_updated _ _ t) by done.
    rewrite decide_True by done.
    destruct (history_of c (id botStatus) t); [done|].
    assert (existsb (λ h, (projectId h =? id botStatus)%string)
              (botPublishHistoryList c) = true) as ->; [|done].
    apply existsb_exists. exists h. split; [done|]. by apply String.eqb_eq.
  - intros pid target Hother.
    rewrite (history_of_updated _ _ t) by done.
    by rewrite decide_False.
Qed.

Lemma publish_showNotifications_lookup (items : list IBotStatus)
    (acc : gmap string bool) (i : string) :
  fold_left (λ accumulator item, <[id item := true]> accumulator) items acc
    !! i
  = if decide (i ∈ id <$> items) then Some true else acc !! i.
Proof.
  revert acc. induction items as [|item items IH]; intros acc;
    cbn [fold_left fmap list_fmap].
  { rewrite decide_False; [done|]. apply not_elem_of_nil. }
  rewrite IH.
  destruct (decide (i ∈ id <$> items)) as [Hin|Hout].
  { rewrite decide_True; [done|]. apply elem_of_cons; by right. }
  destruct (decide (i = id item)) as [->|Hne].
  - rewrite decide_True by (apply elem_of_cons; by left).
    by rewrite lookup_insert_eq.
  - rewrite decide_False.
    + by rewrite lookup_insert_ne.
    + intros [->|Hin]%elem_of_cons; done.
Qed.

(** X24.  After [publish(items)] has set the flags, the effect shows a
    notification only for bots that were among the published items. *)
Theorem publish_notifies_published_bots (items : list IBotStatus)
    (histories : list BotPublishHistory) (note : option Notification)
    (botStatusList selectedBots : list IBotStatus) (shown : IBotStatus) :
  In (AddPublishedNotification shown)
     (actions_of
        {| botPublishHistoryList := histories;
           showNotifications := publish_showNotifications items;
           pendingNotification := note |}
        botStatusList selectedBots) →
  id shown ∈ id <$> items.
Proof.
  intros Hin.
  destruct (notification_turn _ _ _ _ Hin)
    as (bot & wanted & latest & older & _ & -> & _ & Hshow & _).
  cbn [set_status id]. cbn [showNotifications] in Hshow.
  unfold publish_showNotifications in Hshow.
  rewrite publish_showNotifications_lookup in Hshow.
  destruct (decide (id bot ∈ id <$> items)); [done|].
  by rewrite lookup_empty in Hshow.
Qed.

(** X25.  The status list that [publish] stores: the bots keep their
    number, order and ids, every bot among the published items is marked
    pending (202), and every other bot is left as it is. *)
Theorem publish_marks_published_pending
    (items botStatusList : list IBotStatus) :
  id <$> publish_botStatusList items botStatusList = id <$> botStatusList
  ∧ Forall2
      (λ bot bot',
         if decide (id bot ∈ id <$> items)
         then bot_status bot' = Some 202%Z
         else bot' = bot)
      botStatusList (publish_botStatusList items botStatusList).
Proof.
  assert (∀ bot,
            match List.find (λ i, String.eqb (id i) (id bot)) items with
            | Some item => id item = id bot ∧ id bot ∈ id <$> items
            | None => id bot ∉ id <$> items
            end) as Hfind.
  { intros bot. destruct (find _ items) as [item|] eqn:E.
    - apply find_some in E as [Hin Hid]. apply String.eqb_eq in Hid.
      split; [done|]. rewrite <- Hid. apply list_elem_of_fmap.
      exists item. split; [done|]. by apply list_elem_of_In.
    - intros (item & Hid & Hin)%list_elem_of_fmap.
      apply list_elem_of_In in Hin.
      pose proof (find_none _ _ E item Hin) as Hno. cbn in Hno.
      apply String.eqb_neq in Hno. by rewrite Hid in Hno. }
  unfold publish_botStatusList.
  induction botStatusList as [|bot rest [IHid IHst]];
    cbn [fmap list_fmap]; [by split; [|constructor]|].
  specialize (Hfind bot).
  destruct (find _ items) as [item|].
  - destruct Hfind as [Hid Hin]. split.
    + cbn [set_status id]. by rewrite Hid, <- IHid.
    + constructor; [|done]. by rewrite decide_True.
  - split.
    + by rewrite <- IHid.
    + constructor; [|done]. by rewrite decide_False.
Qed.

End PublishPageFurther.

(** ** Publishing: the verdict and the order of the steps *)

#[local] Instance silent_sequential : Sequential silent.
Proof. exact (Forall_sequential _). Qed.

#[local] Instance uploads_nothing_sequential : Sequential uploads_nothing.
Proof. exact (Forall_sequential _). Qed.

Lemma ends_with_verdict_bind {W A B : Type} (m : M W A) (k : A → M W B) :
  adds silent m → (∀ a, ends_with_verdict (k a)) →
  ends_with_verdict (bind m k).
Proof.
  intros Hm Hk s. unfold bind.
  destruct (Hm s) as (l1 & E1 & S1).
  destruct (m s) as [[e|a] s1]; cbn [fst snd] in *.
  { by exists l1. }
  destruct (Hk a s1) as (l2 & S2 & H2). exists (l2 ++ l1).
  split; [apply Forall_app; by split|].
  destruct (k a s1) as [[e|b] s2]; cbn [fst snd] in *;
    rewrite H2, E1, ?app_assoc; reflexivity.
Qed.

Lemma ends_with_verdict_line {W : Type} :
  ends_with_verdict
    (logger (W := W) DEPLOY_SUCCESS (PText "Publish To Azure Success!")).
Proof. intros s. exists []. split; [constructor|reflexivity]. Qed.

Section DeployOrder.
Context {W : Type}.
Variable svc : Services W.
Variable JSON_parse : string → Res value.
Variable path_join : string → string → string.
Variable ToString : value → string.
Variable this : BotProjectDeploy.
Variable base64 : string → string.

Local Abbreviation deploy' :=
  (deploy svc JSON_parse path_join ToString this base64).
Local Abbreviation deploy_body' :=
  (deploy_body svc JSON_parse path_join ToString this base64).
Local Abbreviation prepare' := (prepare svc path_join this).
Local Abbreviation publishLuis' := (publishLuis svc JSON_parse ToString this).
Local Abbreviation pack_and_upload' := (pack_and_upload svc this base64).

(** Every event but the last one is taken apart. *)
Ltac quiet_steps :=
  unfold prepare, botPrepareDeploy, dotnetPublish, publishLuis,
    zipDirectory, deployZip, update_luis_settings, assign_account, logger;
  adds_steps_with
    ltac:(first
            [ apply collect_app_ids_adds; [apply _|]
            | lazymatch goal with
              | |- adds _ (if endsWith ?x ?y then _ else _) =>
                  destruct (endsWith x y); unfold notEmptyLuisModel
              end ]);
  by repeat constructor.

Lemma deploy_body_ends_with_verdict (name environment : string)
    (key region botPath language : option string) :
  ends_with_verdict (deploy_body' name environment key region botPath language).
Proof.
  unfold deploy_body, pack_and_upload. cbv zeta.
  repeat (apply ends_with_verdict_bind; [quiet_steps | intros ?]).
  apply ends_with_verdict_line.
Qed.

(** X27.  Every run of [deploy] tells how it ended, once and as its last
    step: either by the success line, when every step went through, or by
    printing the error that stopped it.  Neither a success line nor a
    printed error comes earlier in the run. *)
Theorem deploy_ends_with_one_verdict
    (w : W) (name environment : string)
    (key region botPath language : option string) :
  (∃ l,
     calls (deploy' name environment key region botPath language) w
     = success_line :: l
     ∧ silent l)
  ∨ (∃ e l,
       calls (deploy' name environment key region botPath language) w
       = EvConsoleLog e :: l
       ∧ silent l).
Proof.
  unfold calls, deploy, try_catch.
  destruct (deploy_body_ends_with_verdict name environment key region botPath
              language (fresh w)) as (l & Hl & E).
  destruct (deploy_body' _ _ _ _ _ _ (fresh w)) as [[e|[]] s'];
    cbn [fst snd fresh journal] in *; rewrite app_nil_r in E.
  - right. exists e, l. cbn. by rewrite E.
  - left. by exists l.
Qed.

(** The events that a run has added to the journal it started from. *)
Ltac prefix_of j t :=
  lazymatch j with
  | t => constr:(@nil Event)
  | ?ev :: ?j' => let p := prefix_of j' t in constr:(ev :: p)
  end.

Ltac give_increment :=
  lazymatch goal with
  | |- ∃ l, ?j = l ++ ?t ∧ _ =>
      let p := prefix_of j t in exists p; split; [reflexivity|]
  end.

(** What [prepare] leaves in the journal when it completes. *)
Lemma prepare_built (botPath : option string) (s : State W) :
  ∃ l,
    journal (prepare' botPath s).2 = l ++ journal s
    ∧ uploads_nothing l
    ∧ ∀ settings,
        (prepare' botPath s).1 = Ok settings →
        (∃ cmd, In (EvExec cmd (Ok tt)) l)
        ∧ In (EvReadJson (settingsPath this) (Ok settings)) l.
Proof.
  destruct (prepare' botPath s) as [res s'] eqn:Hrun. cbn [fst snd].
  unfold prepare, botPrepareDeploy, dotnetPublish, logger in Hrun.
  run_all Hrun; simplify_eq; cbn [journal push moved].
  all: repeat match goal with u : unit |- _ => destruct u end.
  all: give_increment.
  all: split; [by repeat constructor|].
  all: intros settings Hok; simplify_eq.
  all: split; [eexists|]; find_event.
Qed.

(** What [pack_and_upload] adds to the journal. *)
Lemma pack_uploaded (name environment : string) (s : State W) :
  ∃ l,
    journal (pack_and_upload' name environment s).2 = l ++ journal s
    ∧ ∀ url body auth len r,
        In (EvRpPost url (ZipUpload body auth len) r) l →
        In (EvZip (publishFolder this) (zipPath this) (Ok tt)) l
        ∧ In (EvReadFile (zipPath this) (Ok body)) l.
Proof.
  destruct (pack_and_upload' name environment s) as [res s'] eqn:Hrun.
  cbn [fst snd].
  unfold pack_and_upload, zipDirectory, deployZip, logger in Hrun.
  run_all Hrun; simplify_eq; cbn [journal push moved].
  all: repeat match goal with u : unit |- _ => destruct u end.
  all: give_increment.
  all: intros url body auth len r Hin; in_cases Hin.
  all: split; find_event.
Qed.

(** X28.  [deploy] uploads only what it has just built: an archive is
    uploaded only in a run in which the build command succeeded, the
    settings were read, and the publish folder was packed into the archive
    without error; and the body uploaded is the content read from that
    archive. *)
Theorem deploy_uploads_what_it_built
    (w : W) (name environment : string)
    (key region botPath language : option string)
    (url body auth : string) (len : nat) (r : Res value) :
  In (EvRpPost url (ZipUpload body auth len) r)
     (calls (deploy' name environment key region botPath language) w) →
  (∃ cmd,
     In (EvExec cmd (Ok tt))
        (calls (deploy' name environment key region botPath language) w))
  ∧ (∃ settings,
       In (EvReadJson (settingsPath this) (Ok settings))
          (calls (deploy' name environment key region botPath language) w))
  ∧ In (EvZip (publishFolder this) (zipPath this) (Ok tt))
       (calls (deploy' name environment key region botPath language) w)
  ∧ In (EvReadFile (zipPath this) (Ok body))
       (calls (deploy' name environment key region botPath language) w).
Proof.
  unfold calls. rewrite deploy_run.
  destruct (prepare_built botPath (fresh w)) as (l0 & E0 & Hl0 & Hok).
  assert (∀ l, uploads_nothing l →
               ¬ In (EvRpPost url (ZipUpload body auth len) r) l) as Hnone.
  { intros l Hl Hin. unfold uploads_nothing in Hl.
    rewrite List.Forall_forall in Hl. specialize (Hl _ Hin). discriminate Hl. }
  destruct (prepare' botPath (fresh w)) as [[e|settings] s1];
    cbn [fst snd fresh journal] in *; rewrite app_nil_r in E0.
  { cbn [journal push]. rewrite E0. intros [Hin|Hin]; [discriminate Hin|].
    by destruct (Hnone l0). }
  destruct (Hok settings eq_refl) as [[cmd Hcmd] Hread].
  destruct (resolve_luis settings key region) as [e|c].
  { cbn [journal push snd]. rewrite E0. intros [Hin|Hin]; [discriminate Hin|].
    by destruct (Hnone l0). }
  unfold try_catch, bind.
  match goal with
  | |- context [(if ?b then ?m else ret tt) s1] =>
      assert (adds uploads_nothing (if b then m else ret tt)) as Hluis
        by (destruct b; quiet_steps)
  end.
  destruct (Hluis s1) as (l1 & E1 & Hl1).
  match goal with
  | |- context [(if ?b then ?m else ret tt) s1] =>
      destruct ((if b then m else ret tt) s1) as [[e|[]] s2]
  end; cbn [snd] in E1.
  { cbn [record journal push snd]. rewrite E1, E0.
    intros [Hin|Hin]; [discriminate Hin|].
    apply in_app_or in Hin as [Hin|Hin]; [by destruct (Hnone l1)|].
    by destruct (Hnone l0). }
  destruct (pack_uploaded name environment s2) as (l2 & E2 & Hl2).
  assert (∀ ev, In ev (l2 ++ l1 ++ l0) →
                In ev (journal
                         (match pack_and_upload' name environment s2 with
                          | (Throw e, s') => record (EvConsoleLog e) s'
                          | (Ok a, s') => (Ok a, s')
                          end).2)) as Hsub.
  { intros ev Hev.
    destruct (pack_and_upload' name environment s2) as [[e|[]] s3];
      cbn [record journal push snd] in *; rewrite E2, E1, E0;
      [right|]; done. }
  intros Hin.
  assert (In (EvRpPost url (ZipUpload body auth len) r) l2) as Hup.
  { destruct (pack_and_upload' name environment s2) as [[e|[]] s3];
      cbn [record journal push snd] in *; rewrite E2, E1, E0 in Hin.
    - destruct Hin as [Hin|Hin]; [discriminate Hin|].
      apply in_app_or in Hin as [Hin|Hin]; [done|].
      apply in_app_or in Hin as [Hin|Hin];
        [by destruct (Hnone l1)|by destruct (Hnone l0)].
    - apply in_app_or in Hin as [Hin|Hin]; [done|].
      apply in_app_or in Hin as [Hin|Hin];
        [by destruct (Hnone l1)|by destruct (Hnone l0)]. }
  destruct (Hl2 _ _ _ _ _ Hup) as [Hzip Hfile].
  split_and!.
  - exists cmd. apply Hsub. apply in_or_app. right. apply in_or_app. by right.
  - exists settings. apply Hsub. apply in_or_app. right. apply in_or_app.
    by right.
  - apply Hsub. apply in_or_app. by left.
  - apply Hsub. apply in_or_app. by left.
Qed.
End DeployOrder.

(** ** The publish page: what the shared objects carry *)

Module PublishPageShared.
Import PublishPage PublishPageState PublishPageStore.

Lemma set_status_twice (o : IBotStatus) (st st' : Z) :
  set_status (set_status o st) st' = set_status o st'.
Proof. reflexivity. Qed.

Lemma write_same (h : Store) (r : Ref) (f : IBotStatus → IBotStatus) :
  obj (write h r f) r = f (obj h r).
Proof. cbn. by rewrite Nat.eqb_refl. Qed.

Lemma write_other (h : Store) (r r' : Ref) (f : IBotStatus → IBotStatus) :
  r' ≠ r → obj (write h r f) r' = obj h r'.
Proof. intros Hne. cbn. by apply Nat.eqb_neq in Hne as ->. Qed.

(** A write that keeps the id of the object keeps every id. *)
Lemma write_ids (h : Store) (r : Ref) (f : IBotStatus → IBotStatus) :
  (∀ o, id (f o) = id o) → ∀ r', id (obj (write h r f) r') = id (obj h r').
Proof.
  intros Hf r'. destruct (decide (r' = r)) as [->|Hne].
  - by rewrite write_same.
  - by rewrite write_other.
Qed.

(** *** The effect *)

Lemma refresh_in_place_other (botProjectId : string) (latest : IStatus)
    (botStatusList : list Ref) (h : Store) (r : Ref) :
  ¬ In r botStatusList →
  obj (refresh_in_place botProjectId latest botStatusList h) r = obj h r.
Proof.
  unfold refresh_in_place. revert h.
  induction botStatusList as [|item rest IH]; intros h Hout;
    cbn [fold_left]; [done|].
  rewrite IH by (intros Hin; apply Hout; by right).
  apply write_other. intros ->. apply Hout. by left.
Qed.

(** What a turn of the effect does to the status of an object that is not
    an item of the status list. *)
Lemma watch_bot_in_place_other (c : Closure) (botStatusList : list Ref)
    (h : Store) (bot r : Ref) :
  ¬ In r botStatusList →
  bot_status (obj (watch_bot_in_place c botStatusList h bot) r)
  = bot_status (obj h r)
  ∨ bot_status (obj (watch_bot_in_place c botStatusList h bot) r) = Some 200%Z
  ∨ bot_status (obj (watch_bot_in_place c botStatusList h bot) r) = Some 500%Z.
Proof.
  intros Hout. unfold watch_bot_in_place.
  destruct (publishTarget (obj h bot)) as [wanted|]; [|by left].
  destruct (publishTargets (obj h bot)) as [targets|]; [|by left].
  destruct (negb (wanted =? "")%string); [|by left].
  destruct (find_target targets wanted) as [selectedTarget|]; [|by left].
  destruct (history_of c (id (obj h bot)) wanted) as [[|latest older]|];
    [by left| |by left].
  cbv zeta. rewrite refresh_in_place_other by done.
  destruct (status latest =? 202)%Z; [by left|].
  destruct (status latest =? 200)%Z eqn:H200;
    destruct (status latest =? 500)%Z eqn:H500; cbn [orb]; [| | |by left].
  all: destruct (decide (r = bot)) as [->|Hne];
    [rewrite write_same; cbn [set_status bot_status]
    |rewrite write_other by done; by left].
  all: right.
  - left. f_equal. lia.
  - left. f_equal. lia.
  - right. f_equal. lia.
Qed.

Lemma watch_history_in_place_other (c : Closure)
    (botStatusList selectedBots : list Ref) (h : Store) (r : Ref) :
  ¬ In r botStatusList →
  bot_status (obj (watch_history_in_place c botStatusList selectedBots h) r)
  = bot_status (obj h r)
  ∨ bot_status (obj (watch_history_in_place c botStatusList selectedBots h) r)
    = Some 200%Z
  ∨ bot_status (obj (watch_history_in_place c botStatusList selectedBots h) r)
    = Some 500%Z.
Proof.
  intros Hout. unfold watch_history_in_place. revert h.
  induction selectedBots as [|bot rest IH]; intros h; cbn [fold_left];
    [by left|].
  destruct (IH (watch_bot_in_place c botStatusList h bot)) as [E|E];
    [|by right].
  rewrite E. by apply watch_bot_in_place_other.
Qed.

(** *** The copies made by [updateSelectedBots] *)

Lemma updateSelectedBots_new (chosen : list Ref) (h : Store) :
  free h ≤ free (updateSelectedBots chosen h).2
  ∧ length (updateSelectedBots chosen h).1 = length chosen
  ∧ (∀ r, r < free h → obj (updateSelectedBots chosen h).2 r = obj h r)
  ∧ Forall
      (λ r,
         free h ≤ r < free (updateSelectedBots chosen h).2
         ∧ bot_status (obj (updateSelectedBots chosen h).2 r) = None)
      (updateSelectedBots chosen h).1.
Proof.
  revert h. induction chosen as [|bot rest IH]; intros h;
    cbn [updateSelectedBots alloc].
  { cbn [fst snd]. by split_and!; [|reflexivity| |constructor]. }
  match goal with
  | |- context [updateSelectedBots rest ?h1] =>
      destruct (IH h1) as (Hfree & Hlen & Hold & Hnew);
      destruct (updateSelectedBots rest h1) as [bots h2]
  end.
  cbn [fst snd free obj length] in *.
  assert (∀ r, r < S (free h) →
               obj h2 r
               = (if r =? free h then copy_of (obj h bot) else obj h r))
    as Hold' by (intros r Hr; by rewrite Hold).
  split_and!.
  - lia.
  - by rewrite Hlen.
  - intros r Hr. rewrite Hold' by lia.
    by assert ((r =? free h) = false) as -> by (apply Nat.eqb_neq; lia).
  - constructor.
    + split; [lia|]. rewrite Hold' by lia. by rewrite Nat.eqb_refl.
    + eapply List.Forall_impl; [|exact Hnew].
      intros r [Hr E]. cbn beta in *. split; [lia|done].
Qed.

(** X26.  The selected bots that [updateSelectedBots] makes are new
    objects without a status, none of them an item of the status list;
    the effect writes into such a bot nothing but the status of a finished
    publish: after the effect each of them has no status, or 200, or 500,
    and never the pending status 202. *)
Theorem fresh_selected_bots_status_is_final (c : Closure)
    (botStatusList chosen : list Ref) (h : Store) (r : Ref) :
  (∀ item, In item botStatusList → item < free h) →
  In r (updateSelectedBots chosen h).1 →
  length (updateSelectedBots chosen h).1 = length chosen
  ∧ ¬ In r botStatusList
  ∧ bot_status (obj (updateSelectedBots chosen h).2 r) = None
  ∧ (bot_status
       (obj (watch_history_in_place c botStatusList
               (updateSelectedBots chosen h).1
               (updateSelectedBots chosen h).2) r) = None
     ∨ bot_status
         (obj (watch_history_in_place c botStatusList
                 (updateSelectedBots chosen h).1
                 (updateSelectedBots chosen h).2) r) = Some 200%Z
     ∨ bot_status
         (obj (watch_history_in_place c botStatusList
                 (updateSelectedBots chosen h).1
                 (updateSelectedBots chosen h).2) r) = Some 500%Z).
Proof.
  intros Hold Hr.
  destruct (updateSelectedBots_new chosen h) as (_ & Hlen & _ & Hnew).
  rewrite List.Forall_forall in Hnew. destruct (Hnew r Hr) as [Hrange Hnone].
  assert (¬ In r botStatusList) as Hout
    by (intros Hin; specialize (Hold r Hin); lia).
  split_and!; [done..|].
  destruct (watch_history_in_place_other c botStatusList
              (updateSelectedBots chosen h).1 (updateSelectedBots chosen h).2
              r Hout) as [E|E]; [|by right].
  left. by rewrite E.
Qed.

Lemma fresh_selected_bots_status_is_final_witness :
  ((∀ item, In item [0] → item < free one_bot)
   ∧ In 1 (updateSelectedBots [0] one_bot).1)
  ∧ length (updateSelectedBots [0] one_bot).1 = length [0]
  ∧ ¬ In 1 [0]
  ∧ bot_status (obj (updateSelectedBots [0] one_bot).2 1) = None
  ∧ (bot_status
       (obj (watch_history_in_place finished_history [0]
               (updateSelectedBots [0] one_bot).1
               (updateSelectedBots [0] one_bot).2) 1) = None
     ∨ bot_status
         (obj (watch_history_in_place finished_history [0]
                 (updateSelectedBots [0] one_bot).1
                 (updateSelectedBots [0] one_bot).2) 1) = Some 200%Z
     ∨ bot_status
         (obj (watch_history_in_place finished_history [0]
                 (updateSelectedBots [0] one_bot).1
                 (updateSelectedBots [0] one_bot).2) 1) = Some 500%Z).
Proof.
  assert (∀ item, In item [0] → item < free one_bot) as Hold.
  { intros item [<-|[]]. cbn. lia. }
  assert (In 1 (updateSelectedBots [0] one_bot).1) as Hsel
    by (left; reflexivity).
  split; [by split|].
  exact (fresh_selected_bots_status_is_final finished_history [0] [0] one_bot
           1 Hold Hsel).
Defined.

(** In that run the selected bot gets the status of the finished publish,
    and so does the item of the status list. *)
Example finished_publish_reaches_both_objects :
  bot_status
    (obj (watch_history_in_place finished_history [0]
            (updateSelectedBots [0] one_bot).1
            (updateSelectedBots [0] one_bot).2) 1) = Some 200%Z
  ∧ bot_status
      (obj (watch_history_in_place finished_history [0]
              (updateSelectedBots [0] one_bot).1
              (updateSelectedBots [0] one_bot).2) 0) = Some 200%Z.
Proof. split; reflexivity. Qed.

(** *** The objects that [publish] marks *)

Lemma find_item_ids (h h0 : Store) (items : list Ref) (bot : Ref) :
  (∀ r, id (obj h r) = id (obj h0 r)) →
  find_item h items bot = find_item h0 items bot.
Proof.
  intros Hids. unfold find_item. rewrite (Hids bot).
  induction items as [|i rest IH]; cbn [find]; [done|].
  by rewrite (Hids i), IH.
Qed.

Lemma find_item_found (h : Store) (items : list Ref) (bot item : Ref) :
  find_item h items bot = Some item →
  In item items ∧ id (obj h item) = id (obj h bot).
Proof.
  unfold find_item. intros H. apply find_some in H as [Hin Hid].
  split; [done|]. by apply String.eqb_eq.
Qed.

(** A bot for which no item is found is not one of the items. *)
Lemma find_item_none (h : Store) (items : list Ref) (bot : Ref) :
  find_item h items bot = None → ¬ In bot items.
Proof.
  unfold find_item. intros H Hin.
  pose proof (find_none _ _ H bot Hin) as Hno. cbn beta in Hno.
  by rewrite String.eqb_refl in Hno.
Qed.

(** The search among the values is the search among the objects. *)
Lemma find_item_values (h : Store) (items : list Ref) (bot : Ref) :
  find (λ i, String.eqb (id i) (id (obj h bot))) (obj h <$> items)
  = obj h <$> find_item h items bot.
Proof.
  unfold find_item. induction items as [|i rest IH];
    cbn [fmap list_fmap find]; [done|].
  destruct (id (obj h i) =? id (obj h bot))%string; [done|apply IH].
Qed.

(** The run of [publish_in_place] from a store [h] that has the ids of
    [h0]: the list stored, and the objects after the run. *)
Lemma publish_in_place_run (items botStatusList : list Ref) (h0 h : Store) :
  (∀ r, id (obj h r) = id (obj h0 r)) →
  (publish_in_place items botStatusList h).1
  = (λ bot, default bot (find_item h0 items bot)) <$> botStatusList
  ∧ free (publish_in_place items botStatusList h).2 = free h
  ∧ ∀ r,
      ((∃ bot, In bot botStatusList ∧ find_item h0 items bot = Some r) →
       obj (publish_in_place items botStatusList h).2 r
       = set_status (obj h r) 202)
      ∧ (¬ (∃ bot, In bot botStatusList ∧ find_item h0 items bot = Some r) →
         obj (publish_in_place items botStatusList h).2 r = obj h r)
      ∧ (obj (publish_in_place items botStatusList h).2 r = obj h r
         ∨ (In r items
            ∧ obj (publish_in_place items botStatusList h).2 r
              = set_status (obj h r) 202)).
Proof.
  revert h. induction botStatusList as [|bot rest IH]; intros h Hids;
    cbn [publish_in_place fmap list_fmap].
  { cbn [fst snd]. split_and!; [done..|]. intros r. split_and!.
    - by intros (bot & [] & _).
    - done.
    - by left. }
  rewrite (find_item_ids h h0) by done.
  destruct (find_item h0 items bot) as [item|] eqn:Hfind; cbn [default].
  - pose proof (find_item_found _ _ _ _ Hfind) as [Hitem _].
    destruct (IH (write h item (λ o, set_status o 202)))
      as (Hl & Hfree & Hobj).
    { intros r. rewrite write_ids; done. }
    destruct (publish_in_place items rest _) as [l h'].
    cbn [fst snd write free] in *. split_and!; [by rewrite Hl|done|].
    intros r. destruct (Hobj r) as (Hyes & Hno & Hframe).
    destruct (decide (r = item)) as [->|Hne].
    + rewrite write_same in *.
      assert (obj h' item = set_status (obj h item) 202) as E.
      { destruct Hframe as [E|[_ E]]; [done|by rewrite E]. }
      split_and!; [done| |by right].
      intros Hnone. destruct Hnone. exists bot. split; [by left|done].
    + rewrite write_other in * by done. split_and!; [| |done].
      * intros (bot' & [<-|Hin] & Hbot'); [congruence|].
        apply Hyes. by exists bot'.
      * intros Hnone. apply Hno. intros (bot' & Hin & Hbot').
        apply Hnone. exists bot'. split; [by right|done].
  - destruct (IH h Hids) as (Hl & Hfree & Hobj).
    destruct (publish_in_place items rest h) as [l h'].
    cbn [fst snd] in *. split_and!; [by rewrite Hl|done|].
    intros r. destruct (Hobj r) as (Hyes & Hno & Hframe).
    split_and!; [| |done].
    + intros (bot' & [<-|Hin] & Hbot'); [congruence|].
      apply Hyes. by exists bot'.
    + intros Hnone. apply Hno. intros (bot' & Hin & Hbot').
      apply Hnone. exists bot'. split; [by right|done].
Qed.

(** X29.  [publish] marks its items in place and stores them: at the place
    of each bot of the status list for which an item with its id is found,
    the new list holds that item itself, which now carries the pending
    status 202, and at every other place the bot that was there; no object
    is made, and an object changes only by being an item that got the
    status 202.  Read as values, the list stored is
    [publish_botStatusList]. *)
Theorem publish_stores_its_items (items botStatusList : list Ref)
    (h : Store) :
  Forall2
    (λ bot r,
       match find_item h items bot with
       | Some item =>
           r = item ∧ In item items
           ∧ obj (publish_in_place items botStatusList h).2 item
             = set_status (obj h item) 202
       | None =>
           r = bot
           ∧ obj (publish_in_place items botStatusList h).2 bot = obj h bot
       end)
    botStatusList (publish_in_place items botStatusList h).1
  ∧ free (publish_in_place items botStatusList h).2 = free h
  ∧ (∀ r,
       obj (publish_in_place items botStatusList h).2 r = obj h r
       ∨ (In r items
          ∧ obj (publish_in_place items botStatusList h).2 r
            = set_status (obj h r) 202))
  ∧ obj (publish_in_place items botStatusList h).2
      <$> (publish_in_place items botStatusList h).1
    = publish_botStatusList (obj h <$> items) (obj h <$> botStatusList).
Proof.
  destruct (publish_in_place_run items botStatusList h h)
    as (Hl & Hfree & Hobj); [done|].
  assert (∀ bot, In bot botStatusList →
            match find_item h items bot with
            | Some item =>
                In item items
                ∧ obj (publish_in_place items botStatusList h).2 item
                  = set_status (obj h item) 202
            | None =>
                obj (publish_in_place items botStatusList h).2 bot = obj h bot
            end) as Hplace.
  { intros bot Hbot. destruct (find_item h items bot) as [item|] eqn:Hfind.
    - split; [by apply (find_item_found h items bot)|].
      apply Hobj. by exists bot.
    - apply Hobj. intros (bot' & _ & Hbot').
      apply find_item_found in Hbot' as [Hin _].
      by apply find_item_none in Hfind. }
  split_and!; [|done|intros r; apply Hobj|].
  - rewrite Hl. clear Hl Hobj Hfree.
    set (h' := (publish_in_place items botStatusList h).2) in *.
    clearbody h'.
    induction botStatusList as [|bot rest IH]; cbn [fmap list_fmap];
      constructor.
    + specialize (Hplace bot (or_introl eq_refl)).
      destruct (find_item h items bot); cbn [default];
        [destruct Hplace|]; by split_and!.
    + apply IH. intros bot' Hin. apply Hplace. by right.
  - rewrite Hl. unfold publish_botStatusList.
    rewrite <- !list_fmap_compose. apply Forall_fmap_ext_1, Forall_forall.
    intros bot Hbot%list_elem_of_In. cbn [compose].
    specialize (Hplace bot Hbot). rewrite find_item_values.
    destruct (find_item h items bot) as [item|]; cbn;
      [by destruct Hplace as [_ ->]|done].
Qed.

(** The bot that was selected and then published is the item of the new
    status list, and carries the pending status; the effect, run while the
    publish is pending, leaves it so. *)
Example published_bot_is_shared_and_pending :
  selected.1 = [1]
  ∧ published.1 = [1]
  ∧ bot_status (obj published.2 1) = Some 202%Z
  ∧ bot_status
      (obj (watch_history_in_place pending_history published.1 selected.1
              published.2) 1) = Some 202%Z.
Proof. by split_and!. Qed.

End PublishPageShared.

(** ** Instances of the further provisioning properties *)

Lemma create_without_settings_file_witness :
  fs_existsSync (scripted missing_file) (settingsPath bot) tt = (false, tt)
  ∧ outcome (create_in missing_file "bot1" "westus" "dev" (Some "pw") None) tt
    = Ok None
  ∧ calls (create_in missing_file "bot1" "westus" "dev" (Some "pw") None) tt
    = [ EvLogger PROVISION_INFO
          (PText "! Could not find an 'appsettings.deployment.json' file in the current directory.");
        EvExistsSync (settingsPath bot) false ].
Proof.
  split; [reflexivity|].
  exact (create_without_settings_file (scripted missing_file) parse_any
           show_value bot tt tt "bot1" "westus" "dev" (Some "pw") None
           eq_refl).
Defined.

Lemma create_reuses_identity_witness :
  (In (EvReadJson (settingsPath bot) (Ok (VObj sample_settings))) provision_run
   ∧ getProp (VObj sample_settings) "MicrosoftAppId" = Ok (VStr "app-1")
   ∧ truthy (VStr "app-1") = true)
  ∧ (∀ n p r, ¬ In (EvApplicationsCreate n p r) provision_run)
  ∧ Forall (submits "bot1" "westus" (Some "pw") None (VStr "app-1")
              provision_run)
      provision_run.
Proof.
  assert (In (EvReadJson (settingsPath bot) (Ok (VObj sample_settings)))
             provision_run) as Hread
    by at_position 18.
  assert (getProp (VObj sample_settings) "MicrosoftAppId"
          = Ok (VStr "app-1")) as Hid
    by (vm_compute; reflexivity).
  split; [by split_and!|].
  exact (create_reuses_identity (scripted all_good) parse_any show_value bot
           tt "bot1" "westus" "dev" (Some "pw") None
           (VObj sample_settings) (VStr "app-1") Hread Hid eq_refl).
Defined.

Lemma create_false_on_deployment_failure_witness :
  (In (EvDeploymentsCreateOrUpdate "bot1-dev" "1599000000000"
         sample_deployment (Ok {| _response := {| status := 500 |} |}))
      refused_run
   ∧ status (_response {| _response := {| status := 500 |} |}) ≠ 200%Z)
  ∧ outcome (create_in deployment_refused "bot1" "westus" "dev" (Some "pw")
               None) tt
    = Ok (Some false)
  ∧ In (EvLogger PROVISION_ERROR (PText (delete_hint ("bot1" +:+ "-" +:+ "dev"))))
       refused_run
  ∧ (∀ g' dn' r', ¬ In (EvDeploymentsGet g' dn' r') refused_run)
  ∧ (∀ p data r', ¬ In (EvWriteFile p data r') refused_run).
Proof.
  assert (In (EvDeploymentsCreateOrUpdate "bot1-dev" "1599000000000"
                sample_deployment (Ok {| _response := {| status := 500 |} |}))
             refused_run) as Hdeploy
    by at_position 4.
  assert (status (_response {| _response := {| status := 500 |} |}) ≠ 200%Z)
    as Hstatus
    by (intros H; discriminate H).
  split; [by split|].
  exact (create_false_on_deployment_failure (scripted deployment_refused)
           parse_any show_value bot tt "bot1" "westus" "dev" (Some "pw") None
           "bot1-dev" "1599000000000" sample_deployment
           {| _response := {| status := 500 |} |} Hdeploy Hstatus).
Defined.

Lemma create_keeps_order_witness :
  (∃ g dn d r, In (EvDeploymentsCreateOrUpdate g dn d r) provision_run)
  ∧ group_created provision_run
  ∧ template_validated provision_run.
Proof.
  assert (∃ g dn d r, In (EvDeploymentsCreateOrUpdate g dn d r) provision_run)
    as Hdeploy.
  { exists "bot1-dev", "1599000000000", sample_deployment,
      (Ok {| _response := {| status := 200 |} |}).
    at_position 5. }
  split; [exact Hdeploy|].
  exact (proj1 (create_keeps_order (scripted all_good) parse_any show_value
                  bot tt "bot1" "westus" "dev" (Some "pw") None)
           Hdeploy).
Defined.

Lemma create_writes_registered_identity_witness :
  (In (EvApplicationsCreate "bot1" "pw" (Ok {| appId := Some "app-2" |}))
      first_provision_run
   ∧ In (EvWriteFile (settingsPath bot) (Stringified (VObj first_settings))
           (Ok tt))
        first_provision_run)
  ∧ "bot1" = "bot1"
  ∧ Some "pw" = Some "pw"
  ∧ first_settings !! "MicrosoftAppId"
    = Some (of_opt (appId {| appId := Some "app-2" |}))
  ∧ first_settings !! "MicrosoftAppPassword" = Some (VStr "pw").
Proof.
  assert (In (EvApplicationsCreate "bot1" "pw"
                (Ok {| appId := Some "app-2" |}))
             first_provision_run) as Hcreate
    by at_position 19.
  assert (In (EvWriteFile (settingsPath bot)
                (Stringified (VObj first_settings)) (Ok tt))
             first_provision_run) as Hwrite
    by at_position 2.
  split; [by split|].
  exact (create_writes_registered_identity (scripted first_provision)
           parse_any show_value bot tt "bot1" "westus" "dev" (Some "pw") None
           "bot1" "pw" (settingsPath bot) {| appId := Some "app-2" |}
           first_settings (Ok tt) Hcreate Hwrite).
Defined.

Lemma create_true_without_outputs_witness :
  (In (EvDeploymentsGet "bot1-dev" "1599000000000" (Ok None)) no_outputs_run
   ∧ truthy (deployment_outputs None) = false)
  ∧ outcome (create_in no_identity "bot1" "westus" "dev" (Some "pw") None) tt
    = Ok (Some true)
  ∧ ∀ p data r, ¬ In (EvWriteFile p data r) no_outputs_run.
Proof.
  assert (In (EvDeploymentsGet "bot1-dev" "1599000000000" (Ok None))
             no_outputs_run) as Hget
    by at_position 2.
  split; [by split|].
  exact (create_true_without_outputs (scripted no_identity) parse_any
           show_value bot tt "bot1" "westus" "dev" (Some "pw") None
           "bot1-dev" "1599000000000" None Hget eq_refl).
Defined.

(** ** Instances of the properties of the helpers *)

Lemma unpackObject_keeps_truthy_values_witness :
  unpackObject sample_outputs
  = Ok {[ "applicationInsights" := VStr "key-1" ]}
  ∧ ∀ k x,
      ({[ "applicationInsights" := VStr "key-1" ]} : gmap string value) !! k
      = Some x
      ↔ truthy x = true
        ∧ ∃ v, ({[ "applicationInsights" := pack (VStr "key-1") ]}
                : gmap string value) !! k = Some v
               ∧ getProp v "value" = Ok x.
Proof.
  assert (unpackObject sample_outputs
          = Ok {[ "applicationInsights" := VStr "key-1" ]}) as Hunpack
    by (vm_compute; reflexivity).
  split; [exact Hunpack|].
  exact (proj1 unpackObject_keeps_truthy_values _ _ Hunpack).
Defined.

Lemma getAccount_first_match_witness :
  getAccount (VArr [other_account; bot_account]) "bot1-dev-luis"
  = Ok bot_account
  ∧ (bot_account = VUndefined
     ∨ ∃ before after,
         [other_account; bot_account] = before ++ bot_account :: after
         ∧ getProp bot_account "AccountName" = Ok (VStr "bot1-dev-luis")
         ∧ ∀ b, In b before →
             ∃ n, getProp b "AccountName" = Ok n
                  ∧ is_string n "bot1-dev-luis" = false).
Proof.
  assert (getAccount (VArr [other_account; bot_account]) "bot1-dev-luis"
          = Ok bot_account) as Hfound
    by (vm_compute; reflexivity).
  split; [exact Hfound|].
  exact (proj1 getAccount_first_match _ _ _ Hfound).
Defined.

Lemma deployZip_uploads_with_fresh_credentials_witness :
  In (EvRpPost "https://bot1-dev.scm.azurewebsites.net/zipdeploy"
        (ZipUpload "{}" "Basic bot1-dev:bot1-dev-1599000000000" 2)
        (Ok (VStr "ok")))
     upload_run
  ∧ "https://bot1-dev.scm.azurewebsites.net/zipdeploy"
    = "https://" +:+ "bot1" +:+ "-" +:+ "dev"
      +:+ ".scm.azurewebsites.net/zipdeploy"
  ∧ ∃ now fileContent updateRes,
      In (EvTimestamp now) upload_run
      ∧ In (EvUpdatePublishingUser ("bot1" +:+ "-" +:+ "dev")
              ("bot1" +:+ "-" +:+ "dev" +:+ "-" +:+ now) (Ok updateRes))
           upload_run
      ∧ In (EvReadFile "/bot/code.zip" (Ok fileContent)) upload_run
      ∧ ZipUpload "{}" "Basic bot1-dev:bot1-dev-1599000000000" 2
        = ZipUpload fileContent
            ("Basic " +:+ plain (("bot1" +:+ "-" +:+ "dev") +:+ ":"
                                 +:+ ("bot1" +:+ "-" +:+ "dev" +:+ "-"
                                      +:+ now)))
            (String.length fileContent).
Proof.
  assert (In (EvRpPost "https://bot1-dev.scm.azurewebsites.net/zipdeploy"
                (ZipUpload "{}" "Basic bot1-dev:bot1-dev-1599000000000" 2)
                (Ok (VStr "ok")))
             upload_run) as Hpost
    by at_position 1.
  split; [exact Hpost|].
  exact (proj1 (deployZip_uploads_with_fresh_credentials (scripted all_good)
                  plain tt "/bot/code.zip" "bot1" "dev")
           _ _ _ Hpost).
Defined.

Lemma dotnetPublish_builds_then_copies_witness :
  In (EvCopy "/bot/ComposerDialogs" "/bot/bin/ComposerDialogs") build_run
  ∧ "/bot/bin/ComposerDialogs" = join_slash "/bot/bin" "ComposerDialogs"
  ∧ "/bot/ComposerDialogs"
    = if truthy (of_opt None) then show_opt None
      else join_slash "/bot" "ComposerDialogs".
Proof.
  assert (In (EvCopy "/bot/ComposerDialogs" "/bot/bin/ComposerDialogs")
             build_run) as Hcopy
    by at_position 0.
  split; [exact Hcopy|].
  exact (proj2 (proj2 (proj2
           (dotnetPublish_builds_then_copies (scripted all_good) join_slash
              bot tt "/bot/bin" "/bot" None)))
           _ _ Hcopy).
Defined.

Lemma prepare_touches_only_what_it_must_witness :
  (In (EvWriteFile (deployFilePath bot)
         (Text ("[config]" +:+ newline +:+ "project = BotProject.csproj"))
         (Ok tt))
      stale_run
   ∧ deployFilePath bot = deployFilePath bot
   ∧ Text ("[config]" +:+ newline +:+ "project = BotProject.csproj")
     = Text ("[config]" +:+ newline +:+ "project = BotProject.csproj")
   ∧ In (EvExistsSync (deployFilePath bot) false) stale_run)
  ∧ (In (EvRemove (zipPath bot) (Ok tt)) stale_run
     ∧ zipPath bot = zipPath bot
     ∧ In (EvPathExists (zipPath bot) (Ok true)) stale_run)
  ∧ (outcome (prepare stale_archive join_slash bot None) tt
     = Ok (VObj sample_settings)
     ∧ In (EvReadJson (settingsPath bot) (Ok (VObj sample_settings)))
          stale_run)
  ∧ (In (EvExistsSync (deployFilePath bot) true) prepare_run
     ∧ ∀ p data r, ¬ In (EvWriteFile p data r) prepare_run).
Proof.
  assert (In (EvWriteFile (deployFilePath bot)
                (Text ("[config]" +:+ newline
                       +:+ "project = BotProject.csproj"))
                (Ok tt))
             stale_run) as Hwrite
    by at_position 5.
  assert (In (EvRemove (zipPath bot) (Ok tt)) stale_run) as Hremove
    by at_position 3.
  assert (outcome (prepare stale_archive join_slash bot None) tt
          = Ok (VObj sample_settings)) as Hout
    by (vm_compute; reflexivity).
  assert (In (EvExistsSync (deployFilePath bot) true) prepare_run) as Hthere
    by at_position 4.
  pose proof (prepare_touches_only_what_it_must stale_archive join_slash bot
                tt None) as (Hw & _ & Hr & Hs).
  pose proof (prepare_touches_only_what_it_must (scripted all_good) join_slash
                bot tt None) as (_ & Hkeep & _).
  split_and!.
  - exact Hwrite.
  - exact (proj1 (Hw _ _ _ Hwrite)).
  - exact (proj1 (proj2 (Hw _ _ _ Hwrite))).
  - exact (proj2 (proj2 (Hw _ _ _ Hwrite))).
  - exact Hremove.
  - exact (proj1 (Hr _ _ Hremove)).
  - exact (proj2 (Hr _ _ Hremove)).
  - exact Hout.
  - exact (Hs _ Hout).
  - exact Hthere.
  - exact (Hkeep Hthere).
Defined.

Lemma deploy_needs_luis_section_witness :
  (prepare (scripted no_identity) join_slash bot None (fresh tt)
   = (Ok (VObj ∅), prepared_state)
   ∧ (∅ : gmap string value) !! "luis" = None
   ∧ (truthy (of_opt None) = false ∨ truthy (of_opt None) = false))
  ∧ deploy_in no_identity "bot1" "dev" None None None None (fresh tt)
    = (Ok tt, push (EvConsoleLog TypeError) prepared_state).
Proof.
  assert (prepare (scripted no_identity) join_slash bot None (fresh tt)
          = (Ok (VObj ∅), prepared_state)) as Hprepare
    by (vm_compute; reflexivity).
  split; [split_and!; [exact Hprepare | reflexivity | by left]|].
  exact (deploy_needs_luis_section (scripted no_identity) parse_any join_slash
           show_value bot plain tt "bot1" "dev" None None None None
           ∅ prepared_state Hprepare eq_refl (or_introl eq_refl)).
Defined.

Lemma publishLuis_loads_nonempty_models_witness :
  In (EvLoadContents ["/bot/main.lu"] "en-us" "dev" (VStr "westus")
        (Ok (VObj ∅)))
     models_run
  ∧ "en-us" = or_empty "en-us"
  ∧ "dev" = or_empty "dev"
  ∧ VStr "westus" = or_empty_value (authoringRegion sample_credentials)
  ∧ ∀ f, In f ["/bot/main.lu"] →
      endsWith f ".lu" = true
      ∧ (∃ data, In (EvReadFileSync f (Ok data)) models_run
                 ∧ 0 < String.length data)
      ∧ ∃ botFiles,
          In (EvGetFiles (remoteBotPath bot) (Ok botFiles)) models_run
          ∧ In f botFiles.
Proof.
  assert (In (EvLoadContents ["/bot/main.lu"] "en-us" "dev" (VStr "westus")
                (Ok (VObj ∅)))
             models_run) as Hload
    by at_position 15.
  split; [exact Hload|].
  exact (publishLuis_loads_nonempty_models with_models parse_any show_value
           bot tt "bot1" "dev" "en-us" sample_credentials
           ["/bot/main.lu"] "en-us" "dev" (VStr "westus") (Ok (VObj ∅))
           Hload).
Defined.

Lemma deploy_uploads_what_it_built_witness :
  In (EvRpPost "https://bot1-dev.scm.azurewebsites.net/zipdeploy"
        (ZipUpload "{}" "Basic bot1-dev:bot1-dev-1599000000000" 2)
        (Ok (VStr "ok")))
     luis_run
  ∧ (∃ cmd, In (EvExec cmd (Ok tt)) luis_run)
  ∧ (∃ settings, In (EvReadJson (settingsPath bot) (Ok settings)) luis_run)
  ∧ In (EvZip (publishFolder bot) (zipPath bot) (Ok tt)) luis_run
  ∧ In (EvReadFile (zipPath bot) (Ok "{}")) luis_run.
Proof.
  assert (In (EvRpPost "https://bot1-dev.scm.azurewebsites.net/zipdeploy"
                (ZipUpload "{}" "Basic bot1-dev:bot1-dev-1599000000000" 2)
                (Ok (VStr "ok")))
             luis_run) as Hpost
    by at_position 2.
  split; [exact Hpost|].
  exact (deploy_uploads_what_it_built (scripted all_good) parse_any join_slash
           show_value bot plain tt "bot1" "dev" (Some "key") (Some "westus")
           None None _ _ _ _ _ Hpost).
Defined.

(** ** Instances of the properties of the publish page *)

Module PublishPageInstances.
Import PublishPage PublishPageState.

Lemma effect_notifies_finished_bots_witness :
  In (AddPublishedNotification (set_status bot1 200))
     (actions_of finished_history [bot1] [bot1])
  ∧ showNotifications finished_history !! id (set_status bot1 200) = Some true
  ∧ (bot_status (set_status bot1 200) = Some 200%Z
     ∨ bot_status (set_status bot1 200) = Some 500%Z)
  ∧ (∃ bot wanted latest older,
       In bot [bot1] ∧ same_bot bot (set_status bot1 200)
       ∧ publishTarget bot = Some wanted
       ∧ history_of finished_history (id bot) wanted = Some (latest :: older)
       ∧ bot_status (set_status bot1 200) = Some (status latest))
  ∧ In (SetShowNotifications
          (<[id (set_status bot1 200) := false]>
             (showNotifications finished_history)))
       (actions_of finished_history [bot1] [bot1]).
Proof.
  assert (In (AddPublishedNotification (set_status bot1 200))
             (actions_of finished_history [bot1] [bot1])) as Hshown
    by (vm_compute; right; left; reflexivity).
  split; [exact Hshown|].
  exact (PublishPageFurther.effect_notifies_finished_bots finished_history
           [bot1] [bot1] (set_status bot1 200) Hshown).
Defined.

Lemma effect_polls_pending_targets_witness :
  In (SetTimeout_getPublishStatus 10000 "bot1" republished)
     (actions_of pending_history [bot1] [bot1])
  ∧ 10000%Z = 10000%Z
  ∧ ∃ bot targets latest older,
      In bot [bot1] ∧ id bot = "bot1"
      ∧ publishTarget bot = Some (name republished)
      ∧ publishTargets bot = Some targets ∧ In republished targets
      ∧ history_of pending_history "bot1" (name republished)
        = Some (latest :: older)
      ∧ status latest = 202%Z.
Proof.
  assert (In (SetTimeout_getPublishStatus 10000 "bot1" republished)
             (actions_of pending_history [bot1] [bot1])) as Htimer
    by (vm_compute; left; reflexivity).
  split; [exact Htimer|].
  exact (PublishPageFurther.effect_polls_pending_targets pending_history
           [bot1] [bot1] 10000 "bot1" republished Htimer).
Defined.

Lemma effect_keeps_polling_witness :
  (In bot1 [bot1]
   ∧ publishTarget bot1 = Some "prod" ∧ "prod" ≠ ""
   ∧ publishTargets bot1 = Some [republished]
   ∧ find_target [republished] "prod" = Some republished
   ∧ history_of pending_history (id bot1) "prod" = Some [pending]
   ∧ status pending = 202%Z)
  ∧ In (SetTimeout_getPublishStatus getPublishStatusInterval (id bot1)
          republished)
       (actions_of pending_history [bot1] [bot1]).
Proof.
  assert ("prod" ≠ "") as Hne by (intros H; discriminate H).
  split; [split_and!; first [exact Hne | reflexivity | by left]|].
  exact (PublishPageFurther.effect_keeps_polling pending_history [bot1] [bot1]
           bot1 "prod" [republished] republished pending []
           (or_introl eq_refl) eq_refl Hne eq_refl eq_refl eq_refl eq_refl).
Defined.

Lemma effect_idle_without_snapshots_witness :
  (∀ bot, In bot [bot1] → nothing_to_watch empty_history bot)
  ∧ watch_history empty_history [bot1] [bot1] = ([bot1], [bot1], []).
Proof.
  assert (∀ bot, In bot [bot1] → nothing_to_watch empty_history bot) as Hidle.
  { intros bot [<-|[]] wanted Hwanted. injection Hwanted as <-.
    right. reflexivity. }
  split; [exact Hidle|].
  exact (PublishPageFurther.effect_idle_without_snapshots empty_history
           [bot1] [bot1] Hidle).
Defined.

Lemma updatePublishHistory_round_trip_witness :
  (publishTarget bot1 = Some "prod" ∧ "prod" ≠ ""
   ∧ ∃ h, In h (botPublishHistoryList empty_history)
          ∧ projectId h = id bot1)
  ∧ history_of (with_history empty_history [pending] bot1) (id bot1) "prod"
    = Some [pending]
  ∧ ∀ pid target,
      ¬ (pid = id bot1 ∧ target = "prod") →
      history_of (with_history empty_history [pending] bot1) pid target
      = history_of empty_history pid target.
Proof.
  assert ("prod" ≠ "") as Hne by (intros H; discriminate H).
  assert (∃ h, In h (botPublishHistoryList empty_history)
               ∧ projectId h = id bot1) as Hproject.
  { eexists. split; [left; reflexivity|reflexivity]. }
  split; [by split_and!|].
  exact (PublishPageFurther.updatePublishHistory_round_trip [pending] bot1
           "prod" empty_history eq_refl Hne Hproject).
Defined.

Lemma publish_notifies_published_bots_witness :
  In (AddPublishedNotification (set_status bot1 200))
     (actions_of
        {| botPublishHistoryList := botPublishHistoryList finished_history;
           showNotifications := publish_showNotifications [bot1];
           pendingNotification := None |}
        [bot1] [bot1])
  ∧ id (set_status bot1 200) ∈ id <$> [bot1].
Proof.
  assert (In (AddPublishedNotification (set_status bot1 200))
            (actions_of
               {| botPublishHistoryList :=
                    botPublishHistoryList finished_history;
                  showNotifications := publish_showNotifications [bot1];
                  pendingNotification := None |}
               [bot1] [bot1])) as Hshown
    by (vm_compute; left; reflexivity).
  split; [exact Hshown|].
  exact (PublishPageFurther.publish_notifies_published_bots [bot1]
           (botPublishHistoryList finished_history) None [bot1] [bot1]
           (set_status bot1 200) Hshown).
Defined.

End PublishPageInstances.
